(** * The fetch / validate / assemble pipeline of [utility_scripts]

    A shallow embedding of the three download scripts under [script/]:

    - [download_mp4_from_jpegts_based_m3u8.py]: [download_segments_from_m3u8],
      [validate_and_fix_jpegs], [combine_jpegs_to_mp4] and
      [combine_mpegts_segments_to_mp4];
    - [dowlnload_mp4_from_jpeg_based_m3u8.py]: [download_jpeg_segments] and
      the base-URL normalisation of its [main].

    Python text is modelled as [string] (one character per code point below
    256), file contents as [list byte], the file system as a finite map from
    path to contents (directories are implicit), and the two external
    capabilities (HTTP GET, subprocess) as oracles that see the whole world,
    including the history of what has happened so far. *)

From stdpp Require Import gmap strings list sorting pretty.
From Stdlib Require Import Strings.Byte Ascii.

(** ** Python string primitives *)

Module Py.

(** [str.isspace] on one character, for code points below 256. *)
Definition isspace (c : ascii) : bool :=
  match c with
  | "009" | "010" | "011" | "012" | "013"
  | "028" | "029" | "030" | "031" | " " | "133" | "160" => true
  | _ => false
  end%char.

Fixpoint lstrip_by (p : ascii → bool) (s : string) : string :=
  match s with
  | EmptyString => EmptyString
  | String c s' => if p c then lstrip_by p s' else s
  end.

Definition rstrip_by (p : ascii → bool) (s : string) : string :=
  String.rev (lstrip_by p (String.rev s)).

(** [s.strip()] *)
Definition strip (s : string) : string := rstrip_by isspace (lstrip_by isspace s).

Definition is_slash (c : ascii) : bool := bool_decide (c = "/"%char).

(** [s.lstrip("/")] and [s.rstrip("/")] *)
Definition lstrip_slash : string → string := lstrip_by is_slash.
Definition rstrip_slash : string → string := rstrip_by is_slash.

(** [s.startswith(p)] *)
Fixpoint startswith (p s : string) : bool :=
  match p, s with
  | EmptyString, _ => true
  | String a p', String b s' => bool_decide (a = b) && startswith p' s'
  | String _ _, EmptyString => false
  end.

(** [s.endswith(p)] *)
Definition endswith (p s : string) : bool :=
  startswith (String.rev p) (String.rev s).

(** Truthiness of an optional string ([None] and [EmptyString] are falsy). *)
Definition truthy (o : option string) : bool :=
  match o with
  | Some s => negb (bool_decide (s = EmptyString))
  | None => false
  end.

(** [enumerate(l)] *)
Definition enumerate {A} (l : list A) : list (nat * A) := imap pair l.

(** [f"{i:04d}"] and [f"{i:06d}"]: decimal digits, padded on the left with
    zeros up to the minimum width; wider numbers are printed in full. *)
Definition zfill (width : nat) (s : string) : string :=
  String.concat EmptyString (replicate (width - String.length s) "0") +:+ s.
Definition format_d (width i : nat) : string := zfill width (pretty i).

(** [os.path.join(a, b)] on POSIX. *)
Definition path_join (a b : string) : string :=
  if startswith "/" b then b
  else if bool_decide (a = EmptyString) || endswith "/" a then a +:+ b
  else a +:+ "/" +:+ b.

(** Text-mode [f.readlines()]: the text is cut after every line ending;
    universal newlines turn each of CR LF, CR and LF into one LF. *)
Fixpoint readlines_go (cur : string) (s : string) : list string :=
  match s with
  | EmptyString => if bool_decide (cur = EmptyString) then [] else [String.rev cur]
  | String "010" s' => String.rev (String "010" cur) :: readlines_go EmptyString s'
  | String "013" (String "010" s') => String.rev (String "010" cur) :: readlines_go EmptyString s'
  | String "013" s' => String.rev (String "010" cur) :: readlines_go EmptyString s'
  | String c s' => readlines_go (String c cur) s'
  end%char.
Definition readlines (text : string) : list string := readlines_go EmptyString text.

End Py.

#[global] Arguments Py.startswith : simpl never.
#[global] Arguments Py.endswith : simpl never.
#[global] Arguments Py.strip : simpl never.
#[global] Arguments Py.lstrip_by : simpl never.
#[global] Arguments Py.rstrip_by : simpl never.
#[global] Arguments Py.format_d : simpl never.
#[global] Arguments Py.path_join : simpl never.

(** ** The world: files and an event history *)

#[global] Instance byte_eq_dec : EqDecision byte := Byte.byte_eq_dec.

(** Console lines.  Each constructor stands for one [print] of the scripts
    and carries the values interpolated into it. *)
Inductive message : Type :=
  (* parser and fetcher *)
  | ManifestNotFound (path : string)
  | SkippingRelativeWithoutBase (line : string)
  | FoundSegments (n : nat)
  | AlreadyExists (filename : string)
  | Downloading (url filename : string)
  | Downloaded (filename : string)
  | ErrorDownloading (url : string)
  | UnexpectedError (url : string)
  | SkippingToNextFile
  | CompleteWithErrors (download_errors : nat)
  | CompleteSuccessfully
  | SkippedExisting (skipped_files : nat)
  (* validator *)
  | Validating (total_files : nat)
  | Progress (i total_files : nat)
  | RemovingTiny (path : string) (file_size : nat)
  | RemovingInvalidHeader (path : string)
  | RemovingIncomplete (path : string)
  | RemovingUnreadable (path : string)
  | RemovingProblematic (path : string)
  | ValidationComplete (valid_count removed_count : nat)
  (* assembly engine *)
  | FfmpegNotFound
  | NoFilesFound (input_dir : string)
  | FoundFiles (n : nat)
  | CheckingFormat
  | NotMpegTsWarning
  | CouldNotCheckFormat
  | Trying (strategy : nat)
  | Created (strategy : nat) (size : nat)
  | CreatedWithErrors
  | StrategyFailed (strategy : nat)
  | StrategyTimedOut (strategy : nat)
  | StrategyError (strategy : nat)
  | CouldNotRemove (path : string)
  | TestSuccessful
  | TryingHevc
  | Info (text : string)
  | AllApproachesFailed
  | AllStrategiesFailedEncryptedHint (input_dir : string).

Inductive event : Type :=
  | Print (m : message)
  | HttpGet (url : string) (headers : list (string * string))
  | Subprocess (argv : list string) (timeout : option nat)
  | OpenRead (path : string).

Record World : Type := mkWorld {
  files : gmap string (list byte);
  log : list event
}.

(** Python exceptions, as far as the handlers of the scripts tell them apart. *)
Inductive exn : Type :=
  | RequestException
  | TimeoutExpired
  | CalledProcessError
  | FileNotFoundError
  | OSError
  | IndexError
  | ZeroDivisionError
  | OtherException.

Inductive res (A : Type) : Type :=
  | Val (a : A)
  | Exc (e : exn).
Arguments Val {A} a.
Arguments Exc {A} e.

(** A computation runs in a world and either returns or raises. *)
Definition M (A : Type) : Type := World → res A * World.

Definition ret {A} (a : A) : M A := λ w, (Val a, w).
Definition raise {A} (e : exn) : M A := λ w, (Exc e, w).
Definition bind {A B} (m : M A) (k : A → M B) : M B :=
  λ w, match m w with
       | (Val a, w') => k a w'
       | (Exc e, w') => (Exc e, w')
       end.
(** [try: m  except <any Exception> as e: h e] *)
Definition catch {A} (m : M A) (h : exn → M A) : M A :=
  λ w, match m w with
       | (Val a, w') => (Val a, w')
       | (Exc e, w') => h e w'
       end.

Declare Scope py_scope.
Delimit Scope py_scope with py.
Notation "'let!' x ':=' m 'in' k" := (bind m (λ x, k))
  (at level 10, x pattern, m at level 100, k at level 200,
   format "'[v' 'let!'  x  ':='  m  'in' '/' k ']'") : py_scope.
Notation "m '>>' k" := (bind m (λ _, k))
  (at level 100, k at level 200, right associativity) : py_scope.
Local Open Scope py_scope.

Definition emit (e : event) : M unit :=
  λ w, (Val tt, mkWorld (files w) (log w ++ [e])).
Definition print (m : message) : M unit := emit (Print m).

(** [for x in l: body x], threading the loop variables [acc]. *)
Fixpoint for_each {A S} (l : list A) (body : A → S → M S) (acc : S) : M S :=
  match l with
  | [] => ret acc
  | x :: l' => let! acc' := body x acc in for_each l' body acc'
  end.

(** *** File-system primitives *)

Definition os_path_exists (p : string) : M bool :=
  λ w, (Val (bool_decide (is_Some (files w !! p))), w).

Definition os_path_getsize (p : string) : M nat :=
  λ w, match files w !! p with
       | Some c => (Val (length c), w)
       | None => (Exc FileNotFoundError, w)
       end.

Definition os_remove (p : string) : M unit :=
  λ w, match files w !! p with
       | Some _ => (Val tt, mkWorld (delete p (files w)) (log w))
       | None => (Exc FileNotFoundError, w)
       end.

(** [open(p, "rb")] followed by reading: the whole contents are handed to the
    caller, who slices what it reads. *)
Definition open_rb (p : string) : M (list byte) :=
  λ w, match files w !! p with
       | Some c => (Val c, mkWorld (files w) (log w ++ [OpenRead p]))
       | None => (Exc FileNotFoundError, w)
       end.

(** [open(p, "w")] / [open(p, "wb")]: create or truncate. *)
Definition open_w (p : string) : M unit :=
  λ w, (Val tt, mkWorld (<[p := []]> (files w)) (log w)).

(** [f.write(data)] on a file opened for writing. *)
Definition write (p : string) (data : list byte) : M unit :=
  λ w, (Val tt, mkWorld (<[p := default [] (files w !! p) ++ data]> (files w)) (log w)).

(** [shutil.copy2(src, dst)] *)
Definition shutil_copy2 (src dst : string) : M unit :=
  λ w, match files w !! src with
       | Some c => (Val tt, mkWorld (<[dst := c]> (files w)) (log w))
       | None => (Exc FileNotFoundError, w)
       end.

(** Paths below directory [d]. *)
Definition inside (d : string) (p : string) : bool := Py.startswith (d +:+ "/") p.

(** [shutil.rmtree(d)], for a directory that [os.makedirs(d, exist_ok=True)]
    has created: everything below [d] goes. *)
Definition shutil_rmtree (d : string) : M unit :=
  λ w, (Val tt, mkWorld (filter (λ kv, inside d kv.1 = false) (files w)) (log w)).

(** [sorted(glob.glob(os.path.join(d, prefix + "*" + suffix)))] for a directory
    name without wildcard characters: the entries of [d] whose name starts
    with [prefix], ends with [suffix] and is long enough to hold both, in
    lexicographic order. *)
Definition glob_name_matches (prefix suffix name : string) : bool :=
  Py.startswith prefix name && Py.endswith suffix name
  && bool_decide (String.length prefix + String.length suffix ≤ String.length name)
  && negb (bool_decide ("/"%char ∈ String.list_ascii_of_string name)).

Definition glob_matches (d prefix suffix p : string) : bool :=
  let stem := Py.path_join d EmptyString in
  Py.startswith stem p
  && glob_name_matches prefix suffix (String.substring (String.length stem) (String.length p) p).

Definition sorted_glob (d prefix suffix : string) : M (list string) :=
  λ w, (Val (merge_sort String.le
               (filter (λ p, glob_matches d prefix suffix p = true)
                       (map fst (map_to_list (files w))))), w).

(** ** External capabilities *)

(** What [requests.get(url, stream=True, ...)] and the streaming of its body
    can do: raise before any response ([GetRaises]: refused connection,
    time-out, malformed URL), or answer with a status code and a body that
    arrives in chunks and may break off ([broken]) after the listed chunks. *)
Inductive http_reply : Type :=
  | GetRaises
  | Response (status_code : nat) (chunks : list (list byte)) (broken : bool).

(** What [subprocess.run(argv, capture_output=True, text=True, timeout=...)]
    can do, besides changing files. *)
Inductive proc_reply : Type :=
  | Completed (returncode : Z) (stderr : string)
  | TimedOut
  | NotFound
  | Crashed.

Record counters : Type := mkCounters {
  download_errors : nat;
  skipped_files : nat
}.

Section Pipeline.

(** The HTTP capability and the external tool.  Both are handed the world
    as it is when they are called (files and full history), so the same
    request may be answered differently at different times. *)
Context (http : string → list (string * string) → World → http_reply).
Context (tool : list string → option nat → World → proc_reply * gmap string (list byte)).
(** [os.path.abspath], which depends on the working directory, and the text
    Python prints for the float [1.0 / framerate]. *)
Context (abspath : string → string).
Context (duration_text : Z → string).

Definition requests_get (url : string) (headers : list (string * string))
  : M (nat * list (list byte) * bool) :=
  λ w, let w1 := mkWorld (files w) (log w ++ [HttpGet url headers]) in
       match http url headers w1 with
       | GetRaises => (Exc RequestException, w1)
       | Response status_code chunks broken => (Val (status_code, chunks, broken), w1)
       end.

(** [response.raise_for_status()] *)
Definition raise_for_status (status_code : nat) : M unit :=
  if bool_decide (400 ≤ status_code < 600) then raise RequestException else ret tt.

(** [with open(filename, "wb") as out_file:
       for chunk in response.iter_content(chunk_size=8192): out_file.write(chunk)] *)
Definition save_stream (filename : string) (chunks : list (list byte)) (broken : bool) : M unit :=
  open_w filename >>
  for_each chunks (λ chunk _, write filename chunk) tt >>
  if broken then raise RequestException else ret tt.

Definition subprocess_run (argv : list string) (timeout : option nat) : M (Z * string) :=
  λ w, let w1 := mkWorld (files w) (log w ++ [Subprocess argv timeout]) in
       let '(r, fs) := tool argv timeout w1 in
       let w2 := mkWorld fs (log w1) in
       match r with
       | Completed returncode stderr => (Val (returncode, stderr), w2)
       | TimedOut => (Exc TimeoutExpired, w2)
       | NotFound => (Exc FileNotFoundError, w2)
       | Crashed => (Exc OSError, w2)
       end.

(** *** Manifest parser and segment fetcher *)

(** The line loop of [download_segments_from_m3u8] (one iteration). *)
Definition collect_segment_url (base_url : option string)
    (line : string) (segment_urls : list string) : M (list string) :=
  let line := Py.strip line in
  if bool_decide (line = EmptyString) || Py.startswith "#" line then ret segment_urls
  else if Py.startswith "http://" line || Py.startswith "https://" line then
    ret (segment_urls ++ [line])
  else if Py.truthy base_url then
    ret (segment_urls ++
           [Py.rstrip_slash (default EmptyString base_url) +:+ "/" +:+ Py.lstrip_slash line])
  else
    print (SkippingRelativeWithoutBase line) >> ret segment_urls.

(** The line loop of [download_jpeg_segments] (one iteration). *)
Definition collect_jpeg_url (base_url : string)
    (line : string) (jpeg_urls : list string) : list string :=
  let line := Py.strip line in
  if Py.endswith ".jpeg" line then
    if Py.startswith "http://" line || Py.startswith "https://" line then
      jpeg_urls ++ [line]
    else
      jpeg_urls ++ [base_url +:+ line]
  else jpeg_urls.

(** [main] of the JPEG script, before it calls [download_jpeg_segments]:
    a non-empty base gets a trailing slash. *)
Definition main_base_url (base_url : string) : string :=
  if negb (bool_decide (base_url = EmptyString)) && negb (Py.endswith "/" base_url)
  then base_url +:+ "/" else base_url.

Definition segment_filename (i : nat) : string := "segment" +:+ Py.format_d 4 i +:+ ".ts".
Definition video_filename (i : nat) : string := "video" +:+ Py.format_d 4 i +:+ ".jpeg".

Definition browser_headers : list (string * string) :=
  [("User-Agent",
    "Mozilla/5.0 (Windows NT 10.0; Win64; x64) " +:+
    "AppleWebKit/537.36 (KHTML, like Gecko) " +:+
    "Chrome/122.0.0.0 Safari/537.36");
   ("Referer", "https://www.eporner.com/")].

(** One iteration of the download loop, which the two scripts share word
    for word except for the slot name and the request headers. *)
Definition download_one (slot : nat → string) (headers : list (string * string))
    (output_directory : string) (item : nat * string) (c : counters) : M counters :=
  let '(i, url) := item in
  let filename := Py.path_join output_directory (slot i) in
  let! present := os_path_exists filename in
  if present then
    print (AlreadyExists filename) >>
    ret (mkCounters (download_errors c) (skipped_files c + 1))
  else
    catch
      (print (Downloading url filename) >>
       let! (status_code, chunks, broken) := requests_get url headers in
       raise_for_status status_code >>
       save_stream filename chunks broken >>
       print (Downloaded filename) >>
       ret c)
      (λ e,
         match e with
         | RequestException => print (ErrorDownloading url)
         | _ => print (UnexpectedError url)
         end >>
         print SkippingToNextFile >>
         ret (mkCounters (download_errors c + 1) (skipped_files c))).

Definition download_loop (slot : nat → string) (headers : list (string * string))
    (output_directory : string) (urls : list string) : M counters :=
  for_each (Py.enumerate urls) (download_one slot headers output_directory)
           (mkCounters 0 0).

(** The closing report and the return value. *)
Definition report (c : counters) : M bool :=
  (if bool_decide (0 < download_errors c)
   then print (CompleteWithErrors (download_errors c))
   else print CompleteSuccessfully) >>
  (if bool_decide (0 < skipped_files c)
   then print (SkippedExisting (skipped_files c))
   else ret tt) >>
  ret true.

(** [with open(path, "r") as f: lines = f.readlines()] *)
Definition read_manifest (m3u8_file_path : string) : M (list string) :=
  let! text := open_rb m3u8_file_path in
  ret (Py.readlines (String.string_of_list_byte text)).

Definition download_segments_from_m3u8
    (m3u8_file_path output_directory : string) (base_url : option string) : M bool :=
  let! present := os_path_exists m3u8_file_path in
  if negb present then print (ManifestNotFound m3u8_file_path) >> ret false
  else
    let! lines := read_manifest m3u8_file_path in
    let! segment_urls := for_each lines (collect_segment_url base_url) [] in
    print (FoundSegments (length segment_urls)) >>
    let! c := download_loop segment_filename browser_headers output_directory segment_urls in
    report c.

Definition download_jpeg_segments
    (m3u8_file_path base_url output_directory : string) : M bool :=
  let! present := os_path_exists m3u8_file_path in
  if negb present then print (ManifestNotFound m3u8_file_path) >> ret false
  else
    let! lines := read_manifest m3u8_file_path in
    let jpeg_urls := foldl (λ acc line, collect_jpeg_url base_url line acc) [] lines in
    print (FoundSegments (length jpeg_urls)) >>
    let! c := download_loop video_filename [] output_directory jpeg_urls in
    report c.

(** *** Segment validator *)

(** How one pass through the [try] block of the validation loop ends:
    with [continue], or by falling through with [is_valid]. *)
Inductive flow : Type :=
  | Continue (valid_count removed_count : nat)
  | Fallthrough (is_valid : bool) (valid_count removed_count : nat).

Definition jpeg_start_marker : list byte := [xff; xd8; xff].
Definition jpeg_end_marker : list byte := [xff; xd9].

(** [header.startswith(b"\xff\xd8\xff")] *)
Definition has_start_marker (header : list byte) : bool :=
  bool_decide (take (length jpeg_start_marker) header = jpeg_start_marker).

(** [f.seek(-2, 2); f.read(2)] *)
Definition read_last_two (content : list byte) : M (list byte) :=
  if bool_decide (length content < 2) then raise OSError
  else ret (drop (length content - 2) content).

Definition validate_one (total_files : nat) (item : nat * string) (c : nat * nat)
  : M (nat * nat) :=
  let '(i, jpeg_file) := item in
  let '(valid_count, removed_count) := c in
  (if bool_decide (i `mod` 100 = 0) then print (Progress i total_files) else ret tt) >>
  let! fl :=
    catch
      (let! file_size := os_path_getsize jpeg_file in
       if bool_decide (file_size < 512) then
         print (RemovingTiny jpeg_file file_size) >>
         os_remove jpeg_file >>
         ret (Continue valid_count (removed_count + 1))
       else
         let! content := open_rb jpeg_file in
         let header := take 4 content in
         if negb (has_start_marker header) then
           print (RemovingInvalidHeader jpeg_file) >>
           os_remove jpeg_file >>
           ret (Continue valid_count (removed_count + 1))
         else
           let! footer := read_last_two content in
           if negb (bool_decide (footer = jpeg_end_marker)) then
             print (RemovingIncomplete jpeg_file) >>
             os_remove jpeg_file >>
             ret (Continue valid_count (removed_count + 1))
           else
             let! is_valid :=
               catch
                 (let! content := open_rb jpeg_file in
                  let data := take 1024 content in
                  ret (if bool_decide (500 < length data) then true else true))
                 (λ _, print (RemovingUnreadable jpeg_file) >> ret false) in
             if is_valid then ret (Fallthrough true (valid_count + 1) removed_count)
             else ret (Fallthrough false valid_count removed_count))
      (λ _, print (RemovingProblematic jpeg_file) >>
            ret (Fallthrough false valid_count removed_count)) in
  match fl with
  | Continue v r => ret (v, r)
  | Fallthrough true v r => ret (v, r)
  | Fallthrough false v r =>
      catch (os_remove jpeg_file >> ret (v, r + 1))
            (λ e, match e with
                  | FileNotFoundError | OSError => ret (v, r)
                  | _ => raise e
                  end)
  end.

Definition validate_and_fix_jpegs (input_dir : string) : M (nat * nat) :=
  let! jpeg_files := sorted_glob input_dir "video" ".jpeg" in
  let total_files := length jpeg_files in
  print (Validating total_files) >>
  let! (valid_count, removed_count) :=
    for_each (Py.enumerate jpeg_files) (validate_one total_files) (0, 0) in
  print (ValidationComplete valid_count removed_count) >>
  ret (valid_count, removed_count).

(** *** Assembly engine: shared pieces *)

Definition nl : string := String "010"%char EmptyString.
Definition bytes (text : string) : list byte := String.list_byte_of_string text.

(** [os.path.relpath(p, d)] for a path that [glob] produced below [d]. *)
Definition relpath (p d : string) : string :=
  let stem := Py.path_join d EmptyString in
  if Py.startswith stem p
  then String.substring (String.length stem) (String.length p) p
  else p.

(** [subprocess.run(["ffmpeg", "-version"], capture_output=True, check=True)]
    under [except (CalledProcessError, FileNotFoundError)]. *)
Definition ffmpeg_available : M bool :=
  catch
    (let! (returncode, _) := subprocess_run ["ffmpeg"; "-version"] None in
     if bool_decide (returncode = 0%Z) then ret true else raise CalledProcessError)
    (λ e, match e with
          | CalledProcessError | FileNotFoundError => print FfmpegNotFound >> ret false
          | _ => raise e
          end).

(** [os.path.exists(p) and os.path.getsize(p) > 1024] *)
Definition output_viable (p : string) : M bool :=
  let! present := os_path_exists p in
  if present then
    let! size := os_path_getsize p in
    ret (bool_decide (1024 < size))
  else ret false.

(** [result.returncode == 0 and os.path.exists(p) and os.path.getsize(p) > 1024] *)
Definition accepted (returncode : Z) (p : string) : M bool :=
  if bool_decide (returncode = 0%Z) then output_viable p else ret false.

Definition report_created (strategy : nat) (output_file : string) : M unit :=
  let! size := os_path_getsize output_file in
  print (Created strategy size).

(** The two handlers [except subprocess.TimeoutExpired] / [except Exception]
    that close most strategies. *)
Definition timed_out_or_error (strategy : nat) (e : exn) : M bool :=
  match e with
  | TimeoutExpired => print (StrategyTimedOut strategy)
  | _ => print (StrategyError strategy)
  end >> ret false.

(** Strategies are tried one after the other; a strategy that answers [true]
    has executed [return True]. *)
Fixpoint first_success (ladder : list (M bool)) : M bool :=
  match ladder with
  | [] => ret false
  | strategy :: rest =>
      let! done := strategy in
      if done then ret true else first_success rest
  end.

(** *** Assembly engine for JPEG segments: [combine_jpegs_to_mp4] *)

Definition ffmpeg_cmd_image2 (input_pattern output_file : string) (framerate : Z) : list string :=
  ["ffmpeg"; "-y"; "-f"; "image2"; "-framerate"; pretty framerate; "-i"; input_pattern;
   "-c:v"; "libx264"; "-preset"; "medium"; "-crf"; "23"; "-pix_fmt"; "yuv420p";
   "-vf"; "scale=trunc(iw/2)*2:trunc(ih/2)*2"; "-movflags"; "+faststart"; output_file].

Definition ffmpeg_cmd_concat (concat_file output_file : string) : list string :=
  ["ffmpeg"; "-y"; "-f"; "concat"; "-safe"; "0"; "-i"; concat_file;
   "-c:v"; "libx264"; "-preset"; "medium"; "-crf"; "23"; "-pix_fmt"; "yuv420p";
   "-vf"; "scale=trunc(iw/2)*2:trunc(ih/2)*2"; "-movflags"; "+faststart"; output_file].

Definition ffmpeg_cmd_temp (temp_pattern test_output : string) (framerate : Z) : list string :=
  ["ffmpeg"; "-y"; "-f"; "image2"; "-framerate"; pretty framerate; "-i"; temp_pattern;
   "-c:v"; "libx264"; "-preset"; "fast"; "-crf"; "25"; "-pix_fmt"; "yuv420p";
   "-t"; "10"; test_output].

Definition ffmpeg_cmd_full (temp_pattern output_file : string) (framerate : Z) : list string :=
  ["ffmpeg"; "-y"; "-f"; "image2"; "-framerate"; pretty framerate; "-i"; temp_pattern;
   "-c:v"; "libx264"; "-preset"; "medium"; "-crf"; "23"; "-pix_fmt"; "yuv420p";
   "-movflags"; "+faststart"; output_file].

Definition ffmpeg_cmd_force (input_pattern output_file : string) (framerate : Z) : list string :=
  ["ffmpeg"; "-y"; "-analyzeduration"; "2147483647"; "-probesize"; "2147483647";
   "-f"; "image2"; "-framerate"; pretty framerate; "-i"; input_pattern;
   "-c:v"; "libx264"; "-preset"; "ultrafast"; "-crf"; "28"; "-pix_fmt"; "yuv420p";
   "-avoid_negative_ts"; "make_zero"; "-fflags"; "+discardcorrupt+genpts+igndts";
   "-err_detect"; "ignore_err"; "-ignore_unknown"; "-max_muxing_queue_size"; "4096";
   output_file].

(** Strategy 1: image2 demuxer. *)
Definition jpeg_strategy_image2 (input_pattern output_file : string) (framerate : Z) : M bool :=
  print (Trying 1) >>
  catch
    (let! (returncode, _) :=
       subprocess_run (ffmpeg_cmd_image2 input_pattern output_file framerate) (Some 300) in
     let! ok := accepted returncode output_file in
     if ok then report_created 1 output_file >> ret true
     else print (StrategyFailed 1) >> ret false)
    (timed_out_or_error 1).

(** [f.write(f"duration {1.0 / framerate}\n")] *)
Definition write_duration (concat_file : string) (framerate : Z) : M unit :=
  if bool_decide (framerate = 0%Z) then raise ZeroDivisionError
  else write concat_file (bytes ("duration " +:+ duration_text framerate +:+ nl)).

(** Strategy 2: concat demuxer over a file list. *)
Definition jpeg_strategy_concat (input_dir : string) (jpeg_files : list string)
    (output_file : string) (framerate : Z) : M bool :=
  print (Trying 2) >>
  catch
    (let concat_file := Py.path_join input_dir "file_list.txt" in
     open_w concat_file >>
     for_each jpeg_files
       (λ jpeg_file _,
          let rel_path := relpath jpeg_file input_dir in
          write concat_file (bytes ("file '" +:+ rel_path +:+ "'" +:+ nl)) >>
          write_duration concat_file framerate) tt >>
     let! (returncode, _) :=
       subprocess_run (ffmpeg_cmd_concat concat_file output_file) (Some 300) in
     catch (os_remove concat_file) (λ _, print (CouldNotRemove concat_file)) >>
     let! ok := accepted returncode output_file in
     if ok then report_created 2 output_file >> ret true
     else print (StrategyFailed 2) >> ret false)
    (timed_out_or_error 2).

Definition frame_name (i : nat) : string := "frame" +:+ Py.format_d 6 i +:+ ".jpg".

(** [for i, jpeg_file in enumerate(files): ... shutil.copy2(jpeg_file, temp_name)] *)
Definition copy_frames (temp_dir : string) (shown_total every : nat)
    (files_to_copy : list string) : M unit :=
  for_each (Py.enumerate files_to_copy)
    (λ '(i, jpeg_file) _,
       (if bool_decide (i `mod` every = 0) then print (Progress i shown_total) else ret tt) >>
       shutil_copy2 jpeg_file (Py.path_join temp_dir (frame_name i))) tt.

(** Strategy 3: copy to a temporary directory, test on the first 100 frames,
    then process everything. *)
Definition jpeg_strategy_copy (input_dir : string) (jpeg_files : list string)
    (output_file : string) (framerate : Z) : M bool :=
  print (Trying 3) >>
  catch
    (let temp_dir := Py.path_join input_dir "temp_processing" in
     print (Info "Copying files to temporary location...") >>
     copy_frames temp_dir (100 `min` length jpeg_files) 50 (take 100 jpeg_files) >>
     let temp_pattern := Py.path_join temp_dir "frame%06d.jpg" in
     let! (returncode, _) :=
       subprocess_run
         (ffmpeg_cmd_temp temp_pattern (Py.path_join input_dir "test_output.mp4") framerate)
         (Some 60) in
     catch (shutil_rmtree temp_dir) (λ _, ret tt) >>
     let test_output := Py.path_join input_dir "test_output.mp4" in
     let! test_ok := accepted returncode test_output in
     if test_ok then
       print TestSuccessful >>
       copy_frames temp_dir (length jpeg_files) 200 jpeg_files >>
       let temp_pattern := Py.path_join temp_dir "frame%06d.jpg" in
       print (Info "Creating full video...") >>
       let! (returncode, _) :=
         subprocess_run (ffmpeg_cmd_full temp_pattern output_file framerate) None in
       catch (shutil_rmtree temp_dir >> os_remove test_output) (λ _, ret tt) >>
       let! ok := accepted returncode output_file in
       if ok then report_created 3 output_file >> ret true
       else ret false
     else print (StrategyFailed 3) >> ret false)
    (λ _, print (StrategyError 3) >> ret false).

(** Strategy 4: maximum error tolerance; the exit code is not consulted. *)
Definition jpeg_strategy_force (input_pattern output_file : string) (framerate : Z) : M bool :=
  print (Trying 4) >>
  catch
    (let! (returncode, _) :=
       subprocess_run (ffmpeg_cmd_force input_pattern output_file framerate) None in
     let! ok := output_viable output_file in
     if ok then
       report_created 4 output_file >>
       (if bool_decide (returncode ≠ 0%Z) then print CreatedWithErrors else ret tt) >>
       ret true
     else print (StrategyFailed 4) >> ret false)
    (λ _, print (StrategyError 4) >> ret false).

Definition jpeg_ladder (input_dir : string) (jpeg_files : list string)
    (output_file : string) (framerate : Z) : list (M bool) :=
  let input_pattern := Py.path_join input_dir "video%04d.jpeg" in
  [jpeg_strategy_image2 input_pattern output_file framerate;
   jpeg_strategy_concat input_dir jpeg_files output_file framerate;
   jpeg_strategy_copy input_dir jpeg_files output_file framerate;
   jpeg_strategy_force input_pattern output_file framerate].

Definition combine_jpegs_to_mp4 (input_dir output_file : string) (framerate : Z) : M bool :=
  let! available := ffmpeg_available in
  if negb available then ret false
  else
    let! jpeg_files := sorted_glob input_dir "video" ".jpeg" in
    if bool_decide (jpeg_files = []) then print (NoFilesFound input_dir) >> ret false
    else
      print (FoundFiles (length jpeg_files)) >>
      let! done := first_success (jpeg_ladder input_dir jpeg_files output_file framerate) in
      if done then ret true
      else print AllApproachesFailed >> ret false.

(** *** Assembly engine for transport-stream segments:
        [combine_mpegts_segments_to_mp4] *)

(** [header[i] != 0x47] *)
Definition differs_from_sync (header : list byte) (i : nat) : M bool :=
  match header !! i with
  | Some b => ret (negb (bool_decide (b = x47)))
  | None => raise IndexError
  end.

(** [header[0] != 0x47 and header[1] != 0x47 and header[2] != 0x47 and
     header[3] != 0x47], evaluated left to right. *)
Definition no_sync_byte (header : list byte) : M bool :=
  let! d0 := differs_from_sync header 0 in
  if negb d0 then ret false else
  let! d1 := differs_from_sync header 1 in
  if negb d1 then ret false else
  let! d2 := differs_from_sync header 2 in
  if negb d2 then ret false else
  differs_from_sync header 3.

Definition check_file_format (ts_files : list string) : M unit :=
  print CheckingFormat >>
  catch
    (let! first_file := match ts_files with
                        | f :: _ => ret f
                        | [] => raise IndexError
                        end in
     let! content := open_rb first_file in
     let header := take 4 content in
     let! suspicious := no_sync_byte header in
     if suspicious then print NotMpegTsWarning else ret tt)
    (λ _, print CouldNotCheckFormat).

(** [with open(concat_file, "w") as f:
       for ts_file in ts_files: f.write(f"file '{abspath(ts_file)}'\n")] *)
Definition write_segment_list (concat_file : string) (ts_files : list string) : M unit :=
  open_w concat_file >>
  for_each ts_files
    (λ ts_file _, write concat_file (bytes ("file '" +:+ abspath ts_file +:+ "'" +:+ nl))) tt.

(** [with open(target, "wb") as outfile:
       for i, ts_file in enumerate(parts):
           with open(ts_file, "rb") as infile: outfile.write(infile.read())] *)
Definition concatenate_into (target : string) (progress : option (nat * nat))
    (parts : list string) : M unit :=
  open_w target >>
  for_each (Py.enumerate parts)
    (λ '(i, ts_file) _,
       match progress with
       | Some (every, shown_total) =>
           if bool_decide (i `mod` every = 0) then print (Progress i shown_total) else ret tt
       | None => ret tt
       end >>
       let! data := open_rb ts_file in
       write target data) tt.

Definition ts_cmd_concat (concat_file output_file : string) : list string :=
  ["ffmpeg"; "-y"; "-f"; "concat"; "-safe"; "0"; "-i"; concat_file;
   "-c"; "copy"; "-bsf:a"; "aac_adtstoasc"; output_file].

Definition ts_cmd_copy (input output_file : string) : list string :=
  ["ffmpeg"; "-y"; "-i"; input; "-c"; "copy"; "-bsf:a"; "aac_adtstoasc"; output_file].

Definition ts_cmd_reencode (concat_file output_file : string) : list string :=
  ["ffmpeg"; "-y"; "-f"; "concat"; "-safe"; "0"; "-i"; concat_file;
   "-c:v"; "libx264"; "-preset"; "fast"; "-crf"; "23"; "-c:a"; "aac"; "-b:a"; "128k";
   "-movflags"; "+faststart"; "-max_muxing_queue_size"; "9999";
   "-err_detect"; "ignore_err"; "-fflags"; "+genpts+igndts"; output_file].

Definition ts_cmd_probe (first_file : string) : list string :=
  ["ffprobe"; "-v"; "error"; "-show_streams"; "-print_format"; "json"; first_file].

Definition ts_cmd_force (concat_file output_file : string) : list string :=
  ["ffmpeg"; "-y"; "-f"; "concat"; "-safe"; "0"; "-i"; concat_file;
   "-c:v"; "copy"; "-c:a"; "copy"; "-bsf:a"; "aac_adtstoasc";
   "-avoid_negative_ts"; "make_zero"; "-fflags"; "+discardcorrupt+genpts+igndts";
   "-err_detect"; "ignore_err"; "-ignore_unknown"; "-max_muxing_queue_size"; "9999";
   "-f"; "mp4"; output_file].

Definition ts_cmd_raw (codec temp_concat_file test_raw : string) : list string :=
  ["ffmpeg"; "-y"; "-f"; codec; "-i"; temp_concat_file; "-c:v"; "copy"; "-f"; "mp4"; test_raw].

(** The common tail of strategies 1 to 4: accept on exit code 0 and a viable
    output, report failure otherwise. *)
Definition ts_conclude (strategy : nat) (returncode : Z) (output_file : string) : M bool :=
  let! ok := accepted returncode output_file in
  if ok then report_created strategy output_file >> ret true
  else print (StrategyFailed strategy) >> ret false.

(** Strategy 1: concat demuxer with stream copy. *)
Definition ts_strategy_concat (input_dir : string) (ts_files : list string)
    (output_file : string) : M bool :=
  print (Trying 1) >>
  catch
    (let concat_file := Py.path_join input_dir "segment_list.txt" in
     write_segment_list concat_file ts_files >>
     print (Info "Running ffmpeg concatenation (this may take a while for large files)...") >>
     let! (returncode, _) :=
       subprocess_run (ts_cmd_concat concat_file output_file) (Some 1800) in
     catch (os_remove concat_file) (λ _, ret tt) >>
     ts_conclude 1 returncode output_file)
    (timed_out_or_error 1).

(** Strategy 2: concat protocol. *)
Definition ts_strategy_protocol (ts_files : list string) (output_file : string) : M bool :=
  print (Trying 2) >>
  catch
    (let concat_string := "concat:" +:+ String.concat "|" (map abspath ts_files) in
     let! (returncode, _) :=
       subprocess_run (ts_cmd_copy concat_string output_file) (Some 1800) in
     ts_conclude 2 returncode output_file)
    (timed_out_or_error 2).

(** Strategy 3: binary concatenation, then remux. *)
Definition ts_strategy_binary (input_dir : string) (ts_files : list string)
    (output_file : string) : M bool :=
  print (Trying 3) >>
  catch
    (let temp_concat_file := Py.path_join input_dir "temp_concat.ts" in
     print (Info "Concatenating TS files...") >>
     concatenate_into temp_concat_file (Some (100, length ts_files)) ts_files >>
     print (Info "Remuxing concatenated file to MP4...") >>
     let! (returncode, _) :=
       subprocess_run (ts_cmd_copy temp_concat_file output_file) (Some 1800) in
     catch (os_remove temp_concat_file) (λ _, ret tt) >>
     ts_conclude 3 returncode output_file)
    (timed_out_or_error 3).

(** Strategy 4: re-encode with error recovery. *)
Definition ts_strategy_reencode (input_dir : string) (ts_files : list string)
    (output_file : string) : M bool :=
  print (Trying 4) >>
  catch
    (let concat_file := Py.path_join input_dir "segment_list.txt" in
     write_segment_list concat_file ts_files >>
     print (Info "Running ffmpeg re-encoding (this will take longer)...") >>
     let! (returncode, _) :=
       subprocess_run (ts_cmd_reencode concat_file output_file) (Some 3600) in
     catch (os_remove concat_file) (λ _, ret tt) >>
     ts_conclude 4 returncode output_file)
    (timed_out_or_error 4).

(** Strategy 5: maximum error tolerance; the exit code is not consulted. *)
Definition ts_strategy_force (input_dir : string) (ts_files : list string)
    (output_file : string) : M bool :=
  print (Trying 5) >>
  catch
    (let! first_file := match ts_files with
                        | f :: _ => ret f
                        | [] => raise IndexError
                        end in
     let! probe_result := subprocess_run (ts_cmd_probe first_file) None in
     let concat_file := Py.path_join input_dir "segment_list.txt" in
     write_segment_list concat_file ts_files >>
     let! (returncode, _) :=
       subprocess_run (ts_cmd_force concat_file output_file) (Some 1800) in
     catch (os_remove concat_file) (λ _, ret tt) >>
     let! ok := output_viable output_file in
     if ok then
       report_created 5 output_file >>
       (if bool_decide (returncode ≠ 0%Z) then print CreatedWithErrors else ret tt) >>
       ret true
     else ret false)
    (λ _, print (StrategyError 5) >> ret false).

(** Strategy 6: treat the first 100 segments as a raw H.264 stream, then as
    HEVC.  Whatever the probe yields, the strategy never executes
    [return True]. *)
Definition ts_strategy_raw (input_dir : string) (ts_files : list string) : M bool :=
  print (Trying 6) >>
  catch
    (let temp_concat_file := Py.path_join input_dir "temp_raw.h264" in
     print (Info "Concatenating as raw stream...") >>
     concatenate_into temp_concat_file (Some (20, 100)) (take 100 ts_files) >>
     let test_raw := Py.path_join input_dir "test_raw.mp4" in
     let! (returncode, _) :=
       subprocess_run (ts_cmd_raw "h264" temp_concat_file test_raw) (Some 60) in
     catch (os_remove temp_concat_file) (λ _, ret tt) >>
     if bool_decide (returncode ≠ 0%Z) then
       print TryingHevc >>
       let temp_concat_file := Py.path_join input_dir "temp_raw.h265" in
       concatenate_into temp_concat_file None (take 100 ts_files) >>
       let! _ := subprocess_run (ts_cmd_raw "hevc" temp_concat_file test_raw) (Some 60) in
       catch (os_remove temp_concat_file) (λ _, ret tt) >>
       ret false
     else ret false)
    (λ _, print (StrategyError 6) >> ret false).

Definition ts_ladder (input_dir : string) (ts_files : list string)
    (output_file : string) : list (M bool) :=
  [ts_strategy_concat input_dir ts_files output_file;
   ts_strategy_protocol ts_files output_file;
   ts_strategy_binary input_dir ts_files output_file;
   ts_strategy_reencode input_dir ts_files output_file;
   ts_strategy_force input_dir ts_files output_file;
   ts_strategy_raw input_dir ts_files].

Definition combine_mpegts_segments_to_mp4 (input_dir output_file : string) : M bool :=
  let! available := ffmpeg_available in
  if negb available then ret false
  else
    let! ts_files := sorted_glob input_dir "segment" ".ts" in
    if bool_decide (ts_files = []) then print (NoFilesFound input_dir) >> ret false
    else
      print (FoundFiles (length ts_files)) >>
      check_file_format ts_files >>
      let! done := first_success (ts_ladder input_dir ts_files output_file) in
      if done then ret true
      else print (AllStrategiesFailedEncryptedHint input_dir) >> ret false.

(** *** [main] of the transport-stream script; the result is the exit code. *)
Definition main (m3u8_file_path output_directory : string) (base_url : option string)
    (no_combine_video : bool) (video_output : string) : M nat :=
  let! download_success := download_segments_from_m3u8 m3u8_file_path output_directory base_url in
  if negb download_success then ret 1
  else if negb no_combine_video then
    print (Info "Combining all segment files into MP4...") >>
    let! combine_success := combine_mpegts_segments_to_mp4 output_directory video_output in
    if negb combine_success then
      print (Info "Video combination failed, but downloaded files are available.") >> ret 1
    else ret 0
  else ret 0.

End Pipeline.

(** * The remaining functions of the three scripts

    [ffmpeg_validate_jpegs], [try_alternative_ffmpeg_approach] and
    [force_combine_jpegs_to_mp4] of [download_mp4_from_jpegts_based_m3u8.py];
    [combine_jpegs_to_mp4] and [main] of
    [dowlnload_mp4_from_jpeg_based_m3u8.py]; [combine_jpegs_to_mp4] and
    [main] of [dowlnload_jpeg_contains_m3u8.py].  The lines these functions
    print are carried as [Info] with the text the script formats. *)

(** [os.path.basename(p)] *)
Fixpoint os_path_basename (p : string) : string :=
  match p with
  | EmptyString => EmptyString
  | String _ rest =>
      if bool_decide ("/"%char ∈ String.list_ascii_of_string p)
      then os_path_basename rest else p
  end.

Section Remaining.

Context (tool : list string → option nat → World → proc_reply * gmap string (list byte)).
(** The text Python prints for the float [1.0 / framerate], for an exception
    [e] in an f-string, and for a size in bytes formatted as
    [size / (1024 * 1024)] with one decimal. *)
Context (duration_text : Z → string).
Context (describe : exn → string).
Context (size_mb_text : nat → string).

(** *** [ffmpeg_validate_jpegs] *)

Definition ffmpeg_cmd_decode (jpeg_file : string) : list string :=
  ["ffmpeg"; "-v"; "error"; "-i"; jpeg_file; "-f"; "null"; "-"].

(** [try: os.remove(jpeg_file); removed_count += 1
     except OSError: pass] *)
Definition remove_and_count (jpeg_file : string) (valid_count removed_count : nat)
  : M (nat * nat) :=
  catch (os_remove jpeg_file >> ret (valid_count, removed_count + 1))
        (λ e, match e with
              | FileNotFoundError | OSError => ret (valid_count, removed_count)
              | _ => raise e
              end).

(** One iteration of the loop of [ffmpeg_validate_jpegs]. *)
Definition ffmpeg_validate_one (total_files : nat) (item : nat * string) (c : nat * nat)
  : M (nat * nat) :=
  let '(i, jpeg_file) := item in
  let '(valid_count, removed_count) := c in
  (if bool_decide (i `mod` 50 = 0)
   then print (Info ("FFmpeg validation progress: " +:+ pretty i +:+ "/" +:+
                     pretty total_files +:+ " files processed..."))
   else ret tt) >>
  catch
    (let! (returncode, stderr) := subprocess_run tool (ffmpeg_cmd_decode jpeg_file) (Some 5) in
     if bool_decide (returncode = 0%Z) then ret (valid_count + 1, removed_count)
     else
       print (Info ("Removing JPEG file that ffmpeg cannot decode: " +:+
                    os_path_basename jpeg_file)) >>
       (if negb (bool_decide (Py.strip stderr = EmptyString))
        then print (Info ("FFmpeg error: " +:+
                          String.substring 0 100 (Py.strip stderr) +:+ "..."))
        else ret tt) >>
       os_remove jpeg_file >>
       ret (valid_count, removed_count + 1))
    (λ e,
       match e with
       | TimeoutExpired =>
           print (Info ("Removing JPEG file that timed out during validation: " +:+
                        os_path_basename jpeg_file))
       | _ =>
           print (Info ("Error validating " +:+ os_path_basename jpeg_file +:+
                        " with ffmpeg: " +:+ describe e))
       end >>
       remove_and_count jpeg_file valid_count removed_count).


(** *** [try_alternative_ffmpeg_approach] *)



(** *** [force_combine_jpegs_to_mp4] *)



End Remaining.

(** ** [dowlnload_mp4_from_jpeg_based_m3u8.py] *)

Module JpegScript.

Section Script.

Context (http : string → list (string * string) → World → http_reply).
Context (tool : list string → option nat → World → proc_reply * gmap string (list byte)).
Context (describe : exn → string).

Definition ffmpeg_cmd (input_pattern output_file : string) (framerate : Z) : list string :=
  ["ffmpeg"; "-y"; "-framerate"; pretty framerate; "-i"; input_pattern;
   "-c:v"; "libx264"; "-pix_fmt"; "yuv420p"; output_file].

(** [subprocess.run(argv, check=True)] *)
Definition subprocess_run_checked (argv : list string) : M unit :=
  let! (returncode, _) := subprocess_run tool argv None in
  if bool_decide (returncode = 0%Z) then ret tt else raise CalledProcessError.

Definition combine_jpegs_to_mp4 (input_dir output_file : string) (framerate : Z)
  : M bool :=
  let! available := ffmpeg_available tool in
  if negb available then ret false
  else
    let! jpeg_files := sorted_glob input_dir "video" ".jpeg" in
    if bool_decide (jpeg_files = []) then print (NoFilesFound input_dir) >> ret false
    else
      print (FoundFiles (length jpeg_files)) >>
      let input_pattern := Py.path_join input_dir "video%04d.jpeg" in
      catch
        (print (Info ("Combining JPEG files into " +:+ output_file +:+ "...")) >>
         subprocess_run_checked (ffmpeg_cmd input_pattern output_file framerate) >>
         print (Info ("Successfully created " +:+ output_file)) >>
         ret true)
        (λ e, match e with
              | CalledProcessError =>
                  print (Info ("Error running ffmpeg: " +:+ describe e)) >> ret false
              | _ => raise e
              end).

(** [main]; the result is the exit code. *)
Definition main (m3u8_file_path base_url output_directory : string)
    (combine_video : bool) (video_output : string) (framerate : Z) : M nat :=
  let base_url := main_base_url base_url in
  let! download_success :=
    download_jpeg_segments http m3u8_file_path base_url output_directory in
  if negb download_success then ret 1
  else if combine_video then
    let! combine_success := combine_jpegs_to_mp4 output_directory video_output framerate in
    if negb combine_success then
      print (Info "Video combination failed, but downloaded files are available.") >> ret 1
    else ret 0
  else ret 0.

End Script.

End JpegScript.

(** ** [dowlnload_jpeg_contains_m3u8.py] *)

Module ContainsScript.

Section Script.

Context (http : string → list (string * string) → World → http_reply).
Context (tool : list string → option nat → World → proc_reply * gmap string (list byte)).
Context (describe : exn → string).

(** The function has the same text as in the other JPEG script. *)
Definition combine_jpegs_to_mp4 : string → string → Z → M bool :=
  JpegScript.combine_jpegs_to_mp4 tool describe.

(** One iteration of the download loop of [main]: no test for an existing
    file, no counters. *)
Definition main_download_one (output_directory : string) (item : nat * string)
    (_ : unit) : M unit :=
  let '(i, url) := item in
  let filename := Py.path_join output_directory (video_filename i) in
  catch
    (print (Downloading url filename) >>
     let! (status_code, chunks, broken) := requests_get http url [] in
     raise_for_status status_code >>
     save_stream filename chunks broken >>
     print (Downloaded filename))
    (λ e,
       match e with
       | RequestException => print (ErrorDownloading url)
       | _ => print (UnexpectedError url)
       end >>
       print SkippingToNextFile).

(** [main]; the result is the exit code. *)
Definition main (m3u8_file_path base_url output_directory : string)
    (combine_video : bool) (video_output : string) (framerate : Z) : M nat :=
  let base_url := main_base_url base_url in
  let! present := os_path_exists m3u8_file_path in
  if negb present then print (ManifestNotFound m3u8_file_path) >> ret 1
  else
    let! lines := read_manifest m3u8_file_path in
    let jpeg_urls := foldl (λ acc line, collect_jpeg_url base_url line acc) [] lines in
    print (FoundSegments (length jpeg_urls)) >>
    for_each (Py.enumerate jpeg_urls) (main_download_one output_directory) tt >>
    print (Info "Download complete (with potential errors for skipped files).") >>
    (if combine_video
     then combine_jpegs_to_mp4 output_directory video_output framerate >> ret tt
     else ret tt) >>
    ret 0.

End Script.

End ContainsScript.

(** * Reference descriptions and sample data used in the statements *)

(** ** Manifest lines, as the specification speaks of them *)

Definition is_blank_line (line : string) : bool :=
  bool_decide (Py.strip line = EmptyString).

Definition is_comment_line (line : string) : bool :=
  Py.startswith "#" (Py.strip line).

(** A valid reference line: not blank after trimming and not a comment. *)
Definition is_reference_line (line : string) : bool :=
  negb (is_blank_line line) && negb (is_comment_line line).

Definition is_absolute (line : string) : bool :=
  Py.startswith "http://" (Py.strip line) || Py.startswith "https://" (Py.strip line).

(** A relative candidate: a reference line without a scheme prefix. *)
Definition is_relative_reference (line : string) : bool :=
  is_reference_line line && negb (is_absolute line).

(** The location a reference line denotes, given a base: absolute lines
    verbatim, relative ones joined to the base by exactly one slash. *)
Definition resolve (base line : string) : string :=
  if is_absolute line then Py.strip line
  else Py.rstrip_slash base +:+ "/" +:+ Py.lstrip_slash (Py.strip line).

(** The whole line loop of each script. *)
Definition parse_segment_urls (base_url : option string) (lines : list string)
  : M (list string) :=
  for_each lines (collect_segment_url base_url) [].

Definition parse_jpeg_urls (base_url : string) (lines : list string) : list string :=
  foldl (λ acc line, collect_jpeg_url base_url line acc) [] lines.

Definition example_lines : list string :=
  ["seg0.jpeg"; "https://cdn.example/seg1.jpeg"; "# comment"; EmptyString].

Definition example_base : string := "https://cdn.example/clips".

Definition empty_world : World := mkWorld ∅ [].

(** ** Sample capabilities and worlds *)

(** A server that answers every request with status 200 and the given body. *)
Definition http_ok (body : list byte)
  : string → list (string * string) → World → http_reply :=
  λ _ _ _, Response 200 [body] false.

(** A server that cannot be reached. *)
Definition http_down : string → list (string * string) → World → http_reply :=
  λ _ _ _, GetRaises.

(** A server whose bodies break off after [partial] has arrived. *)
Definition http_breaks (partial : list byte)
  : string → list (string * string) → World → http_reply :=
  λ _ _ _, Response 200 [partial] true.

(** An external tool that exits with [returncode] after writing [size] bytes
    to the path named last on its command line; the version check and
    ffprobe write nothing. *)
Definition tool_writes (returncode : Z) (size : nat)
  : list string → option nat → World → proc_reply * gmap string (list byte) :=
  λ argv _ w,
    if bool_decide (argv = ["ffmpeg"; "-version"]) || bool_decide (head argv = Some "ffprobe")
    then (Completed 0 EmptyString, files w)
    else (Completed returncode EmptyString,
          <[List.last argv EmptyString := replicate size x00]> (files w)).

(** An external tool that passes the version check and then runs into the
    time limit of every call that has one; a call without a limit ends with
    exit code 1.  It writes nothing. *)
Definition tool_hangs
  : list string → option nat → World → proc_reply * gmap string (list byte) :=
  λ argv timeout w,
    if bool_decide (argv = ["ffmpeg"; "-version"])
    then (Completed 0 EmptyString, files w)
    else match timeout with
         | Some _ => (TimedOut, files w)
         | None => (Completed 1 EmptyString, files w)
         end.

Definition same_path (p : string) : string := p.
Definition sample_duration_text (framerate : Z) : string := "0.03333333333333333".

(** The prints of the scripts that are worded as warnings. *)
Definition is_warning (e : event) : bool :=
  match e with
  | Print (SkippingRelativeWithoutBase _) | Print NotMpegTsWarning
  | Print CouldNotCheckFormat | Print (CouldNotRemove _) | Print CreatedWithErrors
  | Print (AllStrategiesFailedEncryptedHint _) => true
  | _ => false
  end.

Definition encrypted_manifest : string :=
  "#EXTM3U" +:+ nl +:+ "#EXT-X-KEY:METHOD=AES-128,URI=key.bin" +:+ nl +:+
  "#EXTINF:4.0," +:+ nl +:+ "seg0.ts" +:+ nl.

Definition encrypted_world : World :=
  mkWorld {[ "playlist.m3u8" := bytes encrypted_manifest ]} [].

(** A segment body that starts with the MPEG-TS sync byte. *)
Definition ts_body : list byte := x47 :: replicate 187 x00.

(** A directory that holds the slots of segments 9999 and 10000. *)
Definition long_run_world : World :=
  mkWorld {[ Py.path_join "out" (segment_filename 9999) := ts_body;
             Py.path_join "out" (segment_filename 10000) := ts_body ]} [].

(** Consecutive slot names below [n] are in strictly increasing
    lexicographic order. *)
Definition consecutive_names_increase (slot : nat → string) (n : nat) : bool :=
  forallb (λ i, String.ltb (slot i) (slot (S i))) (seq 0 n).

(** ** Per-segment outcomes, read off the history *)

Definition is_downloaded (e : event) : bool :=
  match e with Print (Downloaded _) => true | _ => false end.
Definition is_skipped (e : event) : bool :=
  match e with Print (AlreadyExists _) => true | _ => false end.
Definition is_failed (e : event) : bool :=
  match e with Print (ErrorDownloading _) | Print (UnexpectedError _) => true | _ => false end.
Definition is_http_get (e : event) : bool :=
  match e with HttpGet _ _ => true | _ => false end.

Definition count_events (f : event → bool) (l : list event) : nat :=
  length (List.filter f l).


(** The world in which the request for a segment is answered. *)
Definition request_world (w : World) (url filename : string)
    (headers : list (string * string)) : World :=
  mkWorld (files w) (log w ++ [Print (Downloading url filename); HttpGet url headers]).

(** What one iteration of the download loop does, case by case. *)
Definition download_one_result
    (http : string → list (string * string) → World → http_reply)
    (slot : nat → string) (headers : list (string * string)) (output_directory : string)
    (item : nat * string) (c : counters) (w : World) : counters * World :=
  let filename := Py.path_join output_directory (slot item.1) in
  let url := item.2 in
  match files w !! filename with
  | Some _ =>
      (mkCounters (download_errors c) (skipped_files c + 1),
       mkWorld (files w) (log w ++ [Print (AlreadyExists filename)]))
  | None =>
      let w1 := request_world w url filename headers in
      let failed fs :=
        (mkCounters (download_errors c + 1) (skipped_files c),
         mkWorld fs (log w1 ++ [Print (ErrorDownloading url); Print SkippingToNextFile])) in
      match http url headers w1 with
      | GetRaises => failed (files w)
      | Response status_code chunks broken =>
          if bool_decide (400 ≤ status_code < 600) then failed (files w)
          else if broken then failed (<[filename := concat chunks]> (files w))
          else (c, mkWorld (<[filename := concat chunks]> (files w))
                           (log w1 ++ [Print (Downloaded filename)]))
      end
  end.



Definition slot_path (output_directory : string) (slot : nat → string) (i : nat) : string :=
  Py.path_join output_directory (slot i).







(** A finished run: the manifest and the slot of its one segment. *)
Definition finished_world : World :=
  mkWorld {[ "playlist.m3u8" := bytes ("https://cdn.example/seg0.ts" +:+ nl);
             "out/segment0000.ts" := ts_body ]} [].

(** ** The validator's verdict, as a function of the bytes *)

(** Why [validate_and_fix_jpegs] removes a file with these contents, if it
    does: the line it prints. *)
Definition jpeg_defect (jpeg_file : string) (content : list byte) : option message :=
  if bool_decide (length content < 512) then Some (RemovingTiny jpeg_file (length content))
  else if negb (has_start_marker (take 4 content)) then Some (RemovingInvalidHeader jpeg_file)
  else if negb (bool_decide (drop (length content - 2) content = jpeg_end_marker))
       then Some (RemovingIncomplete jpeg_file)
  else None.

Definition progress_line (every i total : nat) : list event :=
  if bool_decide (i `mod` every = 0) then [Print (Progress i total)] else [].

(** What one pass of the validation loop leaves in the history. *)
Definition validate_trace (total_files : nat) (item : nat * string) (content : list byte)
  : list event :=
  progress_line 100 item.1 total_files ++
  match jpeg_defect item.2 content with
  | Some (RemovingTiny _ _ as m) => [Print m]
  | Some m => [OpenRead item.2; Print m]
  | None => [OpenRead item.2; OpenRead item.2]
  end.

Definition is_defective (fs : gmap string (list byte)) (p : string) : bool :=
  match fs !! p with
  | Some content => bool_decide (is_Some (jpeg_defect p content))
  | None => false
  end.

(** A directory with one 300-byte file under a segment name. *)
Definition tiny_frame_world : World :=
  mkWorld {[ "frames/video0000.jpeg" := replicate 300 x00 ]} [].

(** The listing [sorted_glob] returns, as a function of the files. *)
Definition glob_listing (d prefix suffix : string) (fs : gmap string (list byte))
  : list string :=
  merge_sort String.le
    (filter (λ p, glob_matches d prefix suffix p = true) (map fst (map_to_list fs))).

(** ** Sample segment directories *)

(** One JPEG segment in [frames/], one transport-stream segment in [out/]. *)
Definition one_frame_world : World :=
  mkWorld {[ "frames/video0000.jpeg" := [xff; xd8; xff; xe0] ++ replicate 600 x00 ++ [xff; xd9] ]} [].

Definition one_ts_world : World :=
  mkWorld {[ "out/segment0000.ts" := ts_body ]} [].

(** The strategies a run announced, in the order of the announcements. *)
Definition strategies_tried (l : list event) : list nat :=
  omap (λ e, match e with Print (Trying n) => Some n | _ => None end) l.


(** The viability test of the engines, read off a file map. *)
Definition viable (fs : gmap string (list byte)) (output_file : string) : Prop :=
  ∃ content, fs !! output_file = Some content ∧ 1024 < length content.

(** ** What a strategy may and may not do *)

(** A computation that announces no strategy. *)
Definition quiet {A} (m : M A) : Prop :=
  ∀ w r w', m w = (r, w') →
    ∃ evs, log w' = log w ++ evs ∧ strategies_tried evs = [].

(** A computation that announces no strategy and answers [true] only when it
    leaves a viable output file behind. *)
Definition guarded (output_file : string) (m : M bool) : Prop :=
  ∀ w r w', m w = (r, w') →
    (∃ evs, log w' = log w ++ evs ∧ strategies_tried evs = [])
    ∧ (r = Val true → viable (files w') output_file).

(** A handler that ends every failure with the answer [false]. *)
Definition gives_up (h : exn → M bool) : Prop :=
  ∀ e w, ∃ w', h e w = (Val false, w').

(** The contract of the strategy announced as number [n]: it returns (never
    raises), announces itself once and nothing else, and answers [true] only
    with a viable output file in place. *)
Definition strategy_contract (n : nat) (output_file : string) (s : M bool) : Prop :=
  ∀ w, ∃ b w' evs,
    s w = (Val b, w')
    ∧ log w' = log w ++ Print (Trying n) :: evs
    ∧ strategies_tried evs = []
    ∧ (b = true → viable (files w') output_file).

(** The text of the list file that the transport-stream strategies hand to
    the concat demuxer. *)
Definition segment_list_text (abspath : string → string) (ts_files : list string)
  : list byte :=
  concat (map (λ ts_file, bytes ("file '" +:+ abspath ts_file +:+ "'" +:+ nl)) ts_files).

(** The version check that opens both engines, and the world it leaves. *)
Definition version_check : list string := ["ffmpeg"; "-version"].

Definition after_version_check (w : World) (fs : gmap string (list byte)) : World :=
  mkWorld fs (log w ++ [Subprocess version_check None]).

(** What the format check of the transport-stream engine prints after its
    opening line, read off the files: nothing when one of the first four
    bytes of the first segment is the sync byte 0x47, the warning when there
    are four bytes and none is, and the could-not-check line when the first
    segment cannot be read or is shorter than four bytes without a sync
    byte. *)
Definition format_report (ts_files : list string) (fs : gmap string (list byte))
  : list event :=
  match ts_files with
  | [] => [Print CouldNotCheckFormat]
  | first_file :: _ =>
      match fs !! first_file with
      | None => [Print CouldNotCheckFormat]
      | Some content =>
          let header := take 4 content in
          OpenRead first_file ::
          (if existsb (λ b, bool_decide (b = x47)) header then []
           else if bool_decide (length header < 4) then [Print CouldNotCheckFormat]
           else [Print NotMpegTsWarning])
      end
  end.

(** A computation that never answers [true]. *)
Definition never_true (m : M bool) : Prop :=
  ∀ w r w', m w = (r, w') → r ≠ Val true.

(** A tool whose ffmpeg exits with code [returncode] after writing [size]
    bytes to its last argument, and that has no ffprobe. *)
Definition tool_without_ffprobe (returncode : Z) (size : nat)
    (argv : list string) (timeout : option nat) (w : World)
  : proc_reply * gmap string (list byte) :=
  match argv with
  | "ffprobe" :: _ => (NotFound, files w)
  | _ => tool_writes returncode size argv timeout w
  end.

(** ** Which capability a computation uses *)

Definition is_subprocess (e : event) : bool :=
  match e with Subprocess _ _ => true | _ => false end.

(** Events that stay on the machine and start nothing: prints and reads. *)
Definition is_local (e : event) : bool :=
  match e with Print _ | OpenRead _ => true | _ => false end.

(** A computation all of whose events satisfy [allowed]. *)
Definition emits_only {A} (allowed : event → bool) (m : M A) : Prop :=
  ∀ w r w', m w = (r, w') →
    ∃ evs, log w' = log w ++ evs ∧ Forall (λ e, allowed e = true) evs.


(** ** The two older scripts *)

Definition describe_by_name (e : exn) : string :=
  match e with
  | RequestException => "RequestException"
  | TimeoutExpired => "TimeoutExpired"
  | CalledProcessError => "CalledProcessError"
  | FileNotFoundError => "FileNotFoundError"
  | OSError => "OSError"
  | IndexError => "IndexError"
  | ZeroDivisionError => "ZeroDivisionError"
  | OtherException => "Exception"
  end.



Definition jpeg_finished_world : World :=
  mkWorld {[ "playlist.m3u8" := bytes ("https://cdn.example/seg0.jpeg" +:+ nl);
             "frames/video0000.jpeg" := [xff; xd8; xff; xd9] ]} [].

(** ** Decode test of [ffmpeg_validate_jpegs] *)

(** The decode test passes: ffmpeg ran to the end with exit code 0. *)
Definition decodes (reply : proc_reply) : bool :=
  match reply with
  | Completed returncode _ => bool_decide (returncode = 0%Z)
  | _ => false
  end.

(** The progress line of [ffmpeg_validate_jpegs], printed every 50 files. *)
Definition decode_progress (i total_files : nat) : list event :=
  if bool_decide (i `mod` 50 = 0)
  then [Print (Info ("FFmpeg validation progress: " +:+ pretty i +:+ "/" +:+
                     pretty total_files +:+ " files processed..."))]
  else [].

(** The world in which the decode test of a file is run. *)
Definition decode_world (w : World) (i total_files : nat) (jpeg_file : string) : World :=
  mkWorld (files w)
    (log w ++ decode_progress i total_files
       ++ [Subprocess (ffmpeg_cmd_decode jpeg_file) (Some 5)]).

(** The external-tool events of a run, with their time limits. *)
Definition subprocess_events (l : list event) : list event :=
  List.filter is_subprocess l.

(** A tool whose decode test fails for every file and that touches
    nothing. *)
Definition tool_rejects
  : list string → option nat → World → proc_reply * gmap string (list byte) :=
  λ _ _ w, (Completed 1 "Invalid data found", files w).

(** ** List file of the concat approach *)




(** * Properties *)

(** ** The monad *)

Lemma run_bind {A B} (m : M A) (k : A → M B) (w : World) :
  bind m k w = match m w with
               | (Val a, w') => k a w'
               | (Exc e, w') => (Exc e, w')
               end.
Proof. reflexivity. Qed.

Lemma run_catch {A} (m : M A) (h : exn → M A) (w : World) :
  catch m h w = match m w with
                | (Val a, w') => (Val a, w')
                | (Exc e, w') => h e w'
                end.
Proof. reflexivity. Qed.

Lemma run_ret {A} (a : A) (w : World) : ret a w = (Val a, w).
Proof. reflexivity. Qed.

Lemma run_raise {A} (e : exn) (w : World) : raise e w = (@Exc A e, w).
Proof. reflexivity. Qed.

Lemma run_print (m : message) (w : World) :
  print m w = (Val tt, mkWorld (files w) (log w ++ [Print m])).
Proof. reflexivity. Qed.

Lemma run_os_path_exists (p : string) (w : World) :
  os_path_exists p w = (Val (bool_decide (is_Some (files w !! p))), w).
Proof. reflexivity. Qed.

Lemma run_os_path_getsize (p : string) (w : World) :
  os_path_getsize p w = match files w !! p with
                        | Some c => (Val (length c), w)
                        | None => (Exc FileNotFoundError, w)
                        end.
Proof. reflexivity. Qed.

Lemma run_os_remove (p : string) (w : World) :
  os_remove p w = match files w !! p with
                  | Some _ => (Val tt, mkWorld (delete p (files w)) (log w))
                  | None => (Exc FileNotFoundError, w)
                  end.
Proof. reflexivity. Qed.

Lemma run_open_rb (p : string) (w : World) :
  open_rb p w = match files w !! p with
                | Some c => (Val c, mkWorld (files w) (log w ++ [OpenRead p]))
                | None => (Exc FileNotFoundError, w)
                end.
Proof. reflexivity. Qed.

Lemma run_open_w (p : string) (w : World) :
  open_w p w = (Val tt, mkWorld (<[p := []]> (files w)) (log w)).
Proof. reflexivity. Qed.

Lemma run_write (p : string) (data : list byte) (w : World) :
  write p data w =
  (Val tt, mkWorld (<[p := default [] (files w !! p) ++ data]> (files w)) (log w)).
Proof. reflexivity. Qed.

Lemma run_shutil_rmtree (d : string) (w : World) :
  shutil_rmtree d w =
  (Val tt, mkWorld (filter (λ kv, inside d kv.1 = false) (files w)) (log w)).
Proof. reflexivity. Qed.

#[global] Opaque ret raise bind catch print os_path_exists os_path_getsize os_remove
  open_rb open_w write shutil_rmtree.

Create Rewrite HintDb run.
#[global] Hint Rewrite @run_bind @run_catch @run_ret @run_raise run_print
  run_os_path_exists run_os_path_getsize run_os_remove run_open_rb run_open_w
  run_write run_shutil_rmtree : run.

(** Symbolic execution of a computation up to the next test on the world. *)
Ltac run_steps := repeat (progress (autorewrite with run; cbn [files log])).

(** Closing step: both sides are results whose histories differ only in how
    the appended events are bracketed. *)
Ltac run_done := run_steps; rewrite <- ?app_assoc; cbn [app]; try reflexivity.

Lemma for_each_app {A S} (l1 l2 : list A) (body : A → S → M S) (acc : S) (w : World) :
  for_each (l1 ++ l2) body acc w =
  match for_each l1 body acc w with
  | (Val acc', w') => for_each l2 body acc' w'
  | (Exc e, w') => (Exc e, w')
  end.
Proof.
  revert acc w. induction l1 as [|x l1 IH]; intros acc w; simpl.
  - by rewrite run_ret.
  - rewrite !run_bind.
    destruct (body x acc w) as [[acc'|e] w']; [apply IH | done].
Qed.

Lemma filter_cons_bool {A} (f : A → bool) (x : A) (l : list A) :
  filter (λ y, f y = true) (x :: l) =
  if f x then x :: filter (λ y, f y = true) l else filter (λ y, f y = true) l.
Proof.
  rewrite filter_cons. destruct (f x); [by rewrite decide_True | by rewrite decide_False].
Qed.

(** ** Manifest parser *)

Section Parser.

Lemma collect_segment_url_with_base (base line : string) (acc : list string) (w : World) :
  base ≠ EmptyString →
  collect_segment_url (Some base) line acc w =
  (Val (if is_reference_line line then acc ++ [resolve base line] else acc), w).
Proof.
  intros Hbase.
  unfold collect_segment_url, is_reference_line, is_blank_line, is_comment_line,
    resolve, is_absolute.
  destruct (bool_decide (Py.strip line = EmptyString)); simpl; [reflexivity|].
  destruct (Py.startswith "#" (Py.strip line)); simpl; [reflexivity|].
  destruct (Py.startswith "http://" (Py.strip line) || Py.startswith "https://" (Py.strip line));
    [reflexivity|].
  rewrite bool_decide_eq_false_2 by done. reflexivity.
Qed.

Lemma parse_segment_urls_with_base_acc (base : string) (lines acc : list string) (w : World) :
  base ≠ EmptyString →
  for_each lines (collect_segment_url (Some base)) acc w =
  (Val (acc ++ map (resolve base) (filter (λ l, is_reference_line l = true) lines)), w).
Proof.
  intros Hbase. revert acc. induction lines as [|line lines IH]; intros acc; simpl.
  - by rewrite app_nil_r.
  - rewrite run_bind, collect_segment_url_with_base by done.
    rewrite IH, filter_cons_bool.
    destruct (is_reference_line line); [|done].
    simpl. by rewrite <- app_assoc.
Qed.

Lemma parse_jpeg_urls_acc (base : string) (lines acc : list string) :
  foldl (λ acc line, collect_jpeg_url base line acc) acc lines =
  acc ++ map (λ l, if is_absolute l then Py.strip l else base +:+ Py.strip l)
             (filter (λ l, Py.endswith ".jpeg" (Py.strip l) = true) lines).
Proof.
  revert acc. induction lines as [|line lines IH]; intros acc; simpl.
  - by rewrite app_nil_r.
  - rewrite IH, filter_cons_bool. unfold collect_jpeg_url, is_absolute.
    destruct (Py.endswith ".jpeg" (Py.strip line)); [|done].
    simpl.
    destruct (Py.startswith "http://" (Py.strip line) || Py.startswith "https://" (Py.strip line));
      by rewrite <- app_assoc.
Qed.

End Parser.

Lemma collect_segment_url_without_base (base_url : option string)
    (line : string) (acc : list string) (w : World) :
  Py.truthy base_url = false →
  collect_segment_url base_url line acc w =
  (Val (if is_reference_line line && is_absolute line then acc ++ [Py.strip line] else acc),
   mkWorld (files w)
           (log w ++ if is_relative_reference line
                     then [Print (SkippingRelativeWithoutBase (Py.strip line))] else [])).
Proof.
  intros Hbase.
  unfold collect_segment_url, is_relative_reference, is_reference_line,
    is_blank_line, is_comment_line, is_absolute.
  destruct (bool_decide (Py.strip line = EmptyString)); simpl;
    [rewrite app_nil_r; by destruct w|].
  destruct (Py.startswith "#" (Py.strip line)); simpl;
    [rewrite app_nil_r; by destruct w|].
  destruct (Py.startswith "http://" (Py.strip line) || Py.startswith "https://" (Py.strip line));
    simpl; [rewrite app_nil_r; by destruct w|].
  by rewrite Hbase.
Qed.

Lemma parse_segment_urls_without_base_acc (base_url : option string)
    (lines acc : list string) (w : World) :
  Py.truthy base_url = false →
  for_each lines (collect_segment_url base_url) acc w =
  (Val (acc ++ map Py.strip
               (filter (λ l, is_reference_line l && is_absolute l = true) lines)),
   mkWorld (files w)
           (log w ++ map (λ l, Print (SkippingRelativeWithoutBase (Py.strip l)))
                         (filter (λ l, is_relative_reference l = true) lines))).
Proof.
  intros Hbase. revert acc w. induction lines as [|line lines IH]; intros acc w; simpl.
  - rewrite !app_nil_r. by destruct w.
  - rewrite run_bind, collect_segment_url_without_base, IH, !filter_cons_bool by done.
    simpl.
    destruct (is_reference_line line && is_absolute line);
      destruct (is_relative_reference line); simpl;
      rewrite <- ?app_assoc, ?app_nil_r; done.
Qed.

(** C4, as amended.  With a non-empty base, the parser of
    [download_segments_from_m3u8] yields exactly one entry per valid reference
    line (N entries for N such lines), in line order, absolute lines
    verbatim and relative ones joined to the base by one slash, and prints
    nothing; comment and blank lines contribute no entry; the sample manifest
    yields (0, https://cdn.example/clips/seg0.jpeg) and
    (1, https://cdn.example/seg1.jpeg).  The parser of
    [download_jpeg_segments] yields one entry per line that ends in .jpeg
    after trimming, in line order, relative ones prefixed with the base as
    given; every other line, blank lines included, contributes no entry, and
    with the trailing slash that [main] adds the sample manifest yields the
    same two references. *)
Theorem C4_parser_entries (base : string) (lines : list string) (w : World) :
  base ≠ EmptyString →
  parse_segment_urls (Some base) lines w =
    (Val (map (resolve base) (filter (λ l, is_reference_line l = true) lines)), w)
  ∧ (∀ urls w', parse_segment_urls (Some base) lines w = (Val urls, w') →
       length urls = length (filter (λ l, is_reference_line l = true) lines))
  ∧ (∀ l1 c l2 w0, is_comment_line c = true ∨ is_blank_line c = true →
       parse_segment_urls (Some base) (l1 ++ c :: l2) w0 =
       parse_segment_urls (Some base) (l1 ++ l2) w0)
  ∧ (∃ urls, parse_segment_urls (Some example_base) example_lines w = (Val urls, w)
       ∧ Py.enumerate urls = [(0, "https://cdn.example/clips/seg0.jpeg");
                              (1, "https://cdn.example/seg1.jpeg")])
  ∧ parse_jpeg_urls base lines =
      map (λ l, if is_absolute l then Py.strip l else base +:+ Py.strip l)
          (filter (λ l, Py.endswith ".jpeg" (Py.strip l) = true) lines)
  ∧ (∀ l1 c l2, Py.endswith ".jpeg" (Py.strip c) = false →
       parse_jpeg_urls base (l1 ++ c :: l2) = parse_jpeg_urls base (l1 ++ l2))
  ∧ Py.enumerate (parse_jpeg_urls (main_base_url example_base) example_lines) =
      [(0, "https://cdn.example/clips/seg0.jpeg"); (1, "https://cdn.example/seg1.jpeg")].
Proof.
  intros Hbase. unfold parse_segment_urls, parse_jpeg_urls.
  split_and!.
  - by rewrite parse_segment_urls_with_base_acc.
  - intros urls w'. rewrite parse_segment_urls_with_base_acc by done.
    intros [= <- <-]. by rewrite length_map.
  - intros l1 c l2 w0 Hc. rewrite !parse_segment_urls_with_base_acc by done.
    rewrite !filter_app, filter_cons_bool.
    unfold is_reference_line. destruct Hc as [-> | ->]; simpl; [|done].
    by rewrite andb_false_r.
  - eexists. split.
    + by rewrite parse_segment_urls_with_base_acc.
    + by vm_compute.
  - by rewrite parse_jpeg_urls_acc.
  - intros l1 c l2 Hc. rewrite !parse_jpeg_urls_acc.
    by rewrite !filter_app, filter_cons_bool, Hc.
  - reflexivity.
Qed.

Lemma C4_parser_entries_witness :
  parse_segment_urls (Some "https://cdn.example/clips") ["a.ts"; "#EXTM3U"; "b.ts"] empty_world =
  (Val ["https://cdn.example/clips/a.ts"; "https://cdn.example/clips/b.ts"], empty_world).
Proof.
  pose proof (C4_parser_entries "https://cdn.example/clips" ["a.ts"; "#EXTM3U"; "b.ts"]
                empty_world) as H.
  destruct H as [H _]; [discriminate|].
  exact H.
Defined.

(** C4 as stated fails for the parser of [download_jpeg_segments]: a comment
    line that ends in .jpeg contributes an entry. *)
Lemma C4_comment_line_counterexample :
  ¬ (∀ (base : string) (l1 : list string) (c : string) (l2 : list string),
       is_comment_line c = true →
       parse_jpeg_urls base (l1 ++ c :: l2) = parse_jpeg_urls base (l1 ++ l2)).
Proof.
  intros H.
  specialize (H "https://cdn.example/clips/" [] "# old.jpeg" [] eq_refl).
  vm_compute in H. discriminate H.
Qed.

(** C5, as amended.  In [download_segments_from_m3u8], a relative candidate
    line met while no base is given (absent or empty) adds no entry and
    prints one warning; nothing is raised, so the parse of the whole manifest
    returns the absolute lines, in order, and one warning per relative line.
    [download_jpeg_segments] has no such path: with the empty base a relative
    line ending in .jpeg is kept as an entry, verbatim. *)
Theorem C5_relative_without_base (base_url : option string) (line : string)
    (acc : list string) (w : World) :
  Py.truthy base_url = false →
  is_relative_reference line = true →
  collect_segment_url base_url line acc w =
    (Val acc,
     mkWorld (files w) (log w ++ [Print (SkippingRelativeWithoutBase (Py.strip line))]))
  ∧ (∀ lines w0,
       parse_segment_urls base_url lines w0 =
       (Val (map Py.strip
               (filter (λ l, is_reference_line l && is_absolute l = true) lines)),
        mkWorld (files w0)
                (log w0 ++ map (λ l, Print (SkippingRelativeWithoutBase (Py.strip l)))
                               (filter (λ l, is_relative_reference l = true) lines))))
  ∧ (Py.endswith ".jpeg" (Py.strip line) = true →
       collect_jpeg_url EmptyString line acc = acc ++ [Py.strip line]).
Proof.
  intros Hbase Hrel. split_and!.
  - rewrite collect_segment_url_without_base by done.
    rewrite Hrel. unfold is_relative_reference in Hrel.
    apply andb_true_iff in Hrel as [-> Habs].
    apply negb_true_iff in Habs as ->. done.
  - intros lines w0. unfold parse_segment_urls.
    by rewrite parse_segment_urls_without_base_acc.
  - intros Hjpeg. unfold collect_jpeg_url. rewrite Hjpeg.
    unfold is_relative_reference, is_absolute in Hrel.
    apply andb_true_iff in Hrel as [_ Habs].
    apply negb_true_iff in Habs as ->. done.
Qed.

Lemma C5_relative_without_base_witness :
  collect_segment_url None "seg0.jpeg" [] empty_world =
  (Val [], mkWorld ∅ [Print (SkippingRelativeWithoutBase "seg0.jpeg")]).
Proof.
  pose proof (C5_relative_without_base None "seg0.jpeg" [] empty_world) as H.
  destruct H as [H _]; [reflexivity | reflexivity |].
  exact H.
Defined.

(** C5 as stated fails for the parser of [download_jpeg_segments]: without a
    base, the relative line seg0.jpeg still produces an entry. *)
Lemma C5_jpeg_parser_counterexample :
  ¬ (∀ (line : string) (acc : list string),
       is_relative_reference line = true →
       collect_jpeg_url EmptyString line acc = acc).
Proof.
  intros H. specialize (H "seg0.jpeg" [] eq_refl).
  vm_compute in H. discriminate H.
Qed.

(** ** Directive lines and the engine's format warning *)

Lemma no_sync_byte_all_differ (b0 b1 b2 b3 : byte) (w : World) :
  b0 ≠ x47 → b1 ≠ x47 → b2 ≠ x47 → b3 ≠ x47 →
  no_sync_byte [b0; b1; b2; b3] w = (Val true, w).
Proof.
  intros H0 H1 H2 H3. unfold no_sync_byte, differs_from_sync. simpl.
  rewrite (bool_decide_eq_false_2 _ H0), (bool_decide_eq_false_2 _ H1),
    (bool_decide_eq_false_2 _ H2), (bool_decide_eq_false_2 _ H3).
  by run_steps.
Qed.

(** C9, as amended.  A line that starts with the comment marker, an
    encryption-key directive included, is skipped by the parser without any
    report: no entry, nothing printed, whatever the base.  Encryption is only
    hinted at by the engine for transport-stream segments, which warns when
    none of the first four bytes of the first segment is the sync byte 0x47
    and does not warn when the first byte is 0x47. *)
Theorem C9_directives_skipped_silently (base_url : option string) (line : string)
    (acc : list string) (w : World) :
  is_comment_line line = true →
  collect_segment_url base_url line acc w = (Val acc, w)
  ∧ (∀ first_file rest b0 b1 b2 b3 more,
       files w !! first_file = Some (b0 :: b1 :: b2 :: b3 :: more) →
       b0 ≠ x47 → b1 ≠ x47 → b2 ≠ x47 → b3 ≠ x47 →
       check_file_format (first_file :: rest) w =
       (Val tt, mkWorld (files w)
                  (log w ++ [Print CheckingFormat; OpenRead first_file;
                             Print NotMpegTsWarning])))
  ∧ (∀ first_file rest more,
       files w !! first_file = Some (x47 :: more) →
       check_file_format (first_file :: rest) w =
       (Val tt, mkWorld (files w) (log w ++ [Print CheckingFormat; OpenRead first_file]))).
Proof.
  intros Hc. split_and!.
  - unfold collect_segment_url. unfold is_comment_line in Hc. rewrite Hc.
    by rewrite orb_true_r.
  - intros first_file rest b0 b1 b2 b3 more Hf H0 H1 H2 H3.
    unfold check_file_format. run_steps. rewrite Hf. run_steps.
    simpl take. rewrite no_sync_byte_all_differ by done. run_steps.
    by rewrite <- !app_assoc.
  - intros first_file rest more Hf.
    unfold check_file_format. run_steps. rewrite Hf. run_steps.
    unfold no_sync_byte, differs_from_sync. simpl. run_steps.
    by rewrite <- !app_assoc.
Qed.

Lemma C9_directives_skipped_silently_witness :
  collect_segment_url (Some "https://cdn.example/")
    "#EXT-X-KEY:METHOD=AES-128,URI=key.bin" [] empty_world = (Val [], empty_world).
Proof.
  pose proof (C9_directives_skipped_silently (Some "https://cdn.example/")
                "#EXT-X-KEY:METHOD=AES-128,URI=key.bin" [] empty_world) as H.
  destruct H as [H _]; [reflexivity|].
  exact H.
Defined.

(** C9 as stated fails: on a manifest with an encryption-key directive the
    whole pipeline ([main], download and combination) can finish with exit
    code 0 without printing a single warning. *)
Lemma C9_key_directive_counterexample :
  Exists (λ l, Py.startswith "#EXT-X-KEY" l = true) (Py.readlines encrypted_manifest)
  ∧ ∃ w', main (http_ok ts_body) (tool_writes 0 2000) same_path
               "playlist.m3u8" "out" (Some "https://cdn.example/") false "movie.mp4"
               encrypted_world = (Val 0, w')
          ∧ Forall (λ e, is_warning e = false) (log w').
Proof.
  split.
  - apply Exists_cons_tl, Exists_cons_hd. reflexivity.
  - eexists. split; [vm_compute; reflexivity|].
    repeat constructor.
Qed.

(** ** Slot names and their order *)

Lemma string_ltb_trans (s1 s2 s3 : string) :
  String.ltb s1 s2 = true → String.ltb s2 s3 = true → String.ltb s1 s3 = true.
Proof.
  unfold String.ltb.
  destruct (String.compare s1 s2) eqn:H12; try discriminate. intros _.
  destruct (String.compare s2 s3) eqn:H23; try discriminate. intros _.
  assert (String.le s1 s3) as Hle.
  { transitivity s2; unfold String.le, String.leb; [by rewrite H12 | by rewrite H23]. }
  unfold String.le, String.leb in Hle.
  destruct (String.compare s1 s3) eqn:H13; [|done|done].
  apply String.compare_eq_iff in H13 as ->.
  rewrite String.compare_antisym, H12 in H23. discriminate.
Qed.

Lemma consecutive_names_increase_lt (slot : nat → string) (n i j : nat) :
  consecutive_names_increase slot n = true →
  i < j → j ≤ n → String.ltb (slot i) (slot j) = true.
Proof.
  unfold consecutive_names_increase. rewrite forallb_forall.
  intros Hstep Hij Hjn. induction Hij as [|j Hij IH].
  - apply Hstep, in_seq. lia.
  - apply string_ltb_trans with (slot j).
    + apply IH. lia.
    + apply Hstep, in_seq. lia.
Qed.

(** Below 10000 the names of both scripts have one width, and their
    lexicographic order is the index order. *)
Lemma slot_names_ordered_below_10000 (i j : nat) :
  i < j → j < 10 ^ 4 →
  String.ltb (segment_filename i) (segment_filename j) = true
  ∧ String.ltb (video_filename i) (video_filename j) = true.
Proof.
  intros Hij Hj. split.
  - apply consecutive_names_increase_lt with (n := 10 ^ 4 - 1); [by vm_compute | lia | lia].
  - apply consecutive_names_increase_lt with (n := 10 ^ 4 - 1); [by vm_compute | lia | lia].
Qed.

(** C6, at the input where the code breaks it.  Segment 10000 gets a
    five-digit name, so the names are no longer of one width, the name of
    segment 10000 sorts before the name of segment 9999, and the sorted
    directory listing that validator and engine work from returns the two
    slots in the reverse of index order. *)
Theorem C6_slot_10000_sorts_before_9999 :
  segment_filename 9999 = "segment9999.ts"
  ∧ segment_filename 10000 = "segment10000.ts"
  ∧ video_filename 9999 = "video9999.jpeg"
  ∧ video_filename 10000 = "video10000.jpeg"
  ∧ String.ltb (segment_filename 10000) (segment_filename 9999) = true
  ∧ String.ltb (video_filename 10000) (video_filename 9999) = true
  ∧ sorted_glob "out" "segment" ".ts" long_run_world =
      (Val [Py.path_join "out" (segment_filename 10000);
            Py.path_join "out" (segment_filename 9999)], long_run_world).
Proof. split_and!; by vm_compute. Qed.

(** ** Segment fetcher *)

Section Fetcher.

Context (http : string → list (string * string) → World → http_reply).
Context (slot : nat → string) (headers : list (string * string)).
Context (output_directory : string).

Lemma run_requests_get (url : string) (w : World) :
  requests_get http url headers w =
  let w1 := mkWorld (files w) (log w ++ [HttpGet url headers]) in
  match http url headers w1 with
  | GetRaises => (Exc RequestException, w1)
  | Response status_code chunks broken => (Val (status_code, chunks, broken), w1)
  end.
Proof. reflexivity. Qed.

Lemma run_write_chunks (filename : string) (chunks : list (list byte))
    (written : list byte) (w : World) :
  files w !! filename = Some written →
  for_each chunks (λ chunk _, write filename chunk) tt w =
  (Val tt, mkWorld (<[filename := written ++ concat chunks]> (files w)) (log w)).
Proof.
  revert written w. induction chunks as [|chunk chunks IH]; intros written w Hw; simpl.
  - rewrite run_ret, app_nil_r, insert_id by done. by destruct w.
  - run_steps. rewrite Hw. simpl.
    rewrite (IH (written ++ chunk)) by (simpl; apply lookup_insert_eq).
    simpl. by rewrite insert_insert_eq, app_assoc.
Qed.

Lemma run_save_stream (filename : string) (chunks : list (list byte))
    (broken : bool) (w : World) :
  save_stream filename chunks broken w =
  (if broken then Exc RequestException else Val tt,
   mkWorld (<[filename := concat chunks]> (files w)) (log w)).
Proof.
  unfold save_stream. run_steps.
  rewrite (run_write_chunks filename chunks []) by (simpl; apply lookup_insert_eq).
  simpl. rewrite insert_insert_eq. by destruct broken; run_steps.
Qed.

Lemma run_download_one (item : nat * string) (c : counters) (w : World) :
  download_one http slot headers output_directory item c w =
  (Val (download_one_result http slot headers output_directory item c w).1,
   (download_one_result http slot headers output_directory item c w).2).
Proof.
  destruct item as [i url]. unfold download_one, download_one_result, request_world.
  cbn [fst snd]. run_steps.
  destruct (files w !! Py.path_join output_directory (slot i)) as [content|] eqn:Hslot.
  - rewrite bool_decide_eq_true_2 by eauto. by run_steps.
  - rewrite bool_decide_eq_false_2 by (by intros [? ?]).
    run_steps. rewrite run_requests_get. cbn zeta. cbn [files log].
    rewrite <- !app_assoc. cbn [app].
    destruct (http url headers _) as [|status_code chunks broken]; [by run_done|].
    unfold raise_for_status.
    destruct (bool_decide (400 ≤ status_code < 600)); run_steps; [by run_done|].
    rewrite run_save_stream.
    destruct broken; by run_done.
Qed.

End Fetcher.

Lemma count_events_app (f : event → bool) (l1 l2 : list event) :
  count_events f (l1 ++ l2) = count_events f l1 + count_events f l2.
Proof. unfold count_events. by rewrite List.filter_app, length_app. Qed.

Section FetcherLoop.

Context (http : string → list (string * string) → World → http_reply).
Context (slot : nat → string) (headers : list (string * string)).
Context (output_directory : string).

(** One iteration: nothing that exists is touched, exactly one outcome is
    recorded, and the counters follow the recorded outcome. *)
Lemma download_one_accounting (item : nat * string) (c : counters) (w : World) :
  ∃ c' w' evs,
    download_one http slot headers output_directory item c w = (Val c', w')
    ∧ log w' = log w ++ evs
    ∧ (∀ p content, files w !! p = Some content → files w' !! p = Some content)
    ∧ download_errors c' = download_errors c + count_events is_failed evs
    ∧ skipped_files c' = skipped_files c + count_events is_skipped evs
    ∧ count_events is_downloaded evs + count_events is_failed evs
        + count_events is_skipped evs = 1.
Proof.
  rewrite run_download_one. unfold download_one_result, request_world.
  destruct item as [i url]. cbn [fst snd].
  set (filename := Py.path_join output_directory (slot i)).
  assert (∀ data p content, files w !! filename = None →
            files w !! p = Some content →
            <[filename := data]> (files w) !! p = Some content) as Hframe.
  { intros data p content Hnone Hp. rewrite lookup_insert_ne; [done|]. congruence. }
  assert (∀ (c' : counters) (w' : World) (evs : list event),
            log w' = log w ++ evs →
            (∀ p content, files w !! p = Some content → files w' !! p = Some content) →
            download_errors c' = download_errors c + count_events is_failed evs →
            skipped_files c' = skipped_files c + count_events is_skipped evs →
            count_events is_downloaded evs + count_events is_failed evs
              + count_events is_skipped evs = 1 →
            ∃ c'' w'' evs',
              (Val (c', w').1, (c', w').2) = (Val c'', w'')
              ∧ log w'' = log w ++ evs'
              ∧ (∀ p content, files w !! p = Some content → files w'' !! p = Some content)
              ∧ download_errors c'' = download_errors c + count_events is_failed evs'
              ∧ skipped_files c'' = skipped_files c + count_events is_skipped evs'
              ∧ count_events is_downloaded evs' + count_events is_failed evs'
                  + count_events is_skipped evs' = 1) as Hpack.
  { intros c' w' evs ?????. by exists c', w', evs. }
  destruct (files w !! filename) as [existing|] eqn:Hslot.
  { eapply Hpack; cbn [files log]; [done|done|..]; unfold count_events; simpl; lia. }
  cbn zeta.
  destruct (http url headers _) as [|status_code chunks broken].
  { eapply Hpack; cbn [files log]; [by rewrite <- app_assoc|done|..];
      unfold count_events; simpl; lia. }
  destruct (bool_decide (400 ≤ status_code < 600)).
  { eapply Hpack; cbn [files log]; [by rewrite <- app_assoc|done|..];
      unfold count_events; simpl; lia. }
  destruct broken.
  - eapply Hpack; cbn [files log]; [by rewrite <- app_assoc|by auto|..];
      unfold count_events; simpl; lia.
  - eapply Hpack; cbn [files log]; [by rewrite <- app_assoc|by auto|..];
      unfold count_events; simpl; lia.
Qed.

(** The loop over any list of items never raises and accounts for every
    item. *)
Lemma download_items_accounting (items : list (nat * string)) (c : counters) (w : World) :
  ∃ c' w' evs,
    for_each items (download_one http slot headers output_directory) c w = (Val c', w')
    ∧ log w' = log w ++ evs
    ∧ (∀ p content, files w !! p = Some content → files w' !! p = Some content)
    ∧ download_errors c' = download_errors c + count_events is_failed evs
    ∧ skipped_files c' = skipped_files c + count_events is_skipped evs
    ∧ count_events is_downloaded evs + count_events is_failed evs
        + count_events is_skipped evs = length items.
Proof.
  revert c w. induction items as [|item items IH]; intros c w.
  - exists c, w, []. simpl. rewrite run_ret, app_nil_r. split_and!; auto.
  - destruct (download_one_accounting item c w)
      as (c1 & w1 & evs1 & Hrun1 & Hlog1 & Hframe1 & Herr1 & Hskip1 & Hone).
    destruct (IH c1 w1) as (c2 & w2 & evs2 & Hrun2 & Hlog2 & Hframe2 & Herr2 & Hskip2 & Hall).
    exists c2, w2, (evs1 ++ evs2). simpl. rewrite run_bind, Hrun1, Hrun2.
    rewrite !count_events_app. split_and!; [done| |by auto|lia|lia|lia].
    by rewrite Hlog2, Hlog1, app_assoc.
Qed.

(** When every slot exists already, the loop only records skips. *)
Lemma download_items_all_present (items : list (nat * string)) (c : counters) (w : World) :
  (∀ item, item ∈ items → is_Some (files w !! slot_path output_directory slot item.1)) →
  for_each items (download_one http slot headers output_directory) c w =
  (Val (mkCounters (download_errors c) (skipped_files c + length items)),
   mkWorld (files w)
           (log w ++ map (λ item, Print (AlreadyExists (slot_path output_directory slot item.1)))
                         items)).
Proof.
  revert c w. induction items as [|item items IH]; intros c w Hall; simpl.
  - rewrite run_ret, app_nil_r, Nat.add_0_r. by destruct c, w.
  - rewrite run_bind, run_download_one. unfold download_one_result.
    destruct (Hall item) as [content Hslot]; [by left|].
    unfold slot_path in Hslot. rewrite Hslot. cbn [fst snd].
    rewrite IH.
    + cbn [files log download_errors skipped_files]. rewrite <- app_assoc.
      do 3 f_equal. lia.
    + intros item' Hin. cbn [files]. apply Hall. by right.
Qed.

Lemma elem_of_enumerate {A} (l : list A) (i : nat) (x : A) :
  (i, x) ∈ Py.enumerate l → i < length l.
Proof.
  unfold Py.enumerate. intros Hin.
  apply elem_of_lookup_imap in Hin as (j & y & Heq & Hj).
  injection Heq as -> ->. by eapply lookup_lt_Some.
Qed.

End FetcherLoop.

Section FetcherRuns.

Context (http : string → list (string * string) → World → http_reply).






End FetcherRuns.

Section FetcherTheorems.

Context (http : string → list (string * string) → World → http_reply).

Lemma count_events_none (f : event → bool) (l : list event) :
  Forall (λ e, f e = false) l → count_events f l = 0.
Proof.
  unfold count_events. induction 1 as [|e l He _ IH]; [done|].
  simpl. by rewrite He.
Qed.





End FetcherTheorems.

Section FetcherClaims.

Context (http : string → list (string * string) → World → http_reply).


End FetcherClaims.



Section RerunClaims.

Context (http : string → list (string * string) → World → http_reply).



End RerunClaims.


Section SkipClaims.

Context (http : string → list (string * string) → World → http_reply).

(** C10.  Whether a segment is fetched depends on the existence of its slot
    file alone: whatever the slot holds, the segment is recorded as skipped,
    no request is made and the file stays as it is.  A body that broke off
    after the file had been opened leaves its partial bytes in the slot, and
    any later run, against any server, skips that slot.  No run of the loop
    changes a file that existed when it started. *)
Theorem C10_skip_depends_on_existence_only
    (slot : nat → string) (headers : list (string * string)) (output_directory : string)
    (i : nat) (url : string) (c : counters) (w : World) (content : list byte) :
  files w !! slot_path output_directory slot i = Some content →
  download_one http slot headers output_directory (i, url) c w =
    (Val (mkCounters (download_errors c) (skipped_files c + 1)),
     mkWorld (files w) (log w ++ [Print (AlreadyExists (slot_path output_directory slot i))]))
  ∧ (∀ http1 c1 w1 status_code chunks,
       files w1 !! slot_path output_directory slot i = None →
       http1 url headers (request_world w1 url (slot_path output_directory slot i) headers) =
         Response status_code chunks true →
       ¬ (400 ≤ status_code < 600) →
       ∃ w2,
         download_one http1 slot headers output_directory (i, url) c1 w1 =
           (Val (mkCounters (download_errors c1 + 1) (skipped_files c1)), w2)
         ∧ files w2 !! slot_path output_directory slot i = Some (concat chunks)
         ∧ ∀ http2 url2 c2,
             download_one http2 slot headers output_directory (i, url2) c2 w2 =
               (Val (mkCounters (download_errors c2) (skipped_files c2 + 1)),
                mkWorld (files w2)
                  (log w2 ++ [Print (AlreadyExists (slot_path output_directory slot i))])))
  ∧ (∀ urls w0 p content0,
       files w0 !! p = Some content0 →
       ∃ c' w',
         download_loop http slot headers output_directory urls w0 = (Val c', w')
         ∧ files w' !! p = Some content0).
Proof.
  intros Hslot.
  assert (∀ http' url' c' w' content',
            files w' !! slot_path output_directory slot i = Some content' →
            download_one http' slot headers output_directory (i, url') c' w' =
            (Val (mkCounters (download_errors c') (skipped_files c' + 1)),
             mkWorld (files w')
               (log w' ++ [Print (AlreadyExists (slot_path output_directory slot i))])))
    as Hskip.
  { intros http' url' c' w' content' Hpresent.
    rewrite run_download_one. unfold download_one_result. cbn [fst snd].
    unfold slot_path in *. by rewrite Hpresent. }
  split_and!.
  - by eapply Hskip.
  - intros http1 c1 w1 status_code chunks Hnone Hreply Hstatus.
    rewrite run_download_one. unfold download_one_result. cbn [fst snd].
    unfold slot_path in *. rewrite Hnone. cbn zeta. rewrite Hreply.
    rewrite bool_decide_eq_false_2 by done. cbn [fst snd].
    eexists. split; [reflexivity|]. cbn [files].
    split; [apply lookup_insert_eq|].
    intros http2 url2 c2. eapply Hskip. cbn [files]. apply lookup_insert_eq.
  - intros urls w0 p content0 Hp. unfold download_loop.
    destruct (download_items_accounting http slot headers output_directory
                (Py.enumerate urls) (mkCounters 0 0) w0)
      as (c' & w' & _ & Hrun & _ & Hframe & _).
    exists c', w'. split; [done|]. by apply Hframe.
Qed.

End SkipClaims.

Lemma C10_skip_depends_on_existence_only_witness :
  download_one http_down segment_filename browser_headers "out"
    (0, "https://cdn.example/seg0.ts") (mkCounters 0 0) finished_world =
  (Val (mkCounters 0 (0 + 1)),
   mkWorld (files finished_world)
     (log finished_world ++ [Print (AlreadyExists (slot_path "out" segment_filename 0))])).
Proof.
  pose proof (C10_skip_depends_on_existence_only http_down segment_filename browser_headers
                "out" 0 "https://cdn.example/seg0.ts" (mkCounters 0 0) finished_world
                ts_body) as H.
  destruct H as [H _]; [reflexivity|].
  exact H.
Defined.

(** ** Segment validator *)

Section Validator.

Lemma run_validate_one (total_files i : nat) (jpeg_file : string) (content : list byte)
    (valid_count removed_count : nat) (w : World) :
  files w !! jpeg_file = Some content →
  validate_one total_files (i, jpeg_file) (valid_count, removed_count) w =
  (Val (if jpeg_defect jpeg_file content is Some _
        then (valid_count, removed_count + 1) else (valid_count + 1, removed_count)),
   mkWorld (if jpeg_defect jpeg_file content is Some _
            then delete jpeg_file (files w) else files w)
           (log w ++ validate_trace total_files (i, jpeg_file) content)).
Proof.
  intros Hfile. unfold validate_one, validate_trace, progress_line, jpeg_defect.
  cbn [fst snd].
  assert (∀ (k : M (nat * nat)) (evs : list event) res fs,
            (∀ l, k (mkWorld (files w) l) = (res, mkWorld fs (l ++ evs))) →
            ((if bool_decide (i `mod` 100 = 0)
              then print (Progress i total_files) else ret tt) >> k) w =
            (res, mkWorld fs
                    (log w ++ (if bool_decide (i `mod` 100 = 0)
                               then [Print (Progress i total_files)] else []) ++ evs)))
    as Hprogress.
  { intros k evs res fs Hk. destruct (bool_decide (i `mod` 100 = 0)); run_steps.
    - rewrite Hk. by rewrite <- app_assoc.
    - replace w with (mkWorld (files w) (log w)) at 1 by (by destruct w). by rewrite Hk. }
  destruct (bool_decide (length content < 512)) eqn:Hsize.
  { apply Hprogress. intros l. run_steps. rewrite Hfile. run_steps.
    rewrite Hsize. run_steps. rewrite Hfile. by run_steps. }
  destruct (has_start_marker (take 4 content)) eqn:Hhead; cbn [negb].
  2:{ apply Hprogress. intros l. run_steps. rewrite Hfile. run_steps.
      rewrite Hsize. run_steps. rewrite Hfile. run_steps.
      rewrite Hhead. cbn [negb]. run_steps. rewrite Hfile. by run_done. }
  assert (bool_decide (length content < 2) = false) as Hlong.
  { apply bool_decide_eq_false. apply bool_decide_eq_false in Hsize. lia. }
  destruct (bool_decide (drop (length content - 2) content = jpeg_end_marker)) eqn:Hfoot;
    cbn [negb].
  - apply Hprogress. intros l. run_steps. rewrite Hfile. run_steps.
    rewrite Hsize. run_steps. rewrite Hfile. run_steps.
    rewrite Hhead. cbn [negb]. unfold read_last_two. rewrite Hlong. run_steps.
    rewrite Hfoot. cbn [negb]. run_steps. rewrite Hfile. run_steps.
    destruct (bool_decide (500 < length (take 1024 content))); by run_done.
  - apply Hprogress. intros l. run_steps. rewrite Hfile. run_steps.
    rewrite Hsize. run_steps. rewrite Hfile. run_steps.
    rewrite Hhead. cbn [negb]. unfold read_last_two. rewrite Hlong. run_steps.
    rewrite Hfoot. cbn [negb]. run_steps. rewrite Hfile. by run_done.
Qed.

(** The whole loop, over distinct files that are all there: the defective
    ones are gone afterwards, everything else is as before. *)
Lemma run_validate_items (total_files : nat) (fs0 : gmap string (list byte))
    (items : list (nat * string)) (valid_count removed_count : nat) (w : World) :
  NoDup (items.*2) →
  (∀ item, item ∈ items → is_Some (fs0 !! item.2) ∧ files w !! item.2 = fs0 !! item.2) →
  ∃ w',
    for_each items (validate_one total_files) (valid_count, removed_count) w =
      (Val (valid_count
              + length (List.filter (λ item, negb (is_defective fs0 item.2)) items),
            removed_count
              + length (List.filter (λ item, is_defective fs0 item.2) items)), w')
    ∧ (∀ q, files w' !! q =
            if bool_decide (q ∈ items.*2) && is_defective fs0 q then None
            else files w !! q)
    ∧ log w' = log w ++ flat_map (λ item, validate_trace total_files item
                                             (default [] (fs0 !! item.2))) items.
Proof.
  revert valid_count removed_count w.
  induction items as [|[i p] items IH]; intros valid_count removed_count w Hnodup Hall.
  - exists w. simpl. rewrite run_ret, app_nil_r, !Nat.add_0_r. by split_and!.
  - rewrite fmap_cons in Hnodup. cbn [snd] in Hnodup.
    apply NoDup_cons in Hnodup as [Hfresh Hnodup].
    destruct (Hall (i, p)) as [[content Hfs0] Hw]; [by left|]. cbn [snd] in *.
    rewrite Hfs0 in Hw.
    cbn [for_each]. rewrite run_bind, (run_validate_one _ _ _ content) by done.
    set (w1 := mkWorld _ _).
    assert (∀ q, q ≠ p → files w1 !! q = files w !! q) as Hother.
    { intros q Hq. unfold w1. cbn [files].
      destruct (jpeg_defect p content); [by rewrite lookup_delete_ne|done]. }
    assert (is_defective fs0 p = bool_decide (is_Some (jpeg_defect p content))) as Hdef
      by (unfold is_defective; by rewrite Hfs0).
    destruct (IH (if jpeg_defect p content is Some _ then valid_count else valid_count + 1)
                 (if jpeg_defect p content is Some _ then removed_count + 1
                  else removed_count) w1 Hnodup)
      as (w' & Hrun & Hfiles & Hlog).
    { intros item Hin. destruct (Hall item) as [Hsome Heq]; [by right|].
      split; [done|]. rewrite Hother; [done|].
      intros Hp. apply Hfresh. rewrite <- Hp. apply list_elem_of_fmap. by exists item. }
    exists w'. split_and!.
    + destruct (jpeg_defect p content) as [m|] eqn:Hverdict; rewrite Hrun;
        cbn [List.filter snd]; rewrite Hdef; cbn [negb length].
      * rewrite bool_decide_eq_true_2 by eauto. cbn [negb length]. do 3 f_equal; lia.
      * rewrite bool_decide_eq_false_2 by (by intros [? ?]). cbn [negb length].
        do 3 f_equal; lia.
    + intros q. rewrite Hfiles, fmap_cons. cbn [snd].
      destruct (decide (q = p)) as [->|Hq].
      * rewrite (bool_decide_eq_false_2 (p ∈ items.*2)) by done.
        rewrite (bool_decide_eq_true_2 (p ∈ p :: items.*2)) by left.
        cbn [andb]. rewrite Hdef. unfold w1. cbn [files].
        destruct (jpeg_defect p content) as [m|].
        -- rewrite bool_decide_eq_true_2 by eauto. apply lookup_delete_eq.
        -- by rewrite bool_decide_eq_false_2 by (by intros [? ?]).
      * rewrite Hother by done.
        destruct (decide (q ∈ items.*2)) as [Hin|Hout].
        -- rewrite !bool_decide_eq_true_2; [done|by right|done].
        -- rewrite !bool_decide_eq_false_2; [done| |done].
           intros [?|?]%elem_of_cons; done.
    + rewrite Hlog. unfold w1. cbn [log flat_map snd]. rewrite Hfs0. cbn [default].
      by rewrite <- app_assoc.
Qed.

Lemma run_sorted_glob (d prefix suffix : string) (w : World) :
  sorted_glob d prefix suffix w = (Val (glob_listing d prefix suffix (files w)), w).
Proof. reflexivity. Qed.

Lemma elem_of_glob_listing (d prefix suffix : string) (fs : gmap string (list byte))
    (p : string) :
  p ∈ glob_listing d prefix suffix fs ↔
  is_Some (fs !! p) ∧ glob_matches d prefix suffix p = true.
Proof.
  unfold glob_listing. rewrite merge_sort_Permutation, list_elem_of_filter.
  split.
  - intros [Hmatch Hin]. split; [|done].
    apply list_elem_of_fmap in Hin as ([q c] & -> & Hqc).
    apply elem_of_map_to_list in Hqc. eauto.
  - intros [[c Hc] Hmatch]. split; [done|].
    apply list_elem_of_fmap. exists (p, c). split; [done|]. by apply elem_of_map_to_list.
Qed.

Lemma NoDup_glob_listing (d prefix suffix : string) (fs : gmap string (list byte)) :
  NoDup (glob_listing d prefix suffix fs).
Proof.
  unfold glob_listing. rewrite merge_sort_Permutation.
  apply NoDup_filter, NoDup_fst_map_to_list.
Qed.

Lemma enumerate_snd {A} (l : list A) : (Py.enumerate l).*2 = l.
Proof.
  unfold Py.enumerate.
  assert (∀ f : nat → nat, (imap (λ i x, (f i, x)) l).*2 = l) as H.
  { induction l as [|x l IH]; intros f; [done|].
    rewrite imap_cons, fmap_cons. cbn [snd]. f_equal. apply (IH (f ∘ S)). }
  apply (H id).
Qed.

Lemma elem_of_enumerate_snd {A} (l : list A) (item : nat * A) :
  item ∈ Py.enumerate l → item.2 ∈ l.
Proof.
  intros Hin. rewrite <- (enumerate_snd l). apply list_elem_of_fmap. by exists item.
Qed.

(** [validate_and_fix_jpegs] as a whole. *)
Lemma run_validate_and_fix_jpegs (input_dir : string) (w : World) :
  let jpeg_files := glob_listing input_dir "video" ".jpeg" (files w) in
  let items := Py.enumerate jpeg_files in
  let valid_count := length (List.filter (λ item, negb (is_defective (files w) item.2)) items) in
  let removed_count := length (List.filter (λ item, is_defective (files w) item.2) items) in
  ∃ w',
    validate_and_fix_jpegs input_dir w = (Val (valid_count, removed_count), w')
    ∧ (∀ q, files w' !! q =
            if bool_decide (q ∈ jpeg_files) && is_defective (files w) q then None
            else files w !! q)
    ∧ log w' = log w ++ Print (Validating (length jpeg_files))
                 :: flat_map (λ item, validate_trace (length jpeg_files) item
                                        (default [] (files w !! item.2))) items
                 ++ [Print (ValidationComplete valid_count removed_count)].
Proof.
  intros jpeg_files items valid_count removed_count.
  unfold validate_and_fix_jpegs. rewrite run_bind, run_sorted_glob.
  fold jpeg_files. run_steps.
  destruct (run_validate_items (length jpeg_files) (files w) items 0 0
              (mkWorld (files w) (log w ++ [Print (Validating (length jpeg_files))])))
    as (w1 & Hrun & Hfiles & Hlog).
  { unfold items. rewrite enumerate_snd. apply NoDup_glob_listing. }
  { intros item Hin. split; [|done].
    apply elem_of_enumerate_snd in Hin.
    by apply elem_of_glob_listing in Hin as [? _]. }
  fold items. rewrite Hrun. cbn [Nat.add]. fold valid_count removed_count. run_steps.
  eexists. split; [reflexivity|]. cbn [files log]. split.
  - intros q. rewrite Hfiles. unfold items. by rewrite enumerate_snd.
  - rewrite Hlog. cbn [log]. by rewrite <- !app_assoc.
Qed.



End Validator.


(** ** Assembly engines *)

Lemma strategies_tried_app (l1 l2 : list event) :
  strategies_tried (l1 ++ l2) = strategies_tried l1 ++ strategies_tried l2.
Proof. apply omap_app. Qed.

Lemma world_eta (w : World) : mkWorld (files w) (log w) = w.
Proof. by destruct w. Qed.

Section Quiet.

Context (tool : list string → option nat → World → proc_reply * gmap string (list byte)).

Lemma quiet_ret {A} (a : A) : quiet (ret a).
Proof. intros w r w'. rewrite run_ret. intros [= <- <-]. exists []. by rewrite app_nil_r. Qed.

Lemma quiet_raise {A} (e : exn) : quiet (@raise A e).
Proof. intros w r w'. rewrite run_raise. intros [= <- <-]. exists []. by rewrite app_nil_r. Qed.

Lemma quiet_bind {A B} (m : M A) (k : A → M B) :
  quiet m → (∀ a, quiet (k a)) → quiet (bind m k).
Proof.
  intros Hm Hk w r w'. rewrite run_bind.
  destruct (m w) as [[a|e] w1] eqn:Hrun; destruct (Hm _ _ _ Hrun) as (evs1 & Hlog1 & Hq1).
  - intros Hrun2. destruct (Hk _ _ _ _ Hrun2) as (evs2 & Hlog2 & Hq2).
    exists (evs1 ++ evs2). rewrite Hlog2, Hlog1, strategies_tried_app, Hq1, Hq2.
    by rewrite app_assoc.
  - intros [= <- <-]. eauto.
Qed.

Lemma quiet_catch {A} (m : M A) (h : exn → M A) :
  quiet m → (∀ e, quiet (h e)) → quiet (catch m h).
Proof.
  intros Hm Hh w r w'. rewrite run_catch.
  destruct (m w) as [[a|e] w1] eqn:Hrun; destruct (Hm _ _ _ Hrun) as (evs1 & Hlog1 & Hq1).
  - intros [= <- <-]. eauto.
  - intros Hrun2. destruct (Hh _ _ _ _ Hrun2) as (evs2 & Hlog2 & Hq2).
    exists (evs1 ++ evs2). rewrite Hlog2, Hlog1, strategies_tried_app, Hq1, Hq2.
    by rewrite app_assoc.
Qed.

(** Steps that leave the history alone or add one event that is not an
    announcement. *)
Lemma quiet_step {A} (m : M A) :
  (∀ w, ∃ r fs evs, m w = (r, mkWorld fs (log w ++ evs)) ∧ strategies_tried evs = []) →
  quiet m.
Proof.
  intros H w r w' Hrun. destruct (H w) as (r0 & fs & evs & Hm & Hq).
  rewrite Hm in Hrun. injection Hrun as <- <-. eauto.
Qed.

Lemma quiet_print (m : message) :
  (∀ n, m ≠ Trying n) → quiet (print m).
Proof.
  intros Hm. apply quiet_step. intros w. exists (Val tt), (files w), [Print m].
  rewrite run_print. split; [done|]. destruct m; try done. by destruct (Hm strategy).
Qed.

Lemma quiet_os_path_exists (p : string) : quiet (os_path_exists p).
Proof.
  apply quiet_step. intros w. exists (Val (bool_decide (is_Some (files w !! p)))), (files w), [].
  by rewrite run_os_path_exists, app_nil_r, world_eta.
Qed.

Lemma quiet_os_path_getsize (p : string) : quiet (os_path_getsize p).
Proof.
  apply quiet_step. intros w. rewrite run_os_path_getsize.
  destruct (files w !! p) as [c|].
  - exists (Val (length c)), (files w), []. by rewrite app_nil_r, world_eta.
  - exists (Exc FileNotFoundError), (files w), []. by rewrite app_nil_r, world_eta.
Qed.

Lemma quiet_os_remove (p : string) : quiet (os_remove p).
Proof.
  apply quiet_step. intros w. rewrite run_os_remove.
  destruct (files w !! p) as [c|].
  - exists (Val tt), (delete p (files w)), []. by rewrite app_nil_r.
  - exists (Exc FileNotFoundError), (files w), []. by rewrite app_nil_r, world_eta.
Qed.

Lemma quiet_open_rb (p : string) : quiet (open_rb p).
Proof.
  apply quiet_step. intros w. rewrite run_open_rb.
  destruct (files w !! p) as [c|].
  - by exists (Val c), (files w), [OpenRead p].
  - exists (Exc FileNotFoundError), (files w), []. by rewrite app_nil_r, world_eta.
Qed.

Lemma quiet_open_w (p : string) : quiet (open_w p).
Proof.
  apply quiet_step. intros w. rewrite run_open_w.
  exists (Val tt), (<[p := []]> (files w)), []. by rewrite app_nil_r.
Qed.

Lemma quiet_write (p : string) (data : list byte) : quiet (write p data).
Proof.
  apply quiet_step. intros w. rewrite run_write.
  eexists (Val tt), _, []. by rewrite app_nil_r.
Qed.

Lemma quiet_shutil_rmtree (d : string) : quiet (shutil_rmtree d).
Proof.
  apply quiet_step. intros w. rewrite run_shutil_rmtree.
  eexists (Val tt), _, []. by rewrite app_nil_r.
Qed.

Lemma quiet_shutil_copy2 (src dst : string) : quiet (shutil_copy2 src dst).
Proof.
  apply quiet_step. intros w. unfold shutil_copy2.
  destruct (files w !! src) as [c|].
  - exists (Val tt), (<[dst := c]> (files w)), []. by rewrite app_nil_r.
  - exists (Exc FileNotFoundError), (files w), []. by rewrite app_nil_r, world_eta.
Qed.

Lemma quiet_subprocess_run (argv : list string) (timeout : option nat) :
  quiet (subprocess_run tool argv timeout).
Proof.
  apply quiet_step. intros w. unfold subprocess_run. cbn zeta. cbn [files log].
  destruct (tool argv timeout _) as [[returncode stderr| | |] fs].
  - by exists (Val (returncode, stderr)), fs, [Subprocess argv timeout].
  - by exists (Exc TimeoutExpired), fs, [Subprocess argv timeout].
  - by exists (Exc FileNotFoundError), fs, [Subprocess argv timeout].
  - by exists (Exc OSError), fs, [Subprocess argv timeout].
Qed.

Lemma quiet_for_each {A S} (l : list A) (body : A → S → M S) (acc : S) :
  (∀ x s, quiet (body x s)) → quiet (for_each l body acc).
Proof.
  intros Hbody. revert acc. induction l as [|x l IH]; intros acc; cbn [for_each].
  - apply quiet_ret.
  - apply quiet_bind; [apply Hbody|]. intros acc'. apply IH.
Qed.

End Quiet.

Section Guarded.

Context (tool : list string → option nat → World → proc_reply * gmap string (list byte)).
Context (output_file : string).

Lemma guarded_quiet (m : M bool) : guarded output_file m → quiet m.
Proof. intros Hm w r w' Hrun. by destruct (Hm _ _ _ Hrun). Qed.

Lemma guarded_ret_false : guarded output_file (ret false).
Proof.
  intros w r w'. rewrite run_ret. intros [= <- <-]. split; [|done].
  exists []. by rewrite app_nil_r.
Qed.

Lemma guarded_bind {A} (m : M A) (k : A → M bool) :
  quiet m → (∀ a, guarded output_file (k a)) → guarded output_file (bind m k).
Proof.
  intros Hm Hk w r w'. rewrite run_bind.
  destruct (m w) as [[a|e] w1] eqn:Hrun; destruct (Hm _ _ _ Hrun) as (evs1 & Hlog1 & Hq1).
  - intros Hrun2. destruct (Hk _ _ _ _ Hrun2) as [(evs2 & Hlog2 & Hq2) Hviable].
    split; [|done].
    exists (evs1 ++ evs2). rewrite Hlog2, Hlog1, strategies_tried_app, Hq1, Hq2.
    by rewrite app_assoc.
  - intros [= <- <-]. split; [eauto|done].
Qed.

Lemma guarded_catch (m : M bool) (h : exn → M bool) :
  guarded output_file m → (∀ e, guarded output_file (h e)) →
  guarded output_file (catch m h).
Proof.
  intros Hm Hh w r w'. rewrite run_catch.
  destruct (m w) as [[a|e] w1] eqn:Hrun;
    destruct (Hm _ _ _ Hrun) as [(evs1 & Hlog1 & Hq1) Hviable1].
  - intros [= <- <-]. split; [eauto|done].
  - intros Hrun2. destruct (Hh _ _ _ _ Hrun2) as [(evs2 & Hlog2 & Hq2) Hviable2].
    split; [|done].
    exists (evs1 ++ evs2). rewrite Hlog2, Hlog1, strategies_tried_app, Hq1, Hq2.
    by rewrite app_assoc.
Qed.

(** The answer of the viability test is backed by the files. *)
Lemma run_output_viable (w : World) :
  ∃ ok, output_viable output_file w = (Val ok, w)
        ∧ (ok = true ↔ viable (files w) output_file).
Proof.
  unfold output_viable, viable. run_steps.
  destruct (files w !! output_file) as [content|] eqn:Hout.
  - rewrite bool_decide_eq_true_2 by eauto. run_steps. rewrite Hout. run_steps.
    exists (bool_decide (1024 < length content)). split; [done|].
    rewrite bool_decide_eq_true. split; [eauto|]. by intros (? & [= <-] & ?).
  - rewrite bool_decide_eq_false_2 by (by intros [? ?]). run_steps.
    exists false. split; [done|]. split; [done|]. by intros (? & ? & ?).
Qed.

Lemma run_accepted (returncode : Z) (w : World) :
  ∃ ok, accepted returncode output_file w = (Val ok, w)
        ∧ (ok = true ↔ returncode = 0%Z ∧ viable (files w) output_file).
Proof.
  unfold accepted. destruct (bool_decide (returncode = 0%Z)) eqn:Hrc.
  - apply bool_decide_eq_true in Hrc. destruct (run_output_viable w) as (ok & Hrun & Hok).
    exists ok. split; [done|]. rewrite Hok. split; [by intros ?|by intros [_ ?]].
  - apply bool_decide_eq_false in Hrc. exists false. rewrite run_ret.
    split; [done|]. split; [done|by intros [? _]].
Qed.

Lemma run_report_created (strategy : nat) (w : World) (content : list byte) :
  files w !! output_file = Some content →
  report_created strategy output_file w =
  (Val tt, mkWorld (files w) (log w ++ [Print (Created strategy (length content))])).
Proof. intros Hout. unfold report_created. run_steps. rewrite Hout. by run_steps. Qed.

(** The tail of strategies 1 to 3 of both engines: test, then report. *)
Lemma guarded_conclude (strategy : nat) (returncode : Z) (k_false : M bool) :
  guarded output_file k_false →
  guarded output_file
    (let! ok := accepted returncode output_file in
     if ok then report_created strategy output_file >> ret true else k_false).
Proof.
  intros Hfalse w r w'. rewrite run_bind.
  destruct (run_accepted returncode w) as (ok & -> & Hok).
  destruct ok; [|apply Hfalse].
  destruct Hok as [Hok _]. destruct (Hok eq_refl) as [_ (content & Hout & Hsize)].
  run_steps. rewrite (run_report_created _ _ content) by done. run_steps.
  intros [= <- <-]. cbn [files log]. split; [by eexists [_]|].
  intros _. by exists content.
Qed.

(** The tail of the maximum-tolerance strategies: the exit code only decides
    whether one more line is printed. *)
Lemma guarded_conclude_force (strategy : nat) (returncode : Z) (k_false : M bool) :
  guarded output_file k_false →
  guarded output_file
    (let! ok := output_viable output_file in
     if ok then
       report_created strategy output_file >>
       (if bool_decide (returncode ≠ 0%Z) then print CreatedWithErrors else ret tt) >>
       ret true
     else k_false).
Proof.
  intros Hfalse w r w'. rewrite run_bind.
  destruct (run_output_viable w) as (ok & -> & Hok).
  destruct ok; [|apply Hfalse].
  destruct Hok as [Hok _]. destruct (Hok eq_refl) as (content & Hout & Hsize).
  run_steps. rewrite (run_report_created _ _ content) by done. run_steps.
  destruct (bool_decide (returncode ≠ 0%Z)); run_steps;
    intros [= <- <-]; cbn [files log]; (split; [|intros _; by exists content]).
  - exists [Print (Created strategy (length content)); Print CreatedWithErrors].
    by rewrite <- app_assoc.
  - by exists [Print (Created strategy (length content))].
Qed.

Lemma gives_up_timed_out_or_error (strategy : nat) :
  gives_up (timed_out_or_error strategy).
Proof. intros e w. unfold timed_out_or_error. destruct e; run_steps; eauto. Qed.

Lemma gives_up_error (strategy : nat) :
  gives_up (λ _, print (StrategyError strategy) >> ret false).
Proof. intros e w. run_steps. eauto. Qed.

Lemma guarded_gives_up (h : exn → M bool) :
  gives_up h → (∀ e, quiet (h e)) → ∀ e, guarded output_file (h e).
Proof.
  intros Hgive Hquiet e w r w' Hrun. split; [by eapply Hquiet|].
  destruct (Hgive e w) as (w1 & Hw1). rewrite Hw1 in Hrun. by injection Hrun as <- <-.
Qed.

(** A strategy built as the scripts build them: announce, try, and on any
    exception report and answer [false]. *)
Lemma strategy_contract_intro (n : nat) (body : M bool) (h : exn → M bool) :
  guarded output_file body → gives_up h → (∀ e, quiet (h e)) →
  strategy_contract n output_file (print (Trying n) >> catch body h).
Proof.
  intros Hbody Hgive Hquiet w. run_steps.
  set (w1 := mkWorld _ _).
  destruct (body w1) as [[b|e] w2] eqn:Hrun;
    destruct (Hbody _ _ _ Hrun) as [(evs & Hlog & Hq) Hviable].
  - exists b, w2, evs. split_and!; [done| |done|].
    + rewrite Hlog. unfold w1. cbn [log]. by rewrite <- app_assoc.
    + intros ->. by apply Hviable.
  - destruct (Hgive e w2) as (w3 & Hw3).
    destruct (Hquiet e _ _ _ Hw3) as (evs3 & Hlog3 & Hq3).
    exists false, w3, (evs ++ evs3). split_and!; [done| | |done].
    + rewrite Hlog3, Hlog. unfold w1. cbn [log]. by rewrite <- !app_assoc.
    + by rewrite strategies_tried_app, Hq, Hq3.
Qed.

End Guarded.

Lemma quiet_output_viable (p : string) : quiet (output_viable p).
Proof.
  intros w r w' Hrun. destruct (run_output_viable p w) as (ok & Hok & _).
  rewrite Hok in Hrun. injection Hrun as <- <-. exists []. by rewrite app_nil_r.
Qed.

Lemma quiet_accepted (returncode : Z) (p : string) : quiet (accepted returncode p).
Proof.
  intros w r w' Hrun. destruct (run_accepted p returncode w) as (ok & Hok & _).
  rewrite Hok in Hrun. injection Hrun as <- <-. exists []. by rewrite app_nil_r.
Qed.

(** Goals of the shape [quiet m], by the structure of [m]. *)
Ltac quiet_tac :=
  repeat first
    [ apply quiet_ret | apply quiet_raise
    | apply quiet_os_path_exists | apply quiet_os_path_getsize | apply quiet_os_remove
    | apply quiet_open_rb | apply quiet_open_w | apply quiet_write
    | apply quiet_shutil_rmtree | apply quiet_shutil_copy2
    | apply quiet_subprocess_run
    | apply quiet_output_viable | apply quiet_accepted
    | apply quiet_print; by intros ?
    | apply quiet_bind; [|intros ?]
    | apply quiet_catch; [|intros ?]
    | apply quiet_for_each; intros ? ?
    | match goal with
      | |- quiet (if ?b then _ else _) => destruct b
      | |- quiet (match ?x with _ => _ end) => destruct x
      | |- quiet ((match ?x with _ => _ end) _) => destruct x
      end ].

Section Contracts.

Context (tool : list string → option nat → World → proc_reply * gmap string (list byte)).
Context (abspath : string → string) (duration_text : Z → string).
Context (input_dir output_file : string).

(** Goals of the shape [guarded output_file m] for the bodies of the
    strategies: a quiet prefix, then one of the two tails. *)
Ltac guarded_tac :=
  repeat first
    [ apply guarded_ret_false
    | apply guarded_conclude
    | apply guarded_conclude_force
    | apply guarded_catch; [|intros ?]
    | apply guarded_bind; [quiet_tac|intros ?]
    | match goal with
      | |- guarded _ (if ?b then _ else _) => destruct b
      | |- guarded _ (match ?x with _ => _ end) => destruct x
      end ].

Ltac contract_tac :=
  apply strategy_contract_intro;
  [ guarded_tac
  | first [apply gives_up_timed_out_or_error | apply gives_up_error]
  | intros ?; unfold timed_out_or_error; quiet_tac ].





Lemma ts_strategy_concat_contract (ts_files : list string) :
  strategy_contract 1 output_file
    (ts_strategy_concat tool abspath input_dir ts_files output_file).
Proof. unfold ts_strategy_concat, ts_conclude, write_segment_list. contract_tac. Qed.

Lemma ts_strategy_protocol_contract (ts_files : list string) :
  strategy_contract 2 output_file
    (ts_strategy_protocol tool abspath ts_files output_file).
Proof. unfold ts_strategy_protocol, ts_conclude. contract_tac. Qed.

Lemma ts_strategy_binary_contract (ts_files : list string) :
  strategy_contract 3 output_file
    (ts_strategy_binary tool input_dir ts_files output_file).
Proof. unfold ts_strategy_binary, ts_conclude, concatenate_into. contract_tac. Qed.

Lemma ts_strategy_reencode_contract (ts_files : list string) :
  strategy_contract 4 output_file
    (ts_strategy_reencode tool abspath input_dir ts_files output_file).
Proof. unfold ts_strategy_reencode, ts_conclude, write_segment_list. contract_tac. Qed.

Lemma ts_strategy_force_contract (ts_files : list string) :
  strategy_contract 5 output_file
    (ts_strategy_force tool abspath input_dir ts_files output_file).
Proof. unfold ts_strategy_force, write_segment_list. contract_tac. Qed.

Lemma ts_strategy_raw_contract (ts_files : list string) :
  strategy_contract 6 output_file (ts_strategy_raw tool input_dir ts_files).
Proof. unfold ts_strategy_raw, concatenate_into. contract_tac. Qed.

End Contracts.

Section Ladder.

Context (output_file : string).

Lemma strategies_tried_trying (n : nat) (evs : list event) :
  strategies_tried (Print (Trying n) :: evs) = n :: strategies_tried evs.
Proof. reflexivity. Qed.

(** A ladder of strategies that keep their contracts tries them in order,
    stops at the first that answers [true], and answers [false] only after
    the last one. *)
Lemma first_success_contract (ladder : list (M bool)) (start : nat) :
  (∀ i s, ladder !! i = Some s → strategy_contract (start + i) output_file s) →
  ∀ w, ∃ b w' evs k,
    first_success ladder w = (Val b, w')
    ∧ log w' = log w ++ evs
    ∧ strategies_tried evs = seq start k
    ∧ k ≤ length ladder
    ∧ (b = true → 0 < k ∧ viable (files w') output_file)
    ∧ (b = false → k = length ladder).
Proof.
  revert start. induction ladder as [|s rest IH]; intros start Hcontracts w.
  - exists false, w, [], 0. cbn [first_success]. rewrite run_ret, app_nil_r.
    split_and!; done.
  - destruct (Hcontracts 0 s eq_refl w) as (b & w1 & evs1 & Hrun & Hlog & Hq & Hviable).
    rewrite Nat.add_0_r in Hlog.
    cbn [first_success]. rewrite run_bind, Hrun. destruct b.
    + exists true, w1, (Print (Trying start) :: evs1), 1. rewrite run_ret.
      rewrite strategies_tried_trying, Hq. cbn [length seq].
      split_and!; [done|done|done|lia| |done].
      intros _. split; [lia|by apply Hviable].
    + destruct (IH (S start)) with (w := w1)
        as (b & w' & evs & k & Hrun' & Hlog' & Hq' & Hk & Htrue & Hfalse).
      { intros i s' Hs'. replace (S start + i) with (start + S i) by lia.
        by apply Hcontracts. }
      exists b, w', (Print (Trying start) :: evs1 ++ evs), (S k).
      rewrite strategies_tried_trying, strategies_tried_app, Hq, Hq'. cbn [length seq app].
      split_and!; [done| |done|lia| |].
      * rewrite Hlog', Hlog. by rewrite <- app_assoc.
      * intros Hb. destruct (Htrue Hb). split; [lia|done].
      * intros Hb. rewrite (Hfalse Hb). done.
Qed.

End Ladder.

Section Engines.

Context (tool : list string → option nat → World → proc_reply * gmap string (list byte)).
Context (abspath : string → string) (duration_text : Z → string).

Lemma quiet_ffmpeg_available : quiet (ffmpeg_available tool).
Proof. unfold ffmpeg_available. quiet_tac. Qed.

Lemma quiet_sorted_glob (d prefix suffix : string) : quiet (sorted_glob d prefix suffix).
Proof.
  intros w r w'. rewrite run_sorted_glob. intros [= <- <-]. exists []. by rewrite app_nil_r.
Qed.

Lemma run_check_file_format (ts_files : list string) (w : World) :
  ∃ w' evs, check_file_format ts_files w = (Val tt, w')
            ∧ log w' = log w ++ evs ∧ strategies_tried evs = [].
Proof.
  assert (quiet (check_file_format ts_files)) as Hquiet.
  { unfold check_file_format, no_sync_byte, differs_from_sync. quiet_tac. }
  destruct (check_file_format ts_files w) as [r w'] eqn:Hrun.
  destruct (Hquiet _ _ _ Hrun) as (evs & Hlog & Hq).
  exists w', evs. split; [|done].
  revert Hrun. unfold check_file_format. rewrite run_bind, run_print, run_catch.
  match goal with |- context [let (_, _) := ?m ?w0 in _] =>
    destruct (m w0) as [[u|e] w2] end.
  - destruct u. by intros [= <- <-].
  - rewrite run_print. by intros [= <- <-].
Qed.



End Engines.

Section FirstStrategy.

Context (tool : list string → option nat → World → proc_reply * gmap string (list byte)).
Context (abspath : string → string) (duration_text : Z → string).
Context (input_dir output_file : string).

Lemma for_each_map {A B S} (f : A → B) (l : list A) (body : B → S → M S) (acc : S) (w : World) :
  for_each (map f l) body acc w = for_each l (λ x, body (f x)) acc w.
Proof.
  revert acc w. induction l as [|x l IH]; intros acc w; cbn [map for_each]; [done|].
  rewrite !run_bind. destruct (body (f x) acc w) as [[acc'|e] w']; [apply IH|done].
Qed.

Lemma run_write_segment_list (concat_file : string) (ts_files : list string) (w : World) :
  write_segment_list abspath concat_file ts_files w =
  (Val tt, mkWorld (<[concat_file := segment_list_text abspath ts_files]> (files w)) (log w)).
Proof.
  unfold write_segment_list, segment_list_text. run_steps.
  rewrite <- (for_each_map (λ ts_file, bytes ("file '" +:+ abspath ts_file +:+ "'" +:+ nl))
                ts_files (λ chunk _, write concat_file chunk)).
  rewrite (run_write_chunks concat_file _ []) by (cbn [files]; apply lookup_insert_eq).
  cbn [files log app]. by rewrite insert_insert_eq.
Qed.

Lemma run_remove_if_there (p : string) (w : World) :
  catch (os_remove p) (λ _, ret tt) w = (Val tt, mkWorld (delete p (files w)) (log w)).
Proof.
  run_steps. destruct (files w !! p) as [c|] eqn:Hp; run_steps; [done|].
  rewrite delete_id by done. by rewrite world_eta.
Qed.

Lemma run_subprocess_run (argv : list string) (timeout : option nat) (w : World) :
  subprocess_run tool argv timeout w =
  let w1 := mkWorld (files w) (log w ++ [Subprocess argv timeout]) in
  match tool argv timeout w1 with
  | (Completed returncode stderr, fs) => (Val (returncode, stderr), mkWorld fs (log w1))
  | (TimedOut, fs) => (Exc TimeoutExpired, mkWorld fs (log w1))
  | (NotFound, fs) => (Exc FileNotFoundError, mkWorld fs (log w1))
  | (Crashed, fs) => (Exc OSError, mkWorld fs (log w1))
  end.
Proof.
  unfold subprocess_run. cbn zeta. cbn [files log].
  by destruct (tool argv timeout _) as [[returncode stderr| | |] fs].
Qed.

(** The first strategy of the JPEG engine, case by case. *)
Lemma run_jpeg_strategy_image2 (input_pattern : string) (framerate : Z) (w : World) :
  let cmd := ffmpeg_cmd_image2 input_pattern output_file framerate in
  let w1 := mkWorld (files w) (log w ++ [Print (Trying 1); Subprocess cmd (Some 300)]) in
  jpeg_strategy_image2 tool input_pattern output_file framerate w =
  match tool cmd (Some 300) w1 with
  | (Completed returncode _, fs) =>
      match fs !! output_file with
      | Some content =>
          if bool_decide (returncode = 0%Z) && bool_decide (1024 < length content)
          then (Val true, mkWorld fs (log w1 ++ [Print (Created 1 (length content))]))
          else (Val false, mkWorld fs (log w1 ++ [Print (StrategyFailed 1)]))
      | None => (Val false, mkWorld fs (log w1 ++ [Print (StrategyFailed 1)]))
      end
  | (TimedOut, fs) => (Val false, mkWorld fs (log w1 ++ [Print (StrategyTimedOut 1)]))
  | (_, fs) => (Val false, mkWorld fs (log w1 ++ [Print (StrategyError 1)]))
  end.
Proof.
  intros cmd w1. unfold jpeg_strategy_image2. fold cmd. run_steps.
  rewrite run_subprocess_run. cbn zeta. cbn [files log].
  rewrite <- !app_assoc. cbn [app]. fold w1.
  destruct (tool cmd (Some 300) w1) as [[returncode stderr| | |] fs];
    unfold timed_out_or_error; run_steps; try done.
  unfold accepted, output_viable.
  destruct (bool_decide (returncode = 0%Z)); run_steps.
  - destruct (fs !! output_file) as [content|] eqn:Hout.
    + rewrite bool_decide_eq_true_2 by eauto. run_steps. rewrite Hout. run_steps.
      destruct (bool_decide (1024 < length content)); cbn [andb]; run_steps; [|done].
      unfold report_created. run_steps. rewrite Hout. by run_steps.
    + rewrite bool_decide_eq_false_2 by (by intros [? ?]). by run_steps.
  - by destruct (fs !! output_file).
Qed.

(** The first strategy of the transport-stream engine, case by case. *)
Lemma run_ts_strategy_concat (ts_files : list string) (w : World) :
  let concat_file := Py.path_join input_dir "segment_list.txt" in
  let cmd := ts_cmd_concat concat_file output_file in
  let w1 := mkWorld (<[concat_file := segment_list_text abspath ts_files]> (files w))
              (log w ++ [Print (Trying 1);
                         Print (Info "Running ffmpeg concatenation (this may take a while for large files)...");
                         Subprocess cmd (Some 1800)]) in
  ts_strategy_concat tool abspath input_dir ts_files output_file w =
  match tool cmd (Some 1800) w1 with
  | (Completed returncode _, fs) =>
      match delete concat_file fs !! output_file with
      | Some content =>
          if bool_decide (returncode = 0%Z) && bool_decide (1024 < length content)
          then (Val true, mkWorld (delete concat_file fs)
                            (log w1 ++ [Print (Created 1 (length content))]))
          else (Val false, mkWorld (delete concat_file fs)
                             (log w1 ++ [Print (StrategyFailed 1)]))
      | None => (Val false, mkWorld (delete concat_file fs)
                              (log w1 ++ [Print (StrategyFailed 1)]))
      end
  | (TimedOut, fs) => (Val false, mkWorld fs (log w1 ++ [Print (StrategyTimedOut 1)]))
  | (_, fs) => (Val false, mkWorld fs (log w1 ++ [Print (StrategyError 1)]))
  end.
Proof.
  intros concat_file cmd w1. unfold ts_strategy_concat. fold concat_file cmd.
  rewrite run_bind, run_print. cbn beta iota. rewrite run_catch, run_bind.
  rewrite run_write_segment_list. cbn beta iota. cbn [files log].
  rewrite run_bind, run_print. cbn beta iota. cbn [files log].
  rewrite run_bind, run_subprocess_run. cbn zeta. cbn [files log].
  rewrite <- !app_assoc. cbn [app]. fold w1.
  destruct (tool cmd (Some 1800) w1) as [[returncode stderr| | |] fs];
    [|unfold timed_out_or_error; by run_steps..].
  cbn beta iota. rewrite run_bind, run_remove_if_there. cbn beta iota. cbn [files log].
  unfold ts_conclude, accepted, output_viable.
  destruct (bool_decide (returncode = 0%Z)); run_steps.
  - destruct (delete concat_file fs !! output_file) as [content|] eqn:Hout.
    + rewrite bool_decide_eq_true_2 by eauto. run_steps. rewrite Hout. run_steps.
      destruct (bool_decide (1024 < length content)); cbn [andb]; run_steps; [|done].
      unfold report_created. run_steps. rewrite Hout. by run_steps.
    + rewrite bool_decide_eq_false_2 by (by intros [? ?]). by run_steps.
  - by destruct (delete concat_file fs !! output_file).
Qed.

End FirstStrategy.

(** C8, at inputs where the code breaks it.  Artifacts of the strategies
    survive a run of either engine: the probe output test_output.mp4 of the
    copy strategy when its test run fails; the list file and the staged
    copies when the external tool runs into its time limit; and the probe
    output test_raw.mp4 of the raw-stream strategy on every path, its
    success path included. *)
Theorem C8_temporary_artifacts_left_behind :
  (∃ w', combine_jpegs_to_mp4 (tool_writes 1 10) sample_duration_text
           "frames" "movie.mp4" 30 one_frame_world = (Val false, w')
         ∧ dom (files w') =
             list_to_set ["frames/video0000.jpeg"; "movie.mp4"; "frames/test_output.mp4"])
  ∧ (∃ w', combine_jpegs_to_mp4 tool_hangs sample_duration_text
             "frames" "movie.mp4" 30 one_frame_world = (Val false, w')
           ∧ dom (files w') =
               list_to_set ["frames/video0000.jpeg"; "frames/file_list.txt";
                            "frames/temp_processing/frame000000.jpg"])
  ∧ (∃ w', combine_mpegts_segments_to_mp4 (tool_writes 0 10) same_path
             "out" "movie.mp4" one_ts_world = (Val false, w')
           ∧ dom (files w') =
               list_to_set ["out/segment0000.ts"; "movie.mp4"; "out/test_raw.mp4"])
  ∧ (∃ w', combine_mpegts_segments_to_mp4 tool_hangs same_path
             "out" "movie.mp4" one_ts_world = (Val false, w')
           ∧ dom (files w') =
               list_to_set ["out/segment0000.ts"; "out/segment_list.txt";
                            "out/temp_concat.ts"; "out/temp_raw.h264"]).
Proof.
  split_and!; (eexists; split; [vm_compute; reflexivity|vm_compute; reflexivity]).
Qed.

Section LadderClaim.

Context (tool : list string → option nat → World → proc_reply * gmap string (list byte)).
Context (abspath : string → string) (duration_text : Z → string).


End LadderClaim.



(** * Further properties of the scripts *)

(** ** Validator: what is kept *)


Lemma filter_snd_length {A B} (g : B → bool) (items : list (A * B)) :
  length (List.filter (λ item, g item.2) items) = length (List.filter g (items.*2)).
Proof.
  induction items as [|[a b] items IH]; [done|].
  rewrite fmap_cons. cbn [List.filter snd]. destruct (g b); cbn [length]; by rewrite ?IH.
Qed.


(** ** Fetcher: missing manifest, successful download, resumption *)

Section FetcherExtras.

Context (http : string → list (string * string) → World → http_reply).

(** X2.  Without the manifest file both fetchers print one error line and
    return [False]: nothing is requested and no file is touched. *)
Theorem fetch_without_manifest (m3u8_file_path output_directory : string) (w : World) :
  files w !! m3u8_file_path = None →
  (∀ base_url,
     download_segments_from_m3u8 http m3u8_file_path output_directory base_url w =
     (Val false, mkWorld (files w) (log w ++ [Print (ManifestNotFound m3u8_file_path)])))
  ∧ (∀ base_url,
     download_jpeg_segments http m3u8_file_path base_url output_directory w =
     (Val false, mkWorld (files w) (log w ++ [Print (ManifestNotFound m3u8_file_path)]))).
Proof.
  intros Hm. split; intros base_url;
    unfold download_segments_from_m3u8, download_jpeg_segments; run_steps;
    rewrite bool_decide_eq_false_2 by (rewrite Hm; by intros [? ?]); by run_steps.
Qed.

(** X3.  A request that is answered with a status below 400 (or above 599) and
    a body that arrives completely is saved: the slot holds exactly the chunks
    of the body in order, the counters do not change, and the request of
    [download_segments_from_m3u8] carries the User-Agent and Referer headers. *)
Theorem download_one_saves_body (slot : nat → string) (headers : list (string * string))
    (output_directory : string) (i : nat) (url : string) (c : counters) (w : World)
    (status_code : nat) (chunks : list (list byte)) :
  files w !! slot_path output_directory slot i = None →
  http url headers (request_world w url (slot_path output_directory slot i) headers) =
    Response status_code chunks false →
  ¬ (400 ≤ status_code < 600) →
  download_one http slot headers output_directory (i, url) c w =
  (Val c,
   mkWorld (<[slot_path output_directory slot i := concat chunks]> (files w))
     (log w ++ [Print (Downloading url (slot_path output_directory slot i));
                HttpGet url headers;
                Print (Downloaded (slot_path output_directory slot i))])).
Proof.
  intros Hslot Hreply Hstatus. rewrite run_download_one.
  unfold download_one_result, slot_path in *. cbn [fst snd]. rewrite Hslot. cbn zeta.
  rewrite Hreply, bool_decide_eq_false_2 by done. cbn [fst snd].
  unfold request_world. cbn [log]. by rewrite <- app_assoc.
Qed.

Lemma download_one_slot_or_error (slot : nat → string) (headers : list (string * string))
    (output_directory : string) (item : nat * string) (c : counters) (w : World) :
  ∃ c' w',
    download_one http slot headers output_directory item c w = (Val c', w')
    ∧ download_errors c ≤ download_errors c'
    ∧ (∀ p, is_Some (files w !! p) → is_Some (files w' !! p))
    ∧ (download_errors c' = download_errors c →
       is_Some (files w' !! slot_path output_directory slot item.1)).
Proof.
  rewrite run_download_one. unfold download_one_result, slot_path.
  destruct item as [i url]. cbn [fst snd].
  set (filename := Py.path_join output_directory (slot i)).
  destruct (files w !! filename) as [existing|] eqn:Hslot.
  { eexists _, _. split; [reflexivity|]. cbn [fst snd files download_errors].
    split_and!; [lia|done|]. intros _. by rewrite Hslot. }
  cbn zeta.
  assert (∀ data p, is_Some (files w !! p) → is_Some (<[filename := data]> (files w) !! p))
    as Hkeep.
  { intros data p Hp. destruct (decide (filename = p)) as [<-|Hne].
    - rewrite lookup_insert_eq. eauto.
    - by rewrite lookup_insert_ne. }
  destruct (http url headers _) as [|status_code chunks broken].
  { eexists _, _. split; [reflexivity|]. cbn [fst snd files download_errors].
    split_and!; [lia|done|lia]. }
  destruct (bool_decide (400 ≤ status_code < 600)).
  { eexists _, _. split; [reflexivity|]. cbn [fst snd files download_errors].
    split_and!; [lia|done|lia]. }
  destruct broken.
  - eexists _, _. split; [reflexivity|]. cbn [fst snd files download_errors].
    split_and!; [lia|by apply Hkeep|lia].
  - eexists _, _. split; [reflexivity|]. cbn [fst snd files download_errors].
    split_and!; [lia|by apply Hkeep|]. intros _. rewrite lookup_insert_eq. eauto.
Qed.

Lemma download_items_slot_or_error (slot : nat → string) (headers : list (string * string))
    (output_directory : string) (items : list (nat * string)) (c : counters) (w : World) :
  ∃ c' w',
    for_each items (download_one http slot headers output_directory) c w = (Val c', w')
    ∧ download_errors c ≤ download_errors c'
    ∧ (∀ p, is_Some (files w !! p) → is_Some (files w' !! p))
    ∧ (download_errors c' = download_errors c →
       ∀ item, item ∈ items →
               is_Some (files w' !! slot_path output_directory slot item.1)).
Proof.
  revert c w. induction items as [|item items IH]; intros c w.
  - exists c, w. cbn [for_each]. rewrite run_ret. split_and!; [done|lia|done|].
    intros _ item Hin. by apply elem_of_nil in Hin.
  - destruct (download_one_slot_or_error slot headers output_directory item c w)
      as (c1 & w1 & Hrun1 & Hle1 & Hkeep1 & Hslot1).
    destruct (IH c1 w1) as (c2 & w2 & Hrun2 & Hle2 & Hkeep2 & Hslot2).
    exists c2, w2. cbn [for_each]. rewrite run_bind, Hrun1, Hrun2.
    split_and!; [done|lia|by auto|].
    intros Heq item' [->|Hin]%elem_of_cons.
    + apply Hkeep2, Hslot1. lia.
    + apply Hslot2; [lia|done].
Qed.

(** X4.  Resumption. After a run of the download loop that ends with no error
    counted, the slot of every reference exists; a further run, against any
    server, then requests nothing, skips all N references and leaves the files
    as they are. *)
Theorem run_without_errors_fills_every_slot
    (slot : nat → string) (headers : list (string * string)) (output_directory : string)
    (urls : list string) (w : World) (c' : counters) (w' : World) :
  download_loop http slot headers output_directory urls w = (Val c', w') →
  download_errors c' = 0 →
  (∀ i, i < length urls → is_Some (files w' !! slot_path output_directory slot i))
  ∧ (∀ http2, ∃ w'' evs,
       download_loop http2 slot headers output_directory urls w' =
         (Val (mkCounters 0 (length urls)), w'')
       ∧ files w'' = files w'
       ∧ log w'' = log w' ++ evs
       ∧ count_events is_http_get evs = 0).
Proof.
  intros Hrun Herr. unfold download_loop in *.
  destruct (download_items_slot_or_error slot headers output_directory
              (Py.enumerate urls) (mkCounters 0 0) w)
    as (c2 & w2 & Hrun2 & _ & _ & Hslots).
  rewrite Hrun in Hrun2. injection Hrun2 as <- <-.
  assert (∀ i, i < length urls → is_Some (files w' !! slot_path output_directory slot i))
    as Hall.
  { intros i Hi. destruct (lookup_lt_is_Some_2 urls i Hi) as [url Hurl].
    apply (Hslots Herr (i, url)). unfold Py.enumerate.
    apply elem_of_lookup_imap. eauto. }
  split; [done|]. intros http2.
  rewrite download_items_all_present.
  2:{ intros [i url] Hin. cbn [fst]. apply Hall. by eapply elem_of_enumerate. }
  cbn [download_errors skipped_files Nat.add].
  assert (length (Py.enumerate urls) = length urls) as ->
    by (unfold Py.enumerate; apply length_imap).
  eexists _, (map _ (Py.enumerate urls)). split; [reflexivity|]. cbn [files log].
  split_and!; [done|done|].
  apply count_events_none, Forall_map, Forall_forall. by intros ? _.
Qed.

End FetcherExtras.

Lemma fetch_without_manifest_witness :
  download_segments_from_m3u8 http_down "playlist.m3u8" "out" None empty_world =
  (Val false, mkWorld (files empty_world)
                (log empty_world ++ [Print (ManifestNotFound "playlist.m3u8")])).
Proof.
  pose proof (fetch_without_manifest http_down "playlist.m3u8" "out" empty_world) as H.
  destruct H as [H _]; [reflexivity|]. apply H.
Defined.

Lemma download_one_saves_body_witness :
  download_one (http_ok ts_body) segment_filename browser_headers "out"
    (0, "https://cdn.example/seg0.ts") (mkCounters 0 0) empty_world =
  (Val (mkCounters 0 0),
   mkWorld (<[slot_path "out" segment_filename 0 := concat [ts_body]]> (files empty_world))
     (log empty_world
        ++ [Print (Downloading "https://cdn.example/seg0.ts" (slot_path "out" segment_filename 0));
            HttpGet "https://cdn.example/seg0.ts" browser_headers;
            Print (Downloaded (slot_path "out" segment_filename 0))])).
Proof.
  apply (download_one_saves_body (http_ok ts_body) segment_filename browser_headers "out" 0
           "https://cdn.example/seg0.ts" (mkCounters 0 0) empty_world 200 [ts_body]).
  - reflexivity.
  - reflexivity.
  - lia.
Defined.

Lemma run_without_errors_fills_every_slot_witness :
  (∀ i, i < length ["https://cdn.example/seg0.ts"] →
        is_Some (files (download_loop (http_ok ts_body) segment_filename browser_headers "out"
                          ["https://cdn.example/seg0.ts"] empty_world).2
                   !! slot_path "out" segment_filename i))
  ∧ (∀ http2, ∃ w'' evs,
       download_loop http2 segment_filename browser_headers "out"
         ["https://cdn.example/seg0.ts"]
         (download_loop (http_ok ts_body) segment_filename browser_headers "out"
            ["https://cdn.example/seg0.ts"] empty_world).2 =
         (Val (mkCounters 0 (length ["https://cdn.example/seg0.ts"])), w'')
       ∧ files w'' =
           files (download_loop (http_ok ts_body) segment_filename browser_headers "out"
                    ["https://cdn.example/seg0.ts"] empty_world).2
       ∧ log w'' =
           log (download_loop (http_ok ts_body) segment_filename browser_headers "out"
                  ["https://cdn.example/seg0.ts"] empty_world).2 ++ evs
       ∧ count_events is_http_get evs = 0).
Proof.
  apply (run_without_errors_fills_every_slot (http_ok ts_body) segment_filename
           browser_headers "out" ["https://cdn.example/seg0.ts"] empty_world
           (mkCounters 0 0)).
  - vm_compute. reflexivity.
  - reflexivity.
Defined.

(** ** Slot names below 10000 *)

(** X5.  For indices below 10000 the slot names of both scripts sort in index
    order, and different indices get different names. *)
Theorem slot_names_below_10000 (i j : nat) :
  i < 10 ^ 4 → j < 10 ^ 4 →
  (i < j → String.ltb (segment_filename i) (segment_filename j) = true
           ∧ String.ltb (video_filename i) (video_filename j) = true)
  ∧ (segment_filename i = segment_filename j → i = j)
  ∧ (video_filename i = video_filename j → i = j).
Proof.
  intros Hi Hj.
  assert (∀ s, String.ltb s s = false) as Hirrefl.
  { intros s. unfold String.ltb. pose proof (String.compare_antisym s s) as Hanti.
    destruct (String.compare s s); [done|discriminate Hanti|done]. }
  split_and!.
  - intros Hij. by apply slot_names_ordered_below_10000.
  - intros Heq. destruct (Nat.lt_trichotomy i j) as [Hlt|[->|Hgt]]; [|done|].
    + destruct (slot_names_ordered_below_10000 i j Hlt Hj) as [Hs _].
      rewrite Heq, Hirrefl in Hs. discriminate.
    + destruct (slot_names_ordered_below_10000 j i Hgt Hi) as [Hs _].
      rewrite Heq, Hirrefl in Hs. discriminate.
  - intros Heq. destruct (Nat.lt_trichotomy i j) as [Hlt|[->|Hgt]]; [|done|].
    + destruct (slot_names_ordered_below_10000 i j Hlt Hj) as [_ Hv].
      rewrite Heq, Hirrefl in Hv. discriminate.
    + destruct (slot_names_ordered_below_10000 j i Hgt Hi) as [_ Hv].
      rewrite Heq, Hirrefl in Hv. discriminate.
Qed.

Lemma slot_names_below_10000_witness :
  String.ltb (segment_filename 7) (segment_filename 8) = true
  ∧ String.ltb (video_filename 7) (video_filename 8) = true.
Proof.
  pose proof (slot_names_below_10000 7 8) as H.
  destruct H as [H _]; [simpl; lia | simpl; lia |].
  apply H. lia.
Defined.

(** ** Joining a relative reference to the base *)

Lemma string_rev_app_app (s1 s2 acc : string) :
  String.rev_app (s1 +:+ s2) acc = String.rev_app s2 (String.rev_app s1 acc).
Proof. revert acc. induction s1 as [|c s1 IH]; intros acc; [done|]. apply IH. Qed.

Lemma string_app_assoc (s1 s2 s3 : string) :
  (s1 +:+ s2) +:+ s3 = s1 +:+ (s2 +:+ s3).
Proof.
  induction s1 as [|c s1 IH]; [done|].
  change (String c ((s1 +:+ s2) +:+ s3) = String c (s1 +:+ (s2 +:+ s3))). by rewrite IH.
Qed.

Lemma string_app_nil_r (s : string) : s +:+ EmptyString = s.
Proof.
  induction s as [|c s IH]; [done|].
  change (String c (s +:+ EmptyString) = String c s). by rewrite IH.
Qed.

Lemma string_rev_app_spec (s acc : string) :
  String.rev_app s acc = String.rev s +:+ acc.
Proof.
  unfold String.rev. revert acc. induction s as [|c s IH]; intros acc; [done|].
  cbn [String.rev_app]. rewrite (IH (String c acc)), (IH (String c EmptyString)).
  by rewrite string_app_assoc.
Qed.

Lemma string_rev_app (s1 s2 : string) :
  String.rev (s1 +:+ s2) = String.rev s2 +:+ String.rev s1.
Proof.
  unfold String.rev at 1. rewrite string_rev_app_app, !string_rev_app_spec.
  by rewrite string_app_nil_r.
Qed.

Lemma string_rev_involutive (s : string) : String.rev (String.rev s) = s.
Proof.
  induction s as [|c s IH]; [done|].
  change (String c s) with (String c EmptyString +:+ s) at 1.
  rewrite string_rev_app, string_rev_app, IH. done.
Qed.

Lemma lstrip_by_no_head (p : ascii → bool) (s : string) :
  match Py.lstrip_by p s with
  | EmptyString => True
  | String c _ => p c = false
  end.
Proof.
  induction s as [|c s IH]; [done|]. unfold Py.lstrip_by. fold Py.lstrip_by.
  by destruct (p c) eqn:Hc.
Qed.

(** X6.  A relative reference is joined to the base by exactly one slash: the
    part taken from the base does not end with a slash, the part taken from
    the line does not start with one, and a trailing slash on the base makes
    no difference. *)
Theorem resolve_joins_with_one_slash (base line : string) :
  is_absolute line = false →
  resolve base line =
    Py.rstrip_slash base +:+ "/" +:+ Py.lstrip_slash (Py.strip line)
  ∧ Py.endswith "/" (Py.rstrip_slash base) = false
  ∧ Py.startswith "/" (Py.lstrip_slash (Py.strip line)) = false
  ∧ resolve (base +:+ "/") line = resolve base line.
Proof.
  intros Habs. unfold resolve. rewrite Habs. split_and!.
  - done.
  - unfold Py.endswith, Py.rstrip_slash, Py.rstrip_by. rewrite string_rev_involutive.
    pose proof (lstrip_by_no_head Py.is_slash (String.rev base)) as H.
    destruct (Py.lstrip_by Py.is_slash (String.rev base)) as [|c s]; [done|].
    unfold Py.is_slash in H. apply bool_decide_eq_false in H.
    unfold Py.startswith. cbn. rewrite bool_decide_eq_false_2; [done|]. congruence.
  - unfold Py.lstrip_slash.
    pose proof (lstrip_by_no_head Py.is_slash (Py.strip line)) as H.
    destruct (Py.lstrip_by Py.is_slash (Py.strip line)) as [|c s]; [done|].
    unfold Py.is_slash in H. apply bool_decide_eq_false in H.
    unfold Py.startswith. cbn. rewrite bool_decide_eq_false_2; [done|]. congruence.
  - assert (Py.rstrip_slash (base +:+ "/") = Py.rstrip_slash base) as ->; [|done].
    unfold Py.rstrip_slash, Py.rstrip_by. rewrite string_rev_app. reflexivity.
Qed.

Lemma resolve_joins_with_one_slash_witness :
  resolve "https://cdn.example/clips//" "  /seg0.jpeg" =
    Py.rstrip_slash "https://cdn.example/clips//" +:+ "/"
      +:+ Py.lstrip_slash (Py.strip "  /seg0.jpeg").
Proof.
  pose proof (resolve_joins_with_one_slash "https://cdn.example/clips//" "  /seg0.jpeg") as H.
  destruct H as [H _]; [reflexivity|]. exact H.
Defined.

(** ** Assembly engines: before and around the ladder *)

Section EngineExtras.

Context (tool : list string → option nat → World → proc_reply * gmap string (list byte)).
Context (abspath : string → string) (duration_text : Z → string).

Lemma run_ffmpeg_available (w : World) :
  ffmpeg_available tool w =
  match tool version_check None (after_version_check w (files w)) with
  | (Completed returncode _, fs) =>
      if bool_decide (returncode = 0%Z) then (Val true, after_version_check w fs)
      else (Val false, mkWorld fs (log (after_version_check w fs) ++ [Print FfmpegNotFound]))
  | (NotFound, fs) =>
      (Val false, mkWorld fs (log (after_version_check w fs) ++ [Print FfmpegNotFound]))
  | (TimedOut, fs) => (Exc TimeoutExpired, after_version_check w fs)
  | (Crashed, fs) => (Exc OSError, after_version_check w fs)
  end.
Proof.
  unfold ffmpeg_available, after_version_check, version_check.
  rewrite run_catch, run_bind, run_subprocess_run. cbn zeta. cbn [files log].
  destruct (tool _ None _) as [[returncode stderr| | |] fs]; run_steps; try done.
  destruct (bool_decide (returncode = 0%Z)); by run_steps.
Qed.

(** X7.  Without a working ffmpeg (the version check is not found, or exits
    with a non-zero code) both engines print one line and answer [False]; they
    invoke nothing else. Any other failure of the version check is not caught:
    it leaves the engine as an exception. *)
Theorem engines_need_ffmpeg (input_dir output_file : string) (framerate : Z)
    (w : World) (reply : proc_reply) (fs : gmap string (list byte)) :
  tool version_check None (after_version_check w (files w)) = (reply, fs) →
  ((reply = NotFound ∨ ∃ returncode stderr, reply = Completed returncode stderr
                                            ∧ returncode ≠ 0%Z) →
     combine_jpegs_to_mp4 tool duration_text input_dir output_file framerate w =
       (Val false, mkWorld fs (log (after_version_check w fs) ++ [Print FfmpegNotFound]))
     ∧ combine_mpegts_segments_to_mp4 tool abspath input_dir output_file w =
       (Val false, mkWorld fs (log (after_version_check w fs) ++ [Print FfmpegNotFound])))
  ∧ (reply = Crashed →
     combine_jpegs_to_mp4 tool duration_text input_dir output_file framerate w =
       (Exc OSError, after_version_check w fs)
     ∧ combine_mpegts_segments_to_mp4 tool abspath input_dir output_file w =
       (Exc OSError, after_version_check w fs)).
Proof.
  intros Hreply. unfold combine_jpegs_to_mp4, combine_mpegts_segments_to_mp4.
  rewrite !run_bind, run_ffmpeg_available, Hreply. split.
  - intros [->|(returncode & stderr & -> & Hrc)].
    + by run_steps.
    + rewrite bool_decide_eq_false_2 by done. by run_steps.
  - by intros ->.
Qed.


End EngineExtras.

Lemma engines_need_ffmpeg_witness :
  combine_jpegs_to_mp4 (λ _ _ w, (NotFound, files w)) sample_duration_text
    "frames" "movie.mp4" 30 one_frame_world =
  (Val false,
   mkWorld (files one_frame_world)
     (log (after_version_check one_frame_world (files one_frame_world))
        ++ [Print FfmpegNotFound])).
Proof.
  pose proof (engines_need_ffmpeg (λ _ _ w, (NotFound, files w)) same_path
                sample_duration_text "frames" "movie.mp4" 30 one_frame_world
                NotFound (files one_frame_world)) as H.
  destruct H as [H _]; [reflexivity|].
  destruct H as [H _]; [by left|]. exact H.
Defined.


(** ** Transport-stream engine: the format check *)

Lemma run_no_sync_byte (header : list byte) (w : World) :
  no_sync_byte header w =
  if existsb (λ b, bool_decide (b = x47)) (take 4 header) then (Val false, w)
  else if bool_decide (length (take 4 header) < 4) then (Exc IndexError, w)
  else (Val true, w).
Proof.
  unfold no_sync_byte, differs_from_sync.
  destruct header as [|b0 [|b1 [|b2 [|b3 rest]]]]; simpl;
    repeat case_bool_decide; simpl; run_steps; try done; try lia.
Qed.

(** X9.  The format check never raises and changes no file. It warns only when
    the first segment has at least four bytes and none of the first four is
    the sync byte 0x47: a sync byte in any of the four positions silences it.
    A first segment that cannot be opened, or that ends before a sync byte was
    seen, gives the could-not-check line instead. *)
Theorem check_file_format_report (ts_files : list string) (w : World) :
  check_file_format ts_files w =
  (Val tt, mkWorld (files w)
             (log w ++ Print CheckingFormat :: format_report ts_files (files w))).
Proof.
  unfold check_file_format, format_report. run_steps.
  destruct ts_files as [|first_file rest]; run_steps; [by rewrite <- app_assoc|].
  destruct (files w !! first_file) as [content|] eqn:Hfirst; run_steps;
    rewrite ?Hfirst; run_steps; [|by rewrite <- app_assoc].
  rewrite run_no_sync_byte. rewrite take_take.
  replace (4 `min` 4) with 4 by done.
  destruct (existsb _ _); run_steps; [by rewrite <- !app_assoc|].
  destruct (bool_decide (length (take 4 content) < 4)); run_steps;
    by rewrite <- !app_assoc.
Qed.

(** ** Transport-stream engine: the raw-stream strategy *)

Section RawStrategy.

Context (tool : list string → option nat → World → proc_reply * gmap string (list byte)).
Context (abspath : string → string).

Lemma never_true_ret_false : never_true (ret false).
Proof. intros w r w'. rewrite run_ret. by intros [= <- <-]. Qed.

Lemma never_true_bind {A} (m : M A) (k : A → M bool) :
  (∀ a, never_true (k a)) → never_true (bind m k).
Proof.
  intros Hk w r w'. rewrite run_bind. destruct (m w) as [[a|e] w1].
  - apply Hk.
  - by intros [= <- <-].
Qed.

Lemma never_true_catch (m : M bool) (h : exn → M bool) :
  never_true m → (∀ e, never_true (h e)) → never_true (catch m h).
Proof.
  intros Hm Hh w r w'. rewrite run_catch. destruct (m w) as [[b|e] w1] eqn:Hrun.
  - intros [= <- <-]. by eapply Hm.
  - apply Hh.
Qed.

Lemma never_true_ts_strategy_raw (input_dir : string) (ts_files : list string) :
  never_true (ts_strategy_raw tool input_dir ts_files).
Proof.
  unfold ts_strategy_raw.
  repeat first
    [ apply never_true_ret_false
    | apply never_true_bind; intros ?
    | apply never_true_catch; [|intros ?]
    | match goal with
      | |- never_true (if ?b then _ else _) => destruct b
      | |- never_true (match ?x with _ => _ end) => destruct x
      end ].
Qed.

Lemma first_success_app (l1 l2 : list (M bool)) (w : World) :
  first_success (l1 ++ l2) w =
  match first_success l1 w with
  | (Val false, w1) => first_success l2 w1
  | other => other
  end.
Proof.
  revert w. induction l1 as [|s l1 IH]; intros w; cbn [app first_success].
  - by rewrite run_ret.
  - rewrite !run_bind. destruct (s w) as [[[|]|e] w1]; [by rewrite run_ret|apply IH|done].
Qed.

(** X10.  The raw-stream strategy (strategy 6) answers [False] on every path,
    whatever its two probes produce. So when the transport-stream engine
    answers [True], one of the strategies 1 to 5 has produced the output. *)
Theorem raw_stream_strategy_never_succeeds (input_dir output_file : string)
    (ts_files : list string) (w : World) :
  (∃ w', ts_strategy_raw tool input_dir ts_files w = (Val false, w'))
  ∧ ∀ w', combine_mpegts_segments_to_mp4 tool abspath input_dir output_file w =
            (Val true, w') →
          ∃ evs k, log w' = log w ++ evs
                   ∧ strategies_tried evs = seq 1 k
                   ∧ 1 ≤ k ≤ 5
                   ∧ viable (files w') output_file.
Proof.
  split.
  - destruct (ts_strategy_raw_contract tool input_dir output_file ts_files w)
      as (b & w' & _ & Hrun & _).
    destruct b; [|by exists w'].
    by destruct (never_true_ts_strategy_raw _ _ _ _ _ Hrun).
  - intros w'. unfold combine_mpegts_segments_to_mp4. rewrite run_bind.
    destruct (ffmpeg_available tool w) as [[available|e] w0] eqn:Havailable; [|done].
    destruct (quiet_ffmpeg_available _ _ _ _ Havailable) as (evs0 & Hlog0 & Hq0).
    destruct available; cbn [negb]; [|by rewrite run_ret].
    rewrite run_bind, run_sorted_glob.
    set (files_found := glob_listing _ _ _ _).
    destruct (bool_decide (files_found = [])); [by run_steps|].
    run_steps. set (w1 := mkWorld _ _).
    destruct (run_check_file_format files_found w1) as (w2 & evs2 & Hcheck & Hlog2 & Hq2).
    rewrite Hcheck. cbn beta iota. rewrite run_bind.
    change (ts_ladder tool abspath input_dir files_found output_file)
      with ([ts_strategy_concat tool abspath input_dir files_found output_file;
             ts_strategy_protocol tool abspath files_found output_file;
             ts_strategy_binary tool input_dir files_found output_file;
             ts_strategy_reencode tool abspath input_dir files_found output_file;
             ts_strategy_force tool abspath input_dir files_found output_file]
            ++ [ts_strategy_raw tool input_dir files_found]).
    rewrite first_success_app.
    match goal with |- context [first_success ?l w2] =>
      destruct (first_success_contract output_file l 1) with (w := w2)
        as (b & w3 & evs & k & Hrun & Hlog & Hq & Hk & Htrue & Hfalse) end.
    { intros i s Hs. destruct i as [|[|[|[|[|i]]]]]; simplify_eq/=.
      - apply ts_strategy_concat_contract.
      - apply ts_strategy_protocol_contract.
      - apply ts_strategy_binary_contract.
      - apply ts_strategy_reencode_contract.
      - apply ts_strategy_force_contract. }
    rewrite Hrun. cbn [length] in Hk. destruct b.
    + run_steps. intros [= <-]. destruct Htrue as [Hpos Hviable]; [done|].
      exists (evs0 ++ Print (FoundFiles (length files_found)) :: evs2 ++ evs), k.
      rewrite strategies_tried_app, Hq0. cbn [app].
      change (strategies_tried (Print (FoundFiles (length files_found)) :: evs2 ++ evs))
        with (strategies_tried (evs2 ++ evs)).
      rewrite strategies_tried_app, Hq2. cbn [app]. split_and!; [|done|lia|lia|done].
      rewrite Hlog, Hlog2. unfold w1. cbn [log]. rewrite Hlog0. by rewrite <- !app_assoc.
    + cbn [first_success]. rewrite run_bind.
      destruct (ts_strategy_raw tool input_dir files_found w3) as [[[|]|e] w4] eqn:Hraw.
      * by destruct (never_true_ts_strategy_raw _ _ _ _ _ Hraw).
      * by run_steps.
      * done.
Qed.

End RawStrategy.

Lemma raw_stream_strategy_never_succeeds_witness :
  ∃ evs k,
    log (combine_mpegts_segments_to_mp4 (tool_writes 0 2000) same_path "out" "movie.mp4"
           one_ts_world).2 = log one_ts_world ++ evs
    ∧ strategies_tried evs = seq 1 k
    ∧ 1 ≤ k ≤ 5
    ∧ viable (files (combine_mpegts_segments_to_mp4 (tool_writes 0 2000) same_path "out"
                       "movie.mp4" one_ts_world).2) "movie.mp4".
Proof.
  destruct (raw_stream_strategy_never_succeeds (tool_writes 0 2000) same_path
              "out" "movie.mp4" [] one_ts_world) as [_ H].
  apply H. vm_compute. reflexivity.
Defined.

(** ** Maximum-tolerance strategies *)

Section ForceStrategies.

Context (tool : list string → option nat → World → proc_reply * gmap string (list byte)).
Context (abspath : string → string).

(** X11.  Strategy 4 of the JPEG engine accepts a viable output whatever the
    exit code of ffmpeg: with a non-zero code it still answers [True] and adds
    a warning line. It runs without a time limit. *)
Theorem jpeg_strategy_force_ignores_exit_code
    (input_pattern output_file : string) (framerate : Z) (w : World)
    (returncode : Z) (stderr : string) (fs : gmap string (list byte))
    (content : list byte) :
  let cmd := ffmpeg_cmd_force input_pattern output_file framerate in
  let w1 := mkWorld (files w) (log w ++ [Print (Trying 4); Subprocess cmd None]) in
  tool cmd None w1 = (Completed returncode stderr, fs) →
  fs !! output_file = Some content →
  1024 < length content →
  jpeg_strategy_force tool input_pattern output_file framerate w =
  (Val true,
   mkWorld fs (log w1 ++ Print (Created 4 (length content))
                 :: if bool_decide (returncode = 0%Z) then []
                    else [Print CreatedWithErrors])).
Proof.
  intros cmd w1 Hreply Hout Hsize. unfold jpeg_strategy_force. fold cmd. run_steps.
  rewrite run_subprocess_run. cbn zeta. cbn [files log].
  rewrite <- !app_assoc. cbn [app]. fold w1. rewrite Hreply. run_steps.
  unfold output_viable, report_created. run_steps.
  rewrite bool_decide_eq_true_2 by eauto. run_steps. rewrite Hout. run_steps.
  rewrite (bool_decide_eq_true_2 (1024 < length content)) by done. run_steps.
  rewrite Hout. run_steps.
  destruct (decide (returncode = 0%Z)) as [->|Hrc].
  - rewrite (bool_decide_eq_false_2 (0%Z ≠ 0%Z)) by (by intros ?).
    rewrite bool_decide_eq_true_2 by done. run_steps.
    unfold w1. cbn [log]. by rewrite <- ?app_assoc.
  - rewrite (bool_decide_eq_true_2 (returncode ≠ 0%Z)) by done.
    rewrite bool_decide_eq_false_2 by done. run_steps.
    unfold w1. cbn [log]. by rewrite <- !app_assoc.
Qed.

(** X12.  Strategy 5 of the transport-stream engine first runs ffprobe on the
    first segment. Its output is never used, yet when ffprobe cannot be
    started the strategy ends there: no list file is written, ffmpeg is not
    invoked, and the answer is [False]. *)
Theorem ts_strategy_force_needs_ffprobe
    (input_dir output_file first_file : string) (rest : list string) (w : World)
    (fs : gmap string (list byte)) :
  let probe := ts_cmd_probe first_file in
  let w1 := mkWorld (files w) (log w ++ [Print (Trying 5); Subprocess probe None]) in
  tool probe None w1 = (NotFound, fs) →
  ts_strategy_force tool abspath input_dir (first_file :: rest) output_file w =
  (Val false, mkWorld fs (log w1 ++ [Print (StrategyError 5)])).
Proof.
  intros probe w1 Hreply. unfold ts_strategy_force. run_steps.
  rewrite run_subprocess_run. cbn zeta. cbn [files log].
  rewrite <- !app_assoc. cbn [app]. fold probe. fold w1. rewrite Hreply. by run_steps.
Qed.

(** X13.  With ffprobe answering, strategy 5 accepts a viable output whatever
    the exit code of ffmpeg; the list file is removed before the output is
    tested. *)
Theorem ts_strategy_force_ignores_exit_code
    (input_dir output_file : string) (ts_files : list string) (first_file : string)
    (w : World) (probe_code returncode : Z) (probe_stderr stderr : string)
    (fs1 fs2 : gmap string (list byte)) (content : list byte) :
  let probe := ts_cmd_probe first_file in
  let concat_file := Py.path_join input_dir "segment_list.txt" in
  let cmd := ts_cmd_force concat_file output_file in
  let w1 := mkWorld (files w) (log w ++ [Print (Trying 5); Subprocess probe None]) in
  let w2 := mkWorld (<[concat_file := segment_list_text abspath ts_files]> fs1)
              (log w1 ++ [Subprocess cmd (Some 1800)]) in
  head ts_files = Some first_file →
  tool probe None w1 = (Completed probe_code probe_stderr, fs1) →
  tool cmd (Some 1800) w2 = (Completed returncode stderr, fs2) →
  delete concat_file fs2 !! output_file = Some content →
  1024 < length content →
  ts_strategy_force tool abspath input_dir ts_files output_file w =
  (Val true,
   mkWorld (delete concat_file fs2)
     (log w2 ++ Print (Created 5 (length content))
        :: if bool_decide (returncode = 0%Z) then [] else [Print CreatedWithErrors])).
Proof.
  intros probe concat_file cmd w1 w2 Hhead Hprobe Hreply Hout Hsize.
  destruct ts_files as [|f rest]; [done|]. injection Hhead as ->.
  unfold ts_strategy_force. fold probe concat_file cmd.
  rewrite run_bind, run_print. cbn beta iota. rewrite run_catch, run_bind, run_ret.
  cbn beta iota. rewrite run_bind, run_subprocess_run. cbn zeta. cbn [files log].
  rewrite <- !app_assoc. cbn [app]. fold probe. fold w1. rewrite Hprobe. cbn beta iota.
  rewrite run_bind, run_write_segment_list. cbn beta iota. cbn [files log].
  rewrite run_bind, run_subprocess_run. cbn zeta. cbn [files log].
  unfold w2, w1 in Hreply |- *. cbn [log] in Hreply |- *.
  rewrite Hreply. cbn beta iota.
  rewrite run_bind, run_remove_if_there. cbn beta iota. cbn [files log].
  unfold output_viable, report_created. run_steps.
  rewrite bool_decide_eq_true_2 by eauto. run_steps. rewrite Hout. run_steps.
  rewrite (bool_decide_eq_true_2 (1024 < length content)) by done. run_steps.
  rewrite Hout. run_steps.
  destruct (decide (returncode = 0%Z)) as [->|Hrc].
  - rewrite (bool_decide_eq_false_2 (0%Z ≠ 0%Z)) by (by intros ?).
    rewrite bool_decide_eq_true_2 by done. run_steps.
    unfold w1. cbn [log]. by rewrite <- ?app_assoc.
  - rewrite (bool_decide_eq_true_2 (returncode ≠ 0%Z)) by done.
    rewrite bool_decide_eq_false_2 by done. run_steps.
    unfold w1. cbn [log]. by rewrite <- !app_assoc.
Qed.

(** X14.  A first strategy that runs into its time limit (300 seconds for JPEG
    segments, 1800 seconds for transport-stream segments) is not fatal: the
    engine prints the time-out line and goes on with the second strategy, on
    the files as the interrupted tool left them. *)
Theorem first_strategy_timeout_escalates
    (duration_text : Z → string) (input_dir output_file : string) (framerate : Z)
    (jpeg_files ts_files : list string) (w : World) (fs : gmap string (list byte)) :
  (let cmd := ffmpeg_cmd_image2 (Py.path_join input_dir "video%04d.jpeg")
                output_file framerate in
   let w1 := mkWorld (files w) (log w ++ [Print (Trying 1); Subprocess cmd (Some 300)]) in
   let ladder := jpeg_ladder tool duration_text input_dir jpeg_files output_file
                   framerate in
   tool cmd (Some 300) w1 = (TimedOut, fs) →
   first_success ladder w =
   first_success (drop 1 ladder) (mkWorld fs (log w1 ++ [Print (StrategyTimedOut 1)])))
  ∧ (let concat_file := Py.path_join input_dir "segment_list.txt" in
     let cmd := ts_cmd_concat concat_file output_file in
     let w1 := mkWorld (<[concat_file := segment_list_text abspath ts_files]> (files w))
                 (log w ++ [Print (Trying 1);
                            Print (Info "Running ffmpeg concatenation (this may take a while for large files)...");
                            Subprocess cmd (Some 1800)]) in
     let ladder := ts_ladder tool abspath input_dir ts_files output_file in
     tool cmd (Some 1800) w1 = (TimedOut, fs) →
     first_success ladder w =
     first_success (drop 1 ladder) (mkWorld fs (log w1 ++ [Print (StrategyTimedOut 1)]))).
Proof.
  split.
  - intros cmd w1 ladder Hreply.
    pose proof (run_jpeg_strategy_image2 tool output_file
                  (Py.path_join input_dir "video%04d.jpeg") framerate w) as Hrun.
    cbn zeta in Hrun. fold cmd w1 in Hrun. rewrite Hreply in Hrun.
    unfold ladder, jpeg_ladder. cbn [first_success drop]. by rewrite run_bind, Hrun.
  - intros concat_file cmd w1 ladder Hreply.
    pose proof (run_ts_strategy_concat tool abspath input_dir output_file ts_files w) as Hrun.
    cbn zeta in Hrun. fold concat_file cmd w1 in Hrun. rewrite Hreply in Hrun.
    unfold ladder, ts_ladder. cbn [first_success drop]. by rewrite run_bind, Hrun.
Qed.

End ForceStrategies.

Lemma jpeg_strategy_force_ignores_exit_code_witness :
  jpeg_strategy_force (tool_writes 1 2000) "frames/video%04d.jpeg" "movie.mp4" 30
    one_frame_world =
  (Val true,
   mkWorld (<["movie.mp4" := replicate 2000 x00]> (files one_frame_world))
     ((log one_frame_world
         ++ [Print (Trying 4);
             Subprocess (ffmpeg_cmd_force "frames/video%04d.jpeg" "movie.mp4" 30) None])
        ++ [Print (Created 4 (length (replicate 2000 x00))); Print CreatedWithErrors])).
Proof.
  apply (jpeg_strategy_force_ignores_exit_code (tool_writes 1 2000)
           "frames/video%04d.jpeg" "movie.mp4" 30 one_frame_world 1 EmptyString
           (<["movie.mp4" := replicate 2000 x00]> (files one_frame_world))
           (replicate 2000 x00)).
  - reflexivity.
  - reflexivity.
  - vm_compute. lia.
Defined.

Lemma ts_strategy_force_needs_ffprobe_witness :
  ts_strategy_force (tool_without_ffprobe 0 2000) same_path "out"
    ["out/segment0000.ts"] "movie.mp4" one_ts_world =
  (Val false,
   mkWorld (files one_ts_world)
     ((log one_ts_world
         ++ [Print (Trying 5); Subprocess (ts_cmd_probe "out/segment0000.ts") None])
        ++ [Print (StrategyError 5)])).
Proof.
  apply (ts_strategy_force_needs_ffprobe (tool_without_ffprobe 0 2000) same_path
           "out" "movie.mp4" "out/segment0000.ts" [] one_ts_world (files one_ts_world)).
  reflexivity.
Defined.

Lemma first_strategy_timeout_escalates_witness :
  first_success
    (jpeg_ladder tool_hangs sample_duration_text "frames" ["frames/video0000.jpeg"]
       "movie.mp4" 30) one_frame_world =
  first_success
    (drop 1 (jpeg_ladder tool_hangs sample_duration_text "frames"
               ["frames/video0000.jpeg"] "movie.mp4" 30))
    (mkWorld (files one_frame_world)
       ((log one_frame_world
           ++ [Print (Trying 1);
               Subprocess (ffmpeg_cmd_image2 (Py.path_join "frames" "video%04d.jpeg")
                             "movie.mp4" 30) (Some 300)])
          ++ [Print (StrategyTimedOut 1)])).
Proof.
  destruct (first_strategy_timeout_escalates tool_hangs same_path sample_duration_text
              "frames" "movie.mp4" 30 ["frames/video0000.jpeg"] [] one_frame_world
              (files one_frame_world)) as [H _].
  apply H. reflexivity.
Defined.

Lemma ts_strategy_force_ignores_exit_code_witness :
  ∃ w', ts_strategy_force (tool_writes 1 2000) same_path "out" ["out/segment0000.ts"]
          "movie.mp4" one_ts_world = (Val true, w')
        ∧ dom (files w') = list_to_set ["out/segment0000.ts"; "movie.mp4"]
        ∧ log w' = [Print (Trying 5);
                    Subprocess (ts_cmd_probe "out/segment0000.ts") None;
                    Subprocess (ts_cmd_force "out/segment_list.txt" "movie.mp4") (Some 1800);
                    Print (Created 5 2000); Print CreatedWithErrors].
Proof.
  eexists. split.
  - apply (ts_strategy_force_ignores_exit_code (tool_writes 1 2000) same_path
             "out" "movie.mp4" ["out/segment0000.ts"] "out/segment0000.ts" one_ts_world
             0 1 EmptyString EmptyString (files one_ts_world)
             (<["movie.mp4" := replicate 2000 x00]>
                (<["out/segment_list.txt" :=
                     segment_list_text same_path ["out/segment0000.ts"]]>
                   (files one_ts_world)))
             (replicate 2000 x00)).
    + reflexivity.
    + reflexivity.
    + reflexivity.
    + vm_compute. reflexivity.
    + vm_compute. lia.
  - split; vm_compute; reflexivity.
Defined.

(** ** Network and external tool are kept apart *)

Section EmitsOnly.

Context (http : string → list (string * string) → World → http_reply).
Context (tool : list string → option nat → World → proc_reply * gmap string (list byte)).
Context (allowed : event → bool).
Hypothesis allowed_local : ∀ e, is_local e = true → allowed e = true.

Lemma emits_only_step {A} (m : M A) :
  (∀ w, ∃ r fs evs, m w = (r, mkWorld fs (log w ++ evs))
                    ∧ Forall (λ e, allowed e = true) evs) →
  emits_only allowed m.
Proof.
  intros H w r w' Hrun. destruct (H w) as (r0 & fs & evs & Hm & Hq).
  rewrite Hm in Hrun. injection Hrun as <- <-. eauto.
Qed.

Lemma emits_only_same_log {A} (m : M A) :
  (∀ w, ∃ r fs, m w = (r, mkWorld fs (log w))) → emits_only allowed m.
Proof.
  intros H. apply emits_only_step. intros w. destruct (H w) as (r & fs & Hm).
  exists r, fs, []. by rewrite app_nil_r.
Qed.

Lemma emits_only_ret {A} (a : A) : emits_only allowed (ret a).
Proof.
  apply emits_only_same_log. intros w. exists (Val a), (files w).
  by rewrite run_ret, world_eta.
Qed.

Lemma emits_only_raise {A} (e : exn) : emits_only allowed (@raise A e).
Proof.
  apply emits_only_same_log. intros w. exists (Exc e), (files w).
  by rewrite run_raise, world_eta.
Qed.

Lemma emits_only_bind {A B} (m : M A) (k : A → M B) :
  emits_only allowed m → (∀ a, emits_only allowed (k a)) → emits_only allowed (bind m k).
Proof.
  intros Hm Hk w r w'. rewrite run_bind.
  destruct (m w) as [[a|e] w1] eqn:Hrun; destruct (Hm _ _ _ Hrun) as (evs1 & Hlog1 & Hq1).
  - intros Hrun2. destruct (Hk _ _ _ _ Hrun2) as (evs2 & Hlog2 & Hq2).
    exists (evs1 ++ evs2). rewrite Hlog2, Hlog1, Forall_app. by rewrite app_assoc.
  - intros [= <- <-]. eauto.
Qed.

Lemma emits_only_catch {A} (m : M A) (h : exn → M A) :
  emits_only allowed m → (∀ e, emits_only allowed (h e)) → emits_only allowed (catch m h).
Proof.
  intros Hm Hh w r w'. rewrite run_catch.
  destruct (m w) as [[a|e] w1] eqn:Hrun; destruct (Hm _ _ _ Hrun) as (evs1 & Hlog1 & Hq1).
  - intros [= <- <-]. eauto.
  - intros Hrun2. destruct (Hh _ _ _ _ Hrun2) as (evs2 & Hlog2 & Hq2).
    exists (evs1 ++ evs2). rewrite Hlog2, Hlog1, Forall_app. by rewrite app_assoc.
Qed.

Lemma emits_only_for_each {A S} (l : list A) (body : A → S → M S) (acc : S) :
  (∀ x s, emits_only allowed (body x s)) → emits_only allowed (for_each l body acc).
Proof.
  intros Hbody. revert acc. induction l as [|x l IH]; intros acc; cbn [for_each].
  - apply emits_only_ret.
  - apply emits_only_bind; [apply Hbody|]. intros acc'. apply IH.
Qed.

Lemma emits_only_print (m : message) : emits_only allowed (print m).
Proof.
  apply emits_only_step. intros w. exists (Val tt), (files w), [Print m].
  rewrite run_print. split; [done|]. repeat constructor. by apply allowed_local.
Qed.

Lemma emits_only_os_path_exists (p : string) : emits_only allowed (os_path_exists p).
Proof.
  apply emits_only_same_log. intros w. eexists _, (files w).
  by rewrite run_os_path_exists, world_eta.
Qed.

Lemma emits_only_os_path_getsize (p : string) : emits_only allowed (os_path_getsize p).
Proof.
  apply emits_only_same_log. intros w. rewrite run_os_path_getsize.
  destruct (files w !! p) as [c|]; eexists _, (files w); by rewrite world_eta.
Qed.

Lemma emits_only_os_remove (p : string) : emits_only allowed (os_remove p).
Proof.
  apply emits_only_same_log. intros w. rewrite run_os_remove.
  destruct (files w !! p) as [c|]; [by eexists _, _|].
  eexists _, (files w). by rewrite world_eta.
Qed.

Lemma emits_only_open_rb (p : string) : emits_only allowed (open_rb p).
Proof.
  apply emits_only_step. intros w. rewrite run_open_rb.
  destruct (files w !! p) as [c|].
  - exists (Val c), (files w), [OpenRead p]. split; [done|].
    repeat constructor. by apply allowed_local.
  - exists (Exc FileNotFoundError), (files w), []. by rewrite app_nil_r, world_eta.
Qed.

Lemma emits_only_open_w (p : string) : emits_only allowed (open_w p).
Proof. apply emits_only_same_log. intros w. rewrite run_open_w. by eexists _, _. Qed.

Lemma emits_only_write (p : string) (data : list byte) : emits_only allowed (write p data).
Proof. apply emits_only_same_log. intros w. rewrite run_write. by eexists _, _. Qed.

Lemma emits_only_shutil_rmtree (d : string) : emits_only allowed (shutil_rmtree d).
Proof. apply emits_only_same_log. intros w. rewrite run_shutil_rmtree. by eexists _, _. Qed.

Lemma emits_only_shutil_copy2 (src dst : string) :
  emits_only allowed (shutil_copy2 src dst).
Proof.
  apply emits_only_same_log. intros w. unfold shutil_copy2.
  destruct (files w !! src) as [c|]; [by eexists _, _|].
  eexists _, (files w). by rewrite world_eta.
Qed.

Lemma emits_only_sorted_glob (d prefix suffix : string) :
  emits_only allowed (sorted_glob d prefix suffix).
Proof.
  apply emits_only_same_log. intros w. rewrite run_sorted_glob.
  eexists _, (files w). by rewrite world_eta.
Qed.

Lemma emits_only_subprocess_run (argv : list string) (timeout : option nat) :
  (∀ a t, allowed (Subprocess a t) = true) →
  emits_only allowed (subprocess_run tool argv timeout).
Proof.
  intros Hallowed. apply emits_only_step. intros w. rewrite run_subprocess_run.
  cbn zeta. cbn [files log].
  destruct (tool argv timeout _) as [[returncode stderr| | |] fs];
    eexists _, fs, [Subprocess argv timeout]; (split; [done|]);
    repeat constructor; apply Hallowed.
Qed.

Lemma emits_only_requests_get (url : string) (headers : list (string * string)) :
  (∀ u h, allowed (HttpGet u h) = true) →
  emits_only allowed (requests_get http url headers).
Proof.
  intros Hallowed. apply emits_only_step. intros w. unfold requests_get.
  destruct (http url headers _) as [|status_code chunks broken];
    eexists _, (files w), [HttpGet url headers]; (split; [done|]);
    repeat constructor; apply Hallowed.
Qed.

End EmitsOnly.

(** Goals of the shape [emits_only allowed m], by the structure of [m]. *)
Ltac emits_only_tac :=
  repeat first
    [ apply emits_only_ret | apply emits_only_raise
    | apply emits_only_print; assumption
    | apply emits_only_os_path_exists | apply emits_only_os_path_getsize
    | apply emits_only_os_remove | apply emits_only_open_w | apply emits_only_write
    | apply emits_only_open_rb; assumption
    | apply emits_only_shutil_rmtree | apply emits_only_shutil_copy2
    | apply emits_only_sorted_glob
    | apply emits_only_subprocess_run; assumption
    | apply emits_only_requests_get; assumption
    | apply emits_only_bind; [|intros ?]
    | apply emits_only_catch; [|intros ?]
    | apply emits_only_for_each; intros ? ?
    | match goal with
      | |- emits_only _ (if ?b then _ else _) => destruct b
      | |- emits_only _ (match ?x with _ => _ end) => destruct x
      | |- emits_only _ ((match ?x with _ => _ end) _) => destruct x
      | |- emits_only _ (let (_, _) := ?x in _) => destruct x
      end ].

Section Separation.

Context (http : string → list (string * string) → World → http_reply).
Context (tool : list string → option nat → World → proc_reply * gmap string (list byte)).
Context (abspath : string → string) (duration_text : Z → string).

Lemma emits_only_download_segments_from_m3u8
    (m3u8_file_path output_directory : string) (base_url : option string) :
  emits_only (λ e, negb (is_subprocess e))
    (download_segments_from_m3u8 http m3u8_file_path output_directory base_url).
Proof.
  assert (∀ e, is_local e = true → negb (is_subprocess e) = true) as Hlocal
    by (by intros []).
  assert (∀ u h, negb (is_subprocess (HttpGet u h)) = true) as Hget by done.
  unfold download_segments_from_m3u8, read_manifest, collect_segment_url, download_loop,
    download_one, report, save_stream, raise_for_status.
  emits_only_tac.
Qed.

Lemma emits_only_download_jpeg_segments
    (m3u8_file_path base_url output_directory : string) :
  emits_only (λ e, negb (is_subprocess e))
    (download_jpeg_segments http m3u8_file_path base_url output_directory).
Proof.
  assert (∀ e, is_local e = true → negb (is_subprocess e) = true) as Hlocal
    by (by intros []).
  assert (∀ u h, negb (is_subprocess (HttpGet u h)) = true) as Hget by done.
  unfold download_jpeg_segments, read_manifest, download_loop,
    download_one, report, save_stream, raise_for_status.
  emits_only_tac.
Qed.

Lemma emits_only_validate_and_fix_jpegs (input_dir : string) :
  emits_only is_local (validate_and_fix_jpegs input_dir).
Proof.
  assert (∀ e, is_local e = true → is_local e = true) as Hlocal by done.
  unfold validate_and_fix_jpegs, validate_one, read_last_two.
  emits_only_tac.
Qed.

Lemma emits_only_combine_jpegs_to_mp4 (input_dir output_file : string) (framerate : Z) :
  emits_only (λ e, negb (is_http_get e))
    (combine_jpegs_to_mp4 tool duration_text input_dir output_file framerate).
Proof.
  assert (∀ e, is_local e = true → negb (is_http_get e) = true) as Hlocal
    by (by intros []).
  assert (∀ a t, negb (is_http_get (Subprocess a t)) = true) as Hrun by done.
  unfold combine_jpegs_to_mp4, ffmpeg_available,
    jpeg_ladder, jpeg_strategy_image2, jpeg_strategy_concat, jpeg_strategy_copy,
    jpeg_strategy_force, timed_out_or_error, accepted, output_viable, report_created,
    write_duration, copy_frames.
  emits_only_tac.
Qed.

Lemma emits_only_combine_mpegts_segments_to_mp4 (input_dir output_file : string) :
  emits_only (λ e, negb (is_http_get e))
    (combine_mpegts_segments_to_mp4 tool abspath input_dir output_file).
Proof.
  assert (∀ e, is_local e = true → negb (is_http_get e) = true) as Hlocal
    by (by intros []).
  assert (∀ a t, negb (is_http_get (Subprocess a t)) = true) as Hrun by done.
  unfold combine_mpegts_segments_to_mp4, ffmpeg_available, check_file_format,
    no_sync_byte, differs_from_sync,
    ts_ladder, ts_strategy_concat, ts_strategy_protocol, ts_strategy_binary,
    ts_strategy_reencode, ts_strategy_force, ts_strategy_raw, ts_conclude,
    timed_out_or_error, accepted, output_viable, report_created,
    write_segment_list, concatenate_into.
  emits_only_tac.
Qed.

(** X15.  Each stage keeps to its own capability, whatever server and tool do:
    the two fetchers never start an external program, the validator neither
    requests anything nor starts a program (it only prints and reads), and the
    two engines never send a request. *)
Theorem stages_keep_to_their_capability :
  (∀ m3u8_file_path output_directory base_url,
     emits_only (λ e, negb (is_subprocess e))
       (download_segments_from_m3u8 http m3u8_file_path output_directory base_url))
  ∧ (∀ m3u8_file_path base_url output_directory,
       emits_only (λ e, negb (is_subprocess e))
         (download_jpeg_segments http m3u8_file_path base_url output_directory))
  ∧ (∀ input_dir, emits_only is_local (validate_and_fix_jpegs input_dir))
  ∧ (∀ input_dir output_file framerate,
       emits_only (λ e, negb (is_http_get e))
         (combine_jpegs_to_mp4 tool duration_text input_dir output_file framerate))
  ∧ (∀ input_dir output_file,
       emits_only (λ e, negb (is_http_get e))
         (combine_mpegts_segments_to_mp4 tool abspath input_dir output_file)).
Proof.
  split_and!; intros.
  - apply emits_only_download_segments_from_m3u8.
  - apply emits_only_download_jpeg_segments.
  - apply emits_only_validate_and_fix_jpegs.
  - apply emits_only_combine_jpegs_to_mp4.
  - apply emits_only_combine_mpegts_segments_to_mp4.
Qed.

End Separation.

(** ** [main] of the transport-stream script *)



Section Main.

Context (http : string → list (string * string) → World → http_reply).
Context (tool : list string → option nat → World → proc_reply * gmap string (list byte)).
Context (abspath : string → string).


End Main.


(** ** Validator: a second pass *)

Lemma filter_none_length {A} (f : A → bool) (l : list A) :
  (∀ x, x ∈ l → f x = false) → length (List.filter f l) = 0.
Proof.
  induction l as [|x l IH]; intros Hall; [done|]. cbn [List.filter].
  rewrite (Hall x) by by left. apply IH. intros y Hy. apply Hall. by right.
Qed.

(** X17.  Validation is idempotent: a second pass over the directory finds
    every remaining segment valid, removes nothing and leaves every file as it
    is; its valid count is that of the first pass. *)
Theorem validate_and_fix_jpegs_idempotent (input_dir : string) (w : World)
    (valid_count removed_count : nat) (w' : World) :
  validate_and_fix_jpegs input_dir w = (Val (valid_count, removed_count), w') →
  ∃ w'', validate_and_fix_jpegs input_dir w' = (Val (valid_count, 0), w'')
         ∧ files w'' = files w'.
Proof.
  intros Hfirst.
  destruct (run_validate_and_fix_jpegs input_dir w) as (w1 & Hrun & Hfiles & _).
  cbn zeta in *. rewrite Hrun in Hfirst. injection Hfirst as Hvalid Hremoved <-.
  set (listing := glob_listing input_dir "video" ".jpeg" (files w)) in *.
  assert (∀ q, q ∈ glob_listing input_dir "video" ".jpeg" (files w1) →
               is_defective (files w1) q = false) as Hclean.
  { intros q [[content Hq] Hmatch]%elem_of_glob_listing.
    assert (q ∈ listing) as Hin.
    { apply elem_of_glob_listing. split; [|done]. rewrite Hfiles in Hq.
      destruct (bool_decide (q ∈ listing) && is_defective (files w) q); [done|eauto]. }
    rewrite Hfiles, (bool_decide_eq_true_2 _ Hin) in Hq. cbn [andb] in Hq.
    destruct (is_defective (files w) q) eqn:Hdef; [done|].
    unfold is_defective in *. rewrite Hfiles, (bool_decide_eq_true_2 _ Hin).
    cbn [andb]. fold (is_defective (files w) q). unfold is_defective.
    rewrite Hdef. by rewrite Hq in *. }
  destruct (run_validate_and_fix_jpegs input_dir w1) as (w2 & Hrun2 & Hfiles2 & _).
  cbn zeta in *. exists w2. split.
  - rewrite Hrun2. do 2 f_equal. f_equal.
    + rewrite <- Hvalid.
      rewrite !(filter_snd_length (λ q, negb (is_defective _ q))), !enumerate_snd.
      rewrite (List.forallb_filter_id) by
        (apply List.forallb_forall; intros q Hq%list_elem_of_In;
         by rewrite (Hclean q Hq)).
      apply Permutation_length, NoDup_Permutation.
      * apply NoDup_glob_listing.
      * apply NoDup_ListNoDup, List.NoDup_filter, NoDup_ListNoDup, NoDup_glob_listing.
      * intros q. rewrite elem_of_glob_listing, list_elem_of_In, List.filter_In,
          <- list_elem_of_In. fold listing. rewrite Hfiles.
        destruct (decide (q ∈ listing)) as [Hin|Hout].
        -- rewrite (bool_decide_eq_true_2 _ Hin). cbn [andb].
           pose proof Hin as [Hsome Hmatch]%elem_of_glob_listing.
           destruct (is_defective (files w) q); cbn [negb].
           ++ split; [by intros [[? ?] _]|by intros [_ ?]].
           ++ split; [done|by intros _].
        -- rewrite (bool_decide_eq_false_2 _ Hout). cbn [andb].
           split; [|by intros [? _]]. intros [Hsome Hmatch]. destruct Hout.
           by apply elem_of_glob_listing.
    + rewrite (filter_snd_length (is_defective (files w1))), enumerate_snd.
      apply filter_none_length. exact Hclean.
  - apply map_eq. intros q. rewrite Hfiles2.
    destruct (decide (q ∈ glob_listing input_dir "video" ".jpeg" (files w1))) as [Hin|Hout].
    + by rewrite (Hclean q Hin), andb_false_r.
    + by rewrite (bool_decide_eq_false_2 _ Hout).
Qed.

Lemma validate_and_fix_jpegs_idempotent_witness :
  ∃ w'', validate_and_fix_jpegs "frames" (validate_and_fix_jpegs "frames" tiny_frame_world).2
         = (Val (0, 0), w'')
         ∧ files w'' = files (validate_and_fix_jpegs "frames" tiny_frame_world).2.
Proof.
  apply (validate_and_fix_jpegs_idempotent "frames" tiny_frame_world 0 1).
  vm_compute. reflexivity.
Defined.

(** ** The single-command engine of the two older scripts *)

Section SimpleEngine.

Context (tool : list string → option nat → World → proc_reply * gmap string (list byte)).
Context (describe : exn → string).


End SimpleEngine.


(** ** [main] of the two older scripts *)


Section OlderScripts.

Context (http : string → list (string * string) → World → http_reply).
Context (tool : list string → option nat → World → proc_reply * gmap string (list byte)).
Context (describe : exn → string).






(** X21.  In [dowlnload_jpeg_contains_m3u8.py] a file that is already there
    does not stop the
    download: when the server answers with a complete body and a status that
    [raise_for_status] lets pass, the old contents are replaced by the body. *)
Theorem contains_script_overwrites (output_directory : string) (i : nat) (url : string)
    (w : World) (old : list byte) (status_code : nat) (chunks : list (list byte)) :
  let filename := Py.path_join output_directory (video_filename i) in
  files w !! filename = Some old →
  http url [] (request_world w url filename []) = Response status_code chunks false →
  ¬ 400 ≤ status_code < 600 →
  ContainsScript.main_download_one http output_directory (i, url) tt w =
  (Val tt, mkWorld (<[filename := concat chunks]> (files w))
             (log (request_world w url filename []) ++ [Print (Downloaded filename)])).
Proof.
  intros filename Hold Hreply Hstatus. unfold ContainsScript.main_download_one.
  fold filename. run_steps. unfold requests_get. cbn [files log].
  rewrite <- !app_assoc. cbn [app]. unfold request_world in Hreply. rewrite Hreply.
  unfold raise_for_status. rewrite bool_decide_eq_false_2 by done. run_steps.
  rewrite run_save_stream. run_steps. unfold request_world. cbn [log].
  by rewrite <- !app_assoc.
Qed.

End OlderScripts.



Lemma contains_script_overwrites_witness :
  ContainsScript.main_download_one (http_ok [x01; x02]) "frames"
    (0, "https://cdn.example/seg0.jpeg") tt jpeg_finished_world =
  (Val tt,
   mkWorld (<["frames/video0000.jpeg" := [x01; x02]]> (files jpeg_finished_world))
     [Print (Downloading "https://cdn.example/seg0.jpeg" "frames/video0000.jpeg");
      HttpGet "https://cdn.example/seg0.jpeg" [];
      Print (Downloaded "frames/video0000.jpeg")]).
Proof.
  apply (contains_script_overwrites (http_ok [x01; x02]) "frames" 0
           "https://cdn.example/seg0.jpeg" jpeg_finished_world [xff; xd8; xff; xd9]
           200 [[x01; x02]]).
  - reflexivity.
  - reflexivity.
  - lia.
Defined.

(** ** [ffmpeg_validate_jpegs] *)

Section DecodeTest.

Context (tool : list string → option nat → World → proc_reply * gmap string (list byte)).
Context (describe : exn → string).


Lemma run_remove_and_count (jpeg_file : string) (valid_count removed_count : nat)
    (w : World) :
  remove_and_count jpeg_file valid_count removed_count w =
  (Val (valid_count, removed_count + if files w !! jpeg_file is Some _ then 1 else 0),
   mkWorld (delete jpeg_file (files w)) (log w)).
Proof.
  unfold remove_and_count. run_steps.
  destruct (files w !! jpeg_file) as [c|] eqn:Hfile; run_steps; [done|].
  rewrite delete_id by done. by rewrite Nat.add_0_r, world_eta.
Qed.

(** One decode test, case by case: what is counted, which files remain, and
    that nothing else is started. *)
Lemma run_ffmpeg_validate_one (total_files i : nat) (jpeg_file : string)
    (valid_count removed_count : nat) (w : World)
    (reply : proc_reply) (fs : gmap string (list byte)) :
  tool (ffmpeg_cmd_decode jpeg_file) (Some 5) (decode_world w i total_files jpeg_file) =
    (reply, fs) →
  ∃ evs,
    ffmpeg_validate_one tool describe total_files (i, jpeg_file)
      (valid_count, removed_count) w =
    (Val (if decodes reply then (valid_count + 1, removed_count)
          else (valid_count,
                removed_count + if fs !! jpeg_file is Some _ then 1 else 0)),
     mkWorld (if decodes reply then fs else delete jpeg_file fs)
       (log (decode_world w i total_files jpeg_file) ++ evs))
    ∧ subprocess_events evs = [].
Proof.
  intros Hreply. unfold ffmpeg_validate_one.
  assert (∀ (k : M (nat * nat)) res (w' : World),
            k (mkWorld (files w) (log w ++ decode_progress i total_files)) = (res, w') →
            ((if bool_decide (i `mod` 50 = 0)
              then print (Info ("FFmpeg validation progress: " +:+ pretty i +:+ "/" +:+
                                pretty total_files +:+ " files processed..."))
              else ret tt) >> k) w = (res, w')) as Hprogress.
  { intros k res w' Hk. unfold decode_progress in Hk.
    destruct (bool_decide (i `mod` 50 = 0)); run_steps; [done|].
    by rewrite app_nil_r, world_eta in Hk. }
  unfold decode_world in Hreply |- *. cbn [log].
  assert (∀ (k : Z * string → M (nat * nat)) res (w' : World),
            match reply with
            | Completed returncode stderr =>
                k (returncode, stderr)
                  (mkWorld fs (log w ++ decode_progress i total_files ++
                                 [Subprocess (ffmpeg_cmd_decode jpeg_file) (Some 5)]))
            | TimedOut =>
                (Exc TimeoutExpired,
                 mkWorld fs (log w ++ decode_progress i total_files ++
                               [Subprocess (ffmpeg_cmd_decode jpeg_file) (Some 5)]))
            | NotFound =>
                (Exc FileNotFoundError,
                 mkWorld fs (log w ++ decode_progress i total_files ++
                               [Subprocess (ffmpeg_cmd_decode jpeg_file) (Some 5)]))
            | Crashed =>
                (Exc OSError,
                 mkWorld fs (log w ++ decode_progress i total_files ++
                               [Subprocess (ffmpeg_cmd_decode jpeg_file) (Some 5)]))
            end = (res, w') →
            bind (subprocess_run tool (ffmpeg_cmd_decode jpeg_file) (Some 5)) k
              (mkWorld (files w) (log w ++ decode_progress i total_files)) = (res, w'))
    as Hcall.
  { intros k res w' Hk. rewrite run_bind, run_subprocess_run. cbn zeta. cbn [files log].
    rewrite <- !app_assoc. rewrite Hreply. by destruct reply. }
  destruct reply as [returncode stderr| | |]; cbn [decodes].
  - destruct (bool_decide (returncode = 0%Z)) eqn:Hrc.
    + exists []. split; [|done]. apply Hprogress. rewrite run_catch.
      erewrite Hcall; [|cbn beta iota; rewrite Hrc, run_ret; done].
      by rewrite app_nil_r.
    + destruct (bool_decide (Py.strip stderr = EmptyString)) eqn:Hstderr;
        destruct (fs !! jpeg_file) as [c|] eqn:Hfile;
        (eexists; split;
         [apply Hprogress; rewrite run_catch;
          erewrite Hcall;
            [|cbn beta iota; rewrite Hrc, Hstderr; cbn [negb]; run_steps;
              rewrite Hfile; run_steps; done];
          cbn beta iota; run_steps; rewrite ?run_remove_and_count; cbn [files log];
          rewrite ?Hfile, <- !app_assoc; reflexivity
         |reflexivity]).
  - eexists. split.
    + apply Hprogress. rewrite run_catch. erewrite Hcall; [|done].
      cbn beta iota. run_steps. rewrite run_remove_and_count. cbn [files log].
      rewrite <- !app_assoc. reflexivity.
    + reflexivity.
  - eexists. split.
    + apply Hprogress. rewrite run_catch. erewrite Hcall; [|done].
      cbn beta iota. run_steps. rewrite run_remove_and_count. cbn [files log].
      rewrite <- !app_assoc. reflexivity.
    + reflexivity.
  - eexists. split.
    + apply Hprogress. rewrite run_catch. erewrite Hcall; [|done].
      cbn beta iota. run_steps. rewrite run_remove_and_count. cbn [files log].
      rewrite <- !app_assoc. reflexivity.
    + reflexivity.
Qed.



(** X23.  A listed file survives its decode test only when ffmpeg ran to the
    end with exit code 0. A non-zero exit code, a time-out, a crash and a
    missing ffmpeg all remove the file; it is counted as removed when it was
    still there to be removed. *)
Theorem ffmpeg_validate_one_verdict (total_files i : nat) (jpeg_file : string)
    (valid_count removed_count : nat) (w : World)
    (reply : proc_reply) (fs : gmap string (list byte)) :
  tool (ffmpeg_cmd_decode jpeg_file) (Some 5) (decode_world w i total_files jpeg_file) =
    (reply, fs) →
  ∃ c' w',
    ffmpeg_validate_one tool describe total_files (i, jpeg_file)
      (valid_count, removed_count) w = (Val c', w')
    ∧ (decodes reply = true → c' = (valid_count + 1, removed_count) ∧ files w' = fs)
    ∧ (decodes reply = false →
         files w' = delete jpeg_file fs
         ∧ c' = (valid_count, removed_count + if fs !! jpeg_file is Some _ then 1 else 0)).
Proof.
  intros Hreply.
  destruct (run_ffmpeg_validate_one total_files i jpeg_file valid_count removed_count
              w reply fs Hreply) as (evs & Hstep & _).
  eexists _, _. split; [exact Hstep|]. cbn [files].
  split; intros ->; done.
Qed.

End DecodeTest.

Lemma ffmpeg_validate_one_verdict_witness :
  ∃ c' w',
    ffmpeg_validate_one tool_rejects describe_by_name 1 (0, "frames/video0000.jpeg")
      (0, 0) one_frame_world = (Val c', w')
    ∧ files w' = delete "frames/video0000.jpeg" (files one_frame_world)
    ∧ c' = (0, 1).
Proof.
  destruct (ffmpeg_validate_one_verdict tool_rejects describe_by_name 1 0
              "frames/video0000.jpeg" 0 0 one_frame_world
              (Completed 1 "Invalid data found") (files one_frame_world) eq_refl)
    as (c' & w' & Hrun & _ & Hrejected).
  exists c', w'. split; [exact Hrun|]. by apply Hrejected.
Defined.

(** ** The two stand-alone JPEG combiners *)

Section Combiners.

Context (tool : list string → option nat → World → proc_reply * gmap string (list byte)).
Context (duration_text : Z → string).
Context (describe : exn → string).
Context (size_mb_text : nat → string).






End Combiners.




(** ** Base-URL normalisation of the two older scripts *)

Lemma endswith_slash_app (s : string) : Py.endswith "/" (s +:+ "/") = true.
Proof.
  unfold Py.endswith. rewrite string_rev_app.
  change (String.rev "/") with "/"%string. cbn [String.append Py.startswith].
  by rewrite ?bool_decide_eq_true_2.
Qed.

(** X27.  The normalisation in [main] of the two older scripts leaves an empty
    base empty, gives every other base exactly a trailing slash if it has
    none, and is idempotent. *)
Theorem main_base_url_normalises (base_url : string) :
  (main_base_url base_url = EmptyString ↔ base_url = EmptyString)
  ∧ (base_url ≠ EmptyString → Py.endswith "/" (main_base_url base_url) = true)
  ∧ (Py.endswith "/" base_url = true → main_base_url base_url = base_url)
  ∧ main_base_url (main_base_url base_url) = main_base_url base_url.
Proof.
  unfold main_base_url at 1 2 3 5.
  destruct (decide (base_url = EmptyString)) as [->|Hne].
  { split_and!; done. }
  rewrite (bool_decide_eq_false_2 (base_url = EmptyString)) by done. cbn [negb andb].
  destruct (Py.endswith "/" base_url) eqn:Hend; cbn [negb].
  - split_and!; [done|done|done|].
    unfold main_base_url. rewrite Hend. by rewrite andb_false_r.
  - split_and!.
    + split; [|done]. destruct base_url; [done|]. discriminate.
    + intros _. apply endswith_slash_app.
    + done.
    + unfold main_base_url. rewrite endswith_slash_app, Hend.
      rewrite (bool_decide_eq_false_2 (base_url = EmptyString)) by done.
      by rewrite andb_false_r.
Qed.

Lemma main_base_url_normalises_witness :
  Py.endswith "/" (main_base_url "https://cdn.example/clips") = true.
Proof.
  destruct (main_base_url_normalises "https://cdn.example/clips") as (_ & H & _).
  apply H. discriminate.
Defined.
